(** * ZION native miner 2.9: the mining session engine

    A shallow embedding of [desktop-agent/resources/zion_native_miner_v2_9.py]:
    the Stratum client ([StratumClient]), the shared job state, the nonce
    cursor and the share check of the CPU and GPU workers, followed by the
    properties of the session engine proved about them.

    Python integers are unbounded, so they are [Z]; [bytes] are lists of
    [Byte.byte]; values decoded from JSON are the inductive [json]; the
    client's sets and dictionaries keyed by request id are [gset Z] and
    [gmap Z _]; the job queue is a list in FIFO order. *)

From Stdlib Require Import ZArith List Ascii String Lia Bool.
From Stdlib.Strings Require Import Byte.
From stdpp Require Import base option list gmap strings.

Set Warnings "-register-all".
Local Open Scope Z_scope.

(* ===================================================================== *)
(** ** Python values and the built-ins the miner calls                   *)
(* ===================================================================== *)

Module Py.

(** A value produced by [json.loads].  JSON numbers are modelled as
    integers; [JNull] is Python's [None]; a [JDict] lists its items in
    insertion order, with distinct keys. *)
Inductive json : Type :=
| JNull
| JBool (b : bool)
| JNum (n : Z)
| JStr (s : string)
| JList (l : list json)
| JDict (d : list (string * json)).

Abbreviation dict := (list (string * json)).

(** Truth value of an object: [if x], [not x], [x or y]. *)
Definition truthy (v : json) : bool :=
  match v with
  | JNull => false
  | JBool b => b
  | JNum n => negb (n =? 0)
  | JStr s => negb (String.eqb s "")
  | JList l => match l with [] => false | _ => true end
  | JDict d => match d with [] => false | _ => true end
  end.

(** [x or y] *)
Definition or_else (x y : json) : json := if truthy x then x else y.

Fixpoint assoc (k : string) (d : dict) : option json :=
  match d with
  | [] => None
  | (k', v) :: d' => if String.eqb k k' then Some v else assoc k d'
  end.

(** [d.get(k)]: the value, or [None] when the key is absent. *)
Definition get (d : dict) (k : string) : json :=
  match assoc k d with Some v => v | None => JNull end.

(** [d.get(k, dflt)] *)
Definition get_default (d : dict) (k : string) (dflt : json) : json :=
  match assoc k d with Some v => v | None => dflt end.

(** [a == b] on decoded values: [True == 1] and [False == 0] hold, lists
    compare element by element, dictionaries item by item whatever the
    order. *)
Fixpoint eqb (a b : json) {struct a} : bool :=
  match a, b with
  | JNull, JNull => true
  | JBool x, JBool y => Bool.eqb x y
  | JBool x, JNum n => n =? Z.b2z x
  | JNum n, JBool x => n =? Z.b2z x
  | JNum n, JNum m => n =? m
  | JStr s, JStr t => String.eqb s t
  | JList l, JList m =>
      (fix all2 (l m : list json) {struct l} : bool :=
         match l, m with
         | [], [] => true
         | x :: l', y :: m' => eqb x y && all2 l' m'
         | _, _ => false
         end) l m
  | JDict d, JDict e =>
      Nat.eqb (length d) (length e) &&
      (fix items (d : dict) {struct d} : bool :=
         match d with
         | [] => true
         | (k, v) :: d' =>
             match assoc k e with
             | Some w => eqb v w
             | None => false
             end && items d'
         end) d
  | _, _ => false
  end.

(** [int(v)]: an integer is itself, [True] is 1 and [False] 0, a string
    goes through Python's integer parser [int_of_str]; [None], lists and
    dictionaries raise [TypeError].  The result [None] stands for a
    raised exception. *)
Definition int (int_of_str : string -> option Z) (v : json) : option Z :=
  match v with
  | JNum n => Some n
  | JBool b => Some (Z.b2z b)
  | JStr s => int_of_str s
  | JNull | JList _ | JDict _ => None
  end.

(** [v[:12]] is evaluated when a job is logged: it raises [TypeError]
    unless the value is a string or a list. *)
Definition sliceable (v : json) : bool :=
  match v with
  | JStr _ | JList _ => true
  | _ => false
  end.

Definition bytes := list byte.

Definition byte_val (x : byte) : Z := Z.of_N (Byte.to_N x).

Definition byte_of_Z (v : Z) : byte :=
  match Byte.of_N (Z.to_N v) with Some x => x | None => x00 end.

(** [int.from_bytes(b, 'little')] *)
Fixpoint int_from_bytes_little (b : bytes) : Z :=
  match b with
  | [] => 0
  | x :: r => byte_val x + 256 * int_from_bytes_little r
  end.

(** [int.from_bytes(b, 'big')] *)
Definition int_from_bytes_big (b : bytes) : Z :=
  fold_left (fun acc x => acc * 256 + byte_val x) b 0.

(** The lower-case hexadecimal digit of a value below 16. *)
Definition hex_digit (d : Z) : ascii :=
  if d <? 10 then ascii_of_N (Z.to_N (48 + d)) else ascii_of_N (Z.to_N (87 + d)).

(** Value of a hexadecimal digit in either case, as [bytes.fromhex] and
    [int(s, 16)] read it. *)
Definition hex_val (c : ascii) : option Z :=
  let n := Z.of_N (N_of_ascii c) in
  if (48 <=? n) && (n <=? 57) then Some (n - 48)
  else if (97 <=? n) && (n <=? 102) then Some (n - 87)
  else if (65 <=? n) && (n <=? 70) then Some (n - 55)
  else None.

(** ASCII white space, which [bytes.fromhex] skips between bytes. *)
Definition is_space (c : ascii) : bool :=
  let n := Z.of_N (N_of_ascii c) in
  (n =? 32) || ((9 <=? n) && (n <=? 13)).

(** [bytes.fromhex(s)]; [None] when it raises [ValueError]. *)
Fixpoint bytes_fromhex (s : string) : option bytes :=
  match s with
  | EmptyString => Some []
  | String c r =>
      if is_space c then bytes_fromhex r
      else match r with
           | EmptyString => None
           | String c' r' =>
               match hex_val c, hex_val c' with
               | Some hi, Some lo =>
                   match bytes_fromhex r' with
                   | Some bs => Some (byte_of_Z (16 * hi + lo) :: bs)
                   | None => None
                   end
               | _, _ => None
               end
           end
  end.

(** [b.hex()]: two lower-case digits per byte. *)
Fixpoint bytes_hex (b : bytes) : string :=
  match b with
  | [] => EmptyString
  | x :: r =>
      String (hex_digit (byte_val x / 16))
        (String (hex_digit (byte_val x mod 16)) (bytes_hex r))
  end.

(** The hexadecimal digits of a non-negative integer, most significant
    first, with no leading zero ("0" for zero).  [fuel] bounds the number
    of digits. *)
Fixpoint hex_digits_fuel (fuel : nat) (n : Z) : string :=
  match fuel with
  | O => EmptyString
  | S fuel' =>
      if n <? 16 then String (hex_digit n) EmptyString
      else String.append (hex_digits_fuel fuel' (n / 16))
                         (String (hex_digit (n mod 16)) EmptyString)
  end.

(** A number has no more hexadecimal digits than binary ones. *)
Definition hex_digits (n : Z) : string :=
  hex_digits_fuel (S (Z.to_nat (Z.log2 n))) n.

(** [hex(n)] *)
Definition hex (n : Z) : string :=
  if n <? 0 then String.append "-0x" (hex_digits (- n))
  else String.append "0x" (hex_digits n).

(** [s[k:]] *)
Fixpoint str_from (k : nat) (s : string) : string :=
  match k, s with
  | O, _ => s
  | S k', String _ r => str_from k' r
  | S _, EmptyString => EmptyString
  end.

Fixpoint zeros (k : nat) : string :=
  match k with
  | O => EmptyString
  | S k' => String "0" (zeros k')
  end.

(** [s.zfill(width)]: zeros are added on the left up to [width], after a
    leading sign if there is one; a string that is long enough is
    returned as it is. *)
Definition zfill (width : nat) (s : string) : string :=
  let len := String.length s in
  if (width <=? len)%nat then s
  else match s with
       | String c r =>
           if Ascii.eqb c "+" || Ascii.eqb c "-"
           then String c (String.append (zeros (width - len)) r)
           else String.append (zeros (width - len)) s
       | EmptyString => zeros width
       end.

(** Whether a character is one of [0123456789abcdef]. *)
Definition is_lower_hex (c : ascii) : bool :=
  let n := Z.of_N (N_of_ascii c) in
  ((48 <=? n) && (n <=? 57)) || ((97 <=? n) && (n <=? 102)).

Fixpoint all_lower_hex (s : string) : bool :=
  match s with
  | EmptyString => true
  | String c r => is_lower_hex c && all_lower_hex r
  end.

Fixpoint base16_from (acc : Z) (s : string) : option Z :=
  match s with
  | EmptyString => Some acc
  | String c r =>
      match hex_val c with
      | Some d => base16_from (16 * acc + d) r
      | None => None
      end
  end.

(** The number a string of hexadecimal digits writes, [int(s, 16)]: the
    reading of the nonce field by whoever receives a share.  [None] for
    the empty string and for a string with another character. *)
Definition int_base16 (s : string) : option Z :=
  match s with
  | EmptyString => None
  | _ => base16_from 0 s
  end.

End Py.

(* ===================================================================== *)
(** ** Exceptions and outcomes                                           *)
(* ===================================================================== *)

(** The exception classes the client's handlers tell apart. *)
Inductive exn : Type :=
| SocketTimeout               (* socket.timeout, itself an OSError *)
| OSError (msg : string)      (* any other OSError, ConnectionError included *)
| Exception (msg : string).   (* any exception that is not an OSError *)

Definition is_OSError (e : exn) : bool :=
  match e with
  | Exception _ => false
  | _ => true
  end.

(** How a call that returns nothing ends. *)
Inductive outcome : Type :=
| Done
| Raised (e : exn).

(* ===================================================================== *)
(** ** class StratumClient                                               *)
(* ===================================================================== *)

Module Stratum.
Import Py.

(** [last_disconnect_reason]: the f-strings of the source, kept as data. *)
Inductive disconnect_reason : Type :=
| ClientDisconnect                 (* "client disconnect" *)
| SendFailed (e : exn)             (* f"send failed: {e}" *)
| SocketError (e : exn)            (* f"socket error: {e}" *)
| ListenerError (e : exn).         (* f"listener error: {e}" *)

(** [last_share_error]: the text is [str(err)] or
    [f"Unexpected submit result: {result}"]; the value it renders is kept. *)
Inductive share_error : Type :=
| RejectedWith (err : json)
| UnexpectedResult (result : json).

(** The attributes of a [StratumClient].  [socket] tells whether
    [self.socket] is set; [outbox] is what [sendall] has written, oldest
    first.  The two attributes that only throttle the rejection log
    ([_last_reject_log_time], [_reject_log_suppressed]) and the locks are
    left out. *)
Record StratumClient : Type := {
  worker_id : string;
  socket : bool;
  outbox : list json;
  request_id : Z;
  job_queue : list dict;
  current_job : option dict;
  connected : bool;
  extranonce1 : json;
  extranonce2_size : Z;
  shares_sent : Z;
  shares_accepted : Z;
  shares_rejected : Z;
  last_share_error : option share_error;
  _pending_submit_ids : gset Z;
  last_disconnect_reason : option disconnect_reason;
  _wait_events : gmap Z bool;
  _wait_responses : gmap Z json
}.

(** [StratumClient.__init__] *)
Definition init (worker : string) : StratumClient := {|
  worker_id := worker;
  socket := false;
  outbox := [];
  request_id := 1;
  job_queue := [];
  current_job := None;
  connected := false;
  extranonce1 := JNull;
  extranonce2_size := 4;
  shares_sent := 0;
  shares_accepted := 0;
  shares_rejected := 0;
  last_share_error := None;
  _pending_submit_ids := ∅;
  last_disconnect_reason := None;
  _wait_events := ∅;
  _wait_responses := ∅
|}.

Definition set_jobs (q : list dict) (cur : option dict) (s : StratumClient)
  : StratumClient :=
  {| worker_id := worker_id s; socket := socket s; outbox := outbox s;
     request_id := request_id s; job_queue := q; current_job := cur;
     connected := connected s; extranonce1 := extranonce1 s;
     extranonce2_size := extranonce2_size s; shares_sent := shares_sent s;
     shares_accepted := shares_accepted s;
     shares_rejected := shares_rejected s;
     last_share_error := last_share_error s;
     _pending_submit_ids := _pending_submit_ids s;
     last_disconnect_reason := last_disconnect_reason s;
     _wait_events := _wait_events s;
     _wait_responses := _wait_responses s |}.

Definition set_outbox (o : list json) (s : StratumClient) : StratumClient :=
  {| worker_id := worker_id s; socket := socket s; outbox := o;
     request_id := request_id s; job_queue := job_queue s;
     current_job := current_job s; connected := connected s;
     extranonce1 := extranonce1 s; extranonce2_size := extranonce2_size s;
     shares_sent := shares_sent s; shares_accepted := shares_accepted s;
     shares_rejected := shares_rejected s;
     last_share_error := last_share_error s;
     _pending_submit_ids := _pending_submit_ids s;
     last_disconnect_reason := last_disconnect_reason s;
     _wait_events := _wait_events s;
     _wait_responses := _wait_responses s |}.

(** [self.last_disconnect_reason = r; self.connected = False] *)
Definition set_disconnected (r : disconnect_reason) (s : StratumClient)
  : StratumClient :=
  {| worker_id := worker_id s; socket := socket s; outbox := outbox s;
     request_id := request_id s; job_queue := job_queue s;
     current_job := current_job s; connected := false;
     extranonce1 := extranonce1 s; extranonce2_size := extranonce2_size s;
     shares_sent := shares_sent s; shares_accepted := shares_accepted s;
     shares_rejected := shares_rejected s;
     last_share_error := last_share_error s;
     _pending_submit_ids := _pending_submit_ids s;
     last_disconnect_reason := Some r;
     _wait_events := _wait_events s;
     _wait_responses := _wait_responses s |}.

(** The block under [_id_lock] in [submit_share]. *)
Definition register_submit (s : StratumClient) : StratumClient :=
  {| worker_id := worker_id s; socket := socket s; outbox := outbox s;
     request_id := request_id s + 1; job_queue := job_queue s;
     current_job := current_job s; connected := connected s;
     extranonce1 := extranonce1 s; extranonce2_size := extranonce2_size s;
     shares_sent := shares_sent s + 1; shares_accepted := shares_accepted s;
     shares_rejected := shares_rejected s;
     last_share_error := last_share_error s;
     _pending_submit_ids := {[ request_id s ]} ∪ _pending_submit_ids s;
     last_disconnect_reason := last_disconnect_reason s;
     _wait_events := _wait_events s;
     _wait_responses := _wait_responses s |}.

Definition set_share_stats (pending : gset Z) (acc rej : Z)
    (err : option share_error) (s : StratumClient) : StratumClient :=
  {| worker_id := worker_id s; socket := socket s; outbox := outbox s;
     request_id := request_id s; job_queue := job_queue s;
     current_job := current_job s; connected := connected s;
     extranonce1 := extranonce1 s; extranonce2_size := extranonce2_size s;
     shares_sent := shares_sent s; shares_accepted := acc;
     shares_rejected := rej; last_share_error := err;
     _pending_submit_ids := pending;
     last_disconnect_reason := last_disconnect_reason s;
     _wait_events := _wait_events s;
     _wait_responses := _wait_responses s |}.

Definition set_waits (ev : gmap Z bool) (resp : gmap Z json)
    (s : StratumClient) : StratumClient :=
  {| worker_id := worker_id s; socket := socket s; outbox := outbox s;
     request_id := request_id s; job_queue := job_queue s;
     current_job := current_job s; connected := connected s;
     extranonce1 := extranonce1 s; extranonce2_size := extranonce2_size s;
     shares_sent := shares_sent s; shares_accepted := shares_accepted s;
     shares_rejected := shares_rejected s;
     last_share_error := last_share_error s;
     _pending_submit_ids := _pending_submit_ids s;
     last_disconnect_reason := last_disconnect_reason s;
     _wait_events := ev; _wait_responses := resp |}.

Definition set_extranonce (e1 : json) (e2 : Z) (s : StratumClient)
  : StratumClient :=
  {| worker_id := worker_id s; socket := socket s; outbox := outbox s;
     request_id := request_id s; job_queue := job_queue s;
     current_job := current_job s; connected := connected s;
     extranonce1 := e1; extranonce2_size := e2;
     shares_sent := shares_sent s; shares_accepted := shares_accepted s;
     shares_rejected := shares_rejected s;
     last_share_error := last_share_error s;
     _pending_submit_ids := _pending_submit_ids s;
     last_disconnect_reason := last_disconnect_reason s;
     _wait_events := _wait_events s;
     _wait_responses := _wait_responses s |}.


(** What [socket.sendall] does with one message. *)
Inductive send_result : Type :=
| Sent
| SendRaises (e : exn).

(** [StratumClient._send_request]: [json.dumps(request)] followed by a
    newline is written to the socket. *)
Definition _send_request (request : json) (io : send_result)
    (s : StratumClient) : outcome * StratumClient :=
  if negb (socket s) then (Raised (OSError "Not connected"), s)
  else match io with
       | Sent => (Done, set_outbox (outbox s ++ [request]) s)
       | SendRaises e =>
           if is_OSError e then (Raised e, set_disconnected (SendFailed e) s)
           else (Raised e, s)
       end.

(** [hex(nonce)[2:].zfill(8)] *)
Definition nonce_hex (nonce : Z) : string := zfill 8 (str_from 2 (hex nonce)).

(** The XMRig-style submit request built by [submit_share]. *)
Definition submit_request (worker : string) (req_id : Z) (job_id : json)
    (nonce : Z) (result_hash : bytes) : json :=
  JDict [ ("id"%string, JNum req_id);
          ("jsonrpc"%string, JStr "2.0");
          ("method"%string, JStr "submit");
          ("params"%string,
            JDict [ ("id"%string, JStr worker);
                    ("job_id"%string, job_id);
                    ("nonce"%string, JStr (nonce_hex nonce));
                    ("result"%string, JStr (bytes_hex result_hash)) ]) ].

(** [StratumClient.submit_share]: the id is taken and registered and
    [shares_sent] is counted under [_id_lock], then the request is sent;
    any exception makes the call return [False]. *)
Definition submit_share (job_id : json) (nonce : Z) (result_hash : bytes)
    (io : send_result) (s : StratumClient) : bool * StratumClient :=
  let req_id := request_id s in
  let s1 := register_submit s in
  let request := submit_request (worker_id s) req_id job_id nonce result_hash in
  match _send_request request io s1 with
  | (Done, s2) => (true, s2)
  | (Raised _, s2) => (false, s2)
  end.

(** The loop of [get_job]: [get_nowait] until [Empty], keeping the last
    item taken. *)
Fixpoint drain (q : list dict) (latest : option dict) : option dict :=
  match q with
  | [] => latest
  | j :: q' => drain q' (Some j)
  end.

(** [StratumClient.get_job] *)
Definition get_job (s : StratumClient) : option dict * StratumClient :=
  let latest := drain (job_queue s) None in
  let cur := match latest with
             | Some j => Some j
             | None => current_job s
             end in
  (cur, set_jobs [] cur s).

(** [params[i] if len(params) > i else dflt] *)
Definition item_or (params : list json) (i : nat) (dflt : json) : json :=
  if (i <? length params)%nat then nth i params JNull else dflt.

(** The job built from the positional form of [mining.notify]. *)
Definition array_job (params : list json) : dict :=
  [ ("job_id"%string, nth 0 params JNull);
    ("blob"%string, nth 1 params JNull);
    ("seed_hash"%string, item_or params 2 (JStr ""));
    ("next_seed_hash"%string, item_or params 3 (JStr ""));
    ("height"%string, item_or params 4 (JNum 0));
    ("difficulty"%string, item_or params 5 (JNum 1));
    ("clean_jobs"%string, item_or params 6 (JBool true)) ].

(** The end of the [mining.notify] branch: with [clean_jobs] the queue is
    emptied first; the job becomes current and is queued. *)
Definition enqueue_job (job : dict) (s : StratumClient) : StratumClient :=
  let q := if truthy (get job "clean_jobs") then [] else job_queue s in
  set_jobs (q ++ [job]) (Some job) s.

(** The key under which an [int] (or [bool]) request id is looked up. *)
Definition int_key (v : json) : option Z :=
  match v with
  | JNum n => Some n
  | JBool b => Some (Z.b2z b)
  | _ => None
  end.

(** The end of [_handle_message]: a message with a [result] that is a
    list of two items or more is read as a subscribe response;
    [int(result[2])] may raise once [extranonce1] is set. *)
Definition legacy_subscribe (int_of_str : string -> option Z) (m : dict)
    (s : StratumClient) : outcome * StratumClient :=
  match assoc "result" m with
  | Some (JList l) =>
      if (2 <=? length l)%nat then
        if (3 <=? length l)%nat then
          match int int_of_str (nth 2 l JNull) with
          | Some z => (Done, set_extranonce (nth 1 l JNull) z s)
          | None =>
              (Raised (Exception "int"),
               set_extranonce (nth 1 l JNull) (extranonce2_size s) s)
          end
        else (Done, set_extranonce (nth 1 l JNull) (extranonce2_size s) s)
      else (Done, s)
  | _ => (Done, s)
  end.

(** The branch of [_handle_message] for a message without a known
    method: a response to one of our requests. *)
Definition handle_response (int_of_str : string -> option Z) (m : dict)
    (s : StratumClient) : outcome * StratumClient :=
  let req_id := get m "id" in
  let s1 :=
    match int_key req_id with
    | Some k =>
        match _wait_events s !! k with
        | Some _ =>
            set_waits (<[k := true]> (_wait_events s))
                      (<[k := JDict m]> (_wait_responses s)) s
        | None => s
        end
    | None => s
    end in
  match req_id with
  | JList _ | JDict _ => (Raised (Exception "TypeError"), s1)
  | _ =>
      match int_key req_id with
      | Some k =>
          if bool_decide (k ∈ _pending_submit_ids s1) then
            let pending := _pending_submit_ids s1 ∖ {[ k ]} in
            let err := get m "error" in
            if truthy err then
              (Done, set_share_stats pending (shares_accepted s1)
                       (shares_rejected s1 + 1) (Some (RejectedWith err)) s1)
            else
              let result := get m "result" in
              let accepted :=
                match result with
                | JDict r => eqb (get r "status") (JStr "OK")
                | JBool true => true
                | _ => false
                end in
              if accepted then
                (Done, set_share_stats pending (shares_accepted s1 + 1)
                         (shares_rejected s1) (last_share_error s1) s1)
              else
                (Done, set_share_stats pending (shares_accepted s1)
                         (shares_rejected s1 + 1)
                         (Some (UnexpectedResult result)) s1)
          else legacy_subscribe int_of_str m s1
      | None => legacy_subscribe int_of_str m s1
      end
  end.

(** [StratumClient._handle_message].  A message that is not an object
    has no [get]; [params[0]] raises on an object or a number. *)
Definition _handle_message (int_of_str : string -> option Z)
    (message : json) (s : StratumClient) : outcome * StratumClient :=
  match message with
  | JDict m =>
      let method := get m "method" in
      if eqb method (JStr "block_found") then (Done, s)
      else if eqb method (JStr "mining.notify") then
        let params := get_default m "params" (JList []) in
        if truthy params then
          match params with
          | JList (JDict job :: _) => (Done, enqueue_job job s)
          | JList l =>
              if (2 <=? length l)%nat
              then (Done, enqueue_job (array_job l) s)
              else (Done, s)
          | JStr _ => (Done, s)
          | JDict _ => (Raised (Exception "KeyError"), s)
          | _ => (Raised (Exception "TypeError"), s)
          end
        else (Done, s)
      else if eqb method (JStr "mining.set_difficulty") then
        let params := get_default m "params" (JList []) in
        if truthy params then
          match params with
          | JList _ | JStr _ => (Done, s)
          | JDict _ => (Raised (Exception "KeyError"), s)
          | _ => (Raised (Exception "TypeError"), s)
          end
        else (Done, s)
      else handle_response int_of_str m s
  | _ => (Raised (Exception "AttributeError"), s)
  end.

(** The job a [mining.notify] message makes [_handle_message] install,
    when it installs one. *)
Definition notify_job (message : json) : option dict :=
  match message with
  | JDict m =>
      if eqb (get m "method") (JStr "mining.notify") then
        match get_default m "params" (JList []) with
        | JList (JDict job :: _) => Some job
        | JList l => if (2 <=? length l)%nat then Some (array_job l) else None
        | _ => None
        end
      else None
  | _ => None
  end.

(** What one [socket.recv] does.  [RecvData ""] is the zero-length read
    of a connection closed by the peer. *)
Inductive recv_result : Type :=
| RecvData (data : string)     (* the bytes read, which decode as UTF-8 *)
| RecvBadUtf8                  (* bytes that [decode] rejects *)
| RecvRaises (e : exn)
| SocketClosed.                (* [fileno()] is -1 *)

(** The inner loop of [_listen_loop] run on [buffer + data]: each
    complete line is decoded and handled, a line that is not JSON is
    dropped, and what follows the last newline stays in the buffer.
    [line] collects the characters of the line being read.  When a
    handler raises, the buffer holds what follows the handled line. *)
Fixpoint feed_lines (json_loads : string -> option json)
    (int_of_str : string -> option Z) (line text : string)
    (s : StratumClient) : outcome * string * StratumClient :=
  match text with
  | EmptyString => (Done, line, s)
  | String c rest =>
      if Ascii.eqb c "010" then
        match json_loads line with
        | None => feed_lines json_loads int_of_str EmptyString rest s
        | Some message =>
            match _handle_message int_of_str message s with
            | (Done, s') => feed_lines json_loads int_of_str EmptyString rest s'
            | (Raised e, s') => (Raised e, rest, s')
            end
        end
      else feed_lines json_loads int_of_str
             (String.append line (String c EmptyString)) rest s
  end.

(** Where the listener is after an iteration. *)
Inductive listener : Type :=
| Listening (buffer : string)
| Exited.

(** The [except] clauses of [_listen_loop]. *)
Definition on_exception (e : exn) (buffer : string) (s : StratumClient)
  : listener * StratumClient :=
  match e with
  | SocketTimeout => (Listening buffer, s)
  | OSError _ =>
      if negb (connected s) then (Exited, s)
      else (Exited, set_disconnected (SocketError e) s)
  | Exception _ => (Exited, set_disconnected (ListenerError e) s)
  end.

(** The body of [while self.connected] for one [recv]. *)
Definition listen_step (json_loads : string -> option json)
    (int_of_str : string -> option Z) (r : recv_result) (buffer : string)
    (s : StratumClient) : listener * StratumClient :=
  if negb (socket s) then (Exited, s)
  else match r with
       | SocketClosed => (Exited, s)
       | RecvRaises e => on_exception e buffer s
       | RecvData EmptyString => (Exited, s)
       | RecvData data =>
           match feed_lines json_loads int_of_str EmptyString
                   (String.append buffer data) s with
           | (Done, buffer', s') => (Listening buffer', s')
           | (Raised e, buffer', s') => on_exception e buffer' s'
           end
       | RecvBadUtf8 => on_exception (Exception "UnicodeDecodeError") buffer s
       end.

(** [StratumClient._listen_loop] run from [buffer] on the successive
    results of [recv]; [Listening] when the loop is still waiting in
    [recv] once they are used up. *)
Fixpoint listen_from (json_loads : string -> option json)
    (int_of_str : string -> option Z) (rs : list recv_result)
    (buffer : string) (s : StratumClient) : listener * StratumClient :=
  if negb (connected s) then (Exited, s)
  else match rs with
       | [] => (Listening buffer, s)
       | r :: rs' =>
           match listen_step json_loads int_of_str r buffer s with
           | (Listening buffer', s') =>
               listen_from json_loads int_of_str rs' buffer' s'
           | (Exited, s') => (Exited, s')
           end
       end.

Definition _listen_loop (json_loads : string -> option json)
    (int_of_str : string -> option Z) (rs : list recv_result)
    (s : StratumClient) : listener * StratumClient :=
  listen_from json_loads int_of_str rs EmptyString s.

End Stratum.

(* ===================================================================== *)
(** ** The pool mining session: job state, nonce cursor, share check     *)
(* ===================================================================== *)

Module Session.
Import Py.

(** [class Algorithm(Enum)] *)
Inductive Algorithm : Type :=
| COSMIC_HARMONY
| RANDOMX
| YESCRYPT.

Definition is_cosmic (a : Algorithm) : bool :=
  match a with COSMIC_HARMONY => true | _ => false end.

Definition is_randomx (a : Algorithm) : bool :=
  match a with RANDOMX => true | _ => false end.

(** The dictionary [job_state]; [None] is [JNull] for the values taken
    from the job and [None] for the computed ones. *)
Record JobState : Type := {
  job_id : json;
  blob_hex : json;
  blob_bytes : option bytes;
  difficulty : option Z;
  height : json;
  target_64 : option Z;
  target_256 : option Z;
  target_cosmic32 : option Z;
  version : Z
}.

(** The variables a session shares between its threads. *)
Record session : Type := {
  job_state : JobState;
  nonce_cursor : Z
}.

Definition initial : session := {|
  job_state := {| job_id := JNull; blob_hex := JNull; blob_bytes := None;
                  difficulty := None; height := JNull; target_64 := None;
                  target_256 := None; target_cosmic32 := None; version := 0 |};
  nonce_cursor := 0
|}.

(** A range of nonces handed to a worker. *)
Record NonceRange : Type := { start : Z; count : Z }.

Definition in_range (r : NonceRange) (x : Z) : Prop :=
  start r <= x < start r + count r.

(** [_alloc_nonces] *)
Definition _alloc_nonces (count : Z) (s : session) : Z * session :=
  (nonce_cursor s,
   {| job_state := job_state s; nonce_cursor := nonce_cursor s + count |}).

(** Successive calls of [_alloc_nonces], in the order in which they take
    [nonce_lock], with the range each caller gets. *)
Fixpoint alloc_all (counts : list Z) (s : session)
  : list NonceRange * session :=
  match counts with
  | [] => ([], s)
  | c :: cs =>
      let (st, s1) := _alloc_nonces c s in
      let (rs, s2) := alloc_all cs s1 in
      ({| start := st; count := c |} :: rs, s2)
  end.

(** The number of nonces a series of allocations asks for. *)
Definition total (counts : list Z) : Z := fold_right Z.add 0 counts.

Definition max_target_64 : Z := 0xFFFFFFFFFFFFFFFF.

Definition max_target_256 : Z :=
  0xFFFFFFFFFFFFFFFFFFFFFFFFFFFFFFFFFFFFFFFFFFFFFFFFFFFFFFFFFFFFFFFF.

(** The targets [_update_job_from_stratum] derives from the pool's
    difficulty: [(target_64, target_256, target_cosmic32)]. *)
Definition targets_of (algo : Algorithm) (pool_difficulty : Z)
  : option Z * option Z * option Z :=
  let difficulty := Z.max 1 pool_difficulty in
  if is_randomx algo then (Some (max_target_64 / difficulty), None, None)
  else
    let target_256 := max_target_256 / difficulty in
    (None, Some target_256,
     if is_cosmic algo then Some (Z.shiftr target_256 224) else None).

(** The three targets a job state holds. *)
Definition job_targets (js : JobState) : option Z * option Z * option Z :=
  (target_64 js, target_256 js, target_cosmic32 js).

(** [_update_job_from_stratum].  [int(...)] raises before anything is
    written; the log line that ends the installation evaluates
    [job_id[:12]], which raises once the job is installed when the id is
    neither a string nor a list. *)
Definition _update_job_from_stratum (int_of_str : string -> option Z)
    (algo : Algorithm) (job : dict) (s : session) : outcome * session :=
  let new_id := get job "job_id" in
  let new_blob := get job "blob" in
  match int int_of_str (or_else (get job "difficulty") (JNum 1)) with
  | None => (Raised (Exception "int"), s)
  | Some pool_difficulty =>
      let new_height := get job "height" in
      if negb (truthy new_id) || negb (truthy new_blob) then (Done, s)
      else
        match match new_blob with
              | JStr h => bytes_fromhex h
              | _ => None
              end with
        | None => (Done, s)
        | Some new_bytes =>
            let '(t64, t256, tc32) := targets_of algo pool_difficulty in
            if negb (eqb (job_id (job_state s)) new_id) then
              let s' :=
                {| job_state :=
                     {| job_id := new_id;
                        blob_hex := new_blob;
                        blob_bytes := Some new_bytes;
                        difficulty := Some (Z.max 1 pool_difficulty);
                        height := new_height;
                        target_64 := t64;
                        target_256 := t256;
                        target_cosmic32 := tc32;
                        version := version (job_state s) + 1 |};
                   nonce_cursor := 0 |} in
              if sliceable new_id then (Done, s')
              else (Raised (Exception "TypeError"), s')
            else (Done, s)
        end
  end.

(** Whether an update installs its job: the difficulty converts, the id
    and the blob are not empty, the blob is a hexadecimal string, and the
    id is not the one of the current job. *)
Definition installs (int_of_str : string -> option Z) (job : dict)
    (s : session) : bool :=
  match int int_of_str (or_else (get job "difficulty") (JNum 1)) with
  | None => false
  | Some _ =>
      truthy (get job "job_id") && truthy (get job "blob")
      && match get job "blob" with
         | JStr h => match bytes_fromhex h with Some _ => true | None => false end
         | _ => false
         end
      && negb (eqb (job_id (job_state s)) (get job "job_id"))
  end.

(** [_snapshot_job] *)
Definition _snapshot_job (s : session) : option JobState :=
  let js := job_state s in
  if negb (truthy (job_id js))
     || negb (match blob_bytes js with Some (_ :: _) => true | _ => false end)
  then None
  else Some js.

(** The share check of [_cpu_worker]: the native hashers leave the
    digest in [output_array] and [result_hash] unset; the other paths
    return the digest in [result_hash]. *)
Definition cpu_meets (algo : Algorithm) (snap : JobState)
    (output_array : bytes) (result_hash : option bytes) : bool :=
  match target_64 snap with
  | Some t64 => int_from_bytes_little (take 8 output_array) <=? t64
  | None =>
      match target_256 snap with
      | Some t256 =>
          let hb := match result_hash with
                    | None => output_array
                    | Some h => h
                    end in
          match is_cosmic algo, target_cosmic32 snap with
          | true, Some tc32 => int_from_bytes_little (take 4 hb) <=? tc32
          | _, _ => int_from_bytes_big hb <? t256
          end
      | None => false
      end
  end.

(** The share check of [_gpu_worker] on one digest of the batch. *)
Definition gpu_meets (algo : Algorithm) (snap : JobState)
    (result_hash : bytes) : bool :=
  match target_64 snap with
  | Some t64 => int_from_bytes_little (take 8 result_hash) <=? t64
  | None =>
      match target_256 snap with
      | Some t256 =>
          match is_cosmic algo, target_cosmic32 snap with
          | true, Some tc32 =>
              int_from_bytes_little (take 4 result_hash) <=? tc32
          | _, _ => int_from_bytes_big result_hash <? t256
          end
      | None => false
      end
  end.


(** The session states after each of a series of job updates; an update
    that raises ends the session. *)
Fixpoint run_updates (int_of_str : string -> option Z) (algo : Algorithm)
    (jobs : list dict) (s : session) : list session :=
  match jobs with
  | [] => []
  | job :: jobs' =>
      match _update_job_from_stratum int_of_str algo job s with
      | (Done, s') => s' :: run_updates int_of_str algo jobs' s'
      | (Raised _, s') => [s']
      end
  end.

End Session.

(* ===================================================================== *)
(** ** Sample inputs                                                     *)
(* ===================================================================== *)

Module Samples.
Import Py.

(** An integer parser that accepts no string: enough where the jobs
    carry their difficulty as a number. *)
Definition no_int_of_str (_ : string) : option Z := None.

(** A decoder that accepts no line. *)
Definition no_json (_ : string) : option json := None.

(** A job in the legacy object form. *)
Definition job (id : string) (diff : Z) (clean : bool) : dict :=
  [ ("job_id"%string, JStr id); ("blob"%string, JStr "00ff");
    ("height"%string, JNum 7); ("difficulty"%string, JNum diff);
    ("clean_jobs"%string, JBool clean) ].

(** The [mining.notify] push that carries a job in an object. *)
Definition notify (j : dict) : json :=
  JDict [ ("method"%string, JStr "mining.notify");
          ("params"%string, JList [JDict j]) ].

(** The [mining.notify] push in positional form. *)
Definition notify_array (params : list json) : json :=
  JDict [ ("method"%string, JStr "mining.notify");
          ("params"%string, JList params) ].

(** The job state once [job id diff _] is installed in a new session. *)
Definition snap_of (algo : Session.Algorithm) (diff : Z) : Session.JobState :=
  Session.job_state
    (snd (Session._update_job_from_stratum no_int_of_str algo
            (job "j1" diff true) Session.initial)).

(** 32-byte digests: the first eight bytes read 0x7FFFFFFFFFFFFFFF and
    0x8000000000000000 in little-endian order. *)
Definition digest_7f : bytes :=
  [xff; xff; xff; xff; xff; xff; xff; x7f] ++ repeat x5a 24.

Definition digest_80 : bytes :=
  [x00; x00; x00; x00; x00; x00; x00; x80] ++ repeat x5a 24.

Definition digest_ff : bytes := repeat xff 32.

Definition digest_00 : bytes := repeat x00 32.

(** A client with an open socket. *)
Definition online : Stratum.StratumClient :=
  let s := Stratum.init "rig" in
  {| Stratum.worker_id := Stratum.worker_id s; Stratum.socket := true;
     Stratum.outbox := []; Stratum.request_id := Stratum.request_id s;
     Stratum.job_queue := []; Stratum.current_job := None;
     Stratum.connected := true; Stratum.extranonce1 := JNull;
     Stratum.extranonce2_size := 4; Stratum.shares_sent := 0;
     Stratum.shares_accepted := 0; Stratum.shares_rejected := 0;
     Stratum.last_share_error := None; Stratum._pending_submit_ids := ∅;
     Stratum.last_disconnect_reason := None; Stratum._wait_events := ∅;
     Stratum._wait_responses := ∅ |}.

(** A decoder for two lines only: "J1" and "J2" stand for the pushes of
    the jobs j1 and j2. *)
Definition two_lines (line : string) : option json :=
  if String.eqb line "J1" then Some (notify (job "j1" 2 false))
  else if String.eqb line "J2" then Some (notify (job "j2" 3 true))
  else None.

(** The pool's answers to the handshake: to the subscribe request
    (id 1) and to an authorize request carrying the same id. *)
Definition subscribed : dict :=
  [ ("id"%string, JNum 1); ("error"%string, JNull);
    ("result"%string, JList [JList []; JStr "ab12"; JNum 8]) ].

Definition authorized : dict :=
  [ ("id"%string, JNum 1); ("error"%string, JNull);
    ("result"%string, JBool true) ].

(** A decoder for the lines "S" and "A", which stand for them. *)
Definition handshake_lines (line : string) : option json :=
  if String.eqb line "S" then Some (JDict subscribed)
  else if String.eqb line "A" then Some (JDict authorized)
  else None.



(** Pushes and a response, in the order the pool sent them. *)
Definition traffic : list json :=
  [ notify (job "j1" 2 true);
    JDict [ ("method"%string, JStr "mining.set_difficulty");
            ("params"%string, JList [JNum 5]) ];
    notify (job "j2" 3 false);
    JDict [ ("id"%string, JNum 9); ("result"%string, JBool true) ] ].

End Samples.

(* ===================================================================== *)
(** ** The handshake calls and [disconnect]                              *)
(* ===================================================================== *)

Module Handshake.
Import Py Stratum.

(** How a call that returns a value ends. *)
Inductive result (A : Type) : Type :=
| Returned (a : A)
| Threw (e : exn).

Arguments Returned {A} a.
Arguments Threw {A} e.

Definition set_request_id (r : Z) (s : StratumClient) : StratumClient :=
  {| worker_id := worker_id s; socket := socket s; outbox := outbox s;
     request_id := r; job_queue := job_queue s;
     current_job := current_job s; connected := connected s;
     extranonce1 := extranonce1 s; extranonce2_size := extranonce2_size s;
     shares_sent := shares_sent s; shares_accepted := shares_accepted s;
     shares_rejected := shares_rejected s;
     last_share_error := last_share_error s;
     _pending_submit_ids := _pending_submit_ids s;
     last_disconnect_reason := last_disconnect_reason s;
     _wait_events := _wait_events s;
     _wait_responses := _wait_responses s |}.

Definition set_socket (b : bool) (s : StratumClient) : StratumClient :=
  {| worker_id := worker_id s; socket := b; outbox := outbox s;
     request_id := request_id s; job_queue := job_queue s;
     current_job := current_job s; connected := connected s;
     extranonce1 := extranonce1 s; extranonce2_size := extranonce2_size s;
     shares_sent := shares_sent s; shares_accepted := shares_accepted s;
     shares_rejected := shares_rejected s;
     last_share_error := last_share_error s;
     _pending_submit_ids := _pending_submit_ids s;
     last_disconnect_reason := last_disconnect_reason s;
     _wait_events := _wait_events s;
     _wait_responses := _wait_responses s |}.

(** [StratumClient.disconnect]: the flag and the reason are written
    first; the socket, when there is one, is shut down and closed (errors
    ignored) and forgotten. *)
Definition disconnect (s : StratumClient) : StratumClient :=
  let s1 := set_disconnected ClientDisconnect s in
  if socket s1 then set_socket false s1 else s1.

(** [StratumClient._send_and_wait].  The event of the request is the
    entry of [_wait_events]; while the caller waits the listener thread
    runs [listen_from] on what [recv] gives it ([rs], from [buffer]); the
    call returns whether the event was set, and removes the entry. *)
Definition _send_and_wait (json_loads : string -> option json)
    (int_of_str : string -> option Z) (req_id : Z) (request : json)
    (io : send_result) (rs : list recv_result) (buffer : string)
    (s : StratumClient) : result bool * listener * StratumClient :=
  let s1 := set_waits (<[req_id := false]> (_wait_events s))
                      (delete req_id (_wait_responses s)) s in
  match _send_request request io s1 with
  | (Raised e, s2) =>
      (Threw e, Listening buffer,
       set_waits (delete req_id (_wait_events s2)) (_wait_responses s2) s2)
  | (Done, s2) =>
      let '(l, s3) := listen_from json_loads int_of_str rs buffer s2 in
      let ok := match _wait_events s3 !! req_id with
                | Some flag => flag
                | None => false
                end in
      (Returned ok, l,
       set_waits (delete req_id (_wait_events s3)) (_wait_responses s3) s3)
  end.

(** The request of [subscribe]. *)
Definition subscribe_request (req_id : Z) : json :=
  JDict [ ("id"%string, JNum req_id);
          ("method"%string, JStr "mining.subscribe");
          ("params"%string, JList [JStr "zion-native-miner/2.9.0"]) ].

(** The request of [authorize]; the worker name is not sent. *)
Definition authorize_request (req_id : Z) (wallet algorithm : string) : json :=
  JDict [ ("id"%string, JNum req_id);
          ("method"%string, JStr "mining.authorize");
          ("params"%string, JList [JStr wallet; JStr algorithm]) ].

(** What [subscribe] does with the response once the wait succeeded;
    where the source raises (no usable response, or a size that does not
    convert once [extranonce1] is written) the call returns [False]. *)
Definition read_subscribe (int_of_str : string -> option Z) (req_id : Z)
    (s : StratumClient) : bool * StratumClient :=
  match _wait_responses s !! req_id with
  | None => (false, s)
  | Some (JDict resp) =>
      if negb (truthy (JDict resp)) || truthy (get resp "error")
      then (false, s)
      else
        match get resp "result" with
        | JList l =>
            if (2 <=? length l)%nat then
              if (3 <=? length l)%nat then
                match int int_of_str (nth 2 l JNull) with
                | Some z => (true, set_extranonce (nth 1 l JNull) z s)
                | None =>
                    (false,
                     set_extranonce (nth 1 l JNull) (extranonce2_size s) s)
                end
              else (true, set_extranonce (nth 1 l JNull) (extranonce2_size s) s)
            else (true, s)
        | _ => (true, s)
        end
  | Some _ => (false, s)
  end.

(** [StratumClient.subscribe] *)
Definition subscribe (json_loads : string -> option json)
    (int_of_str : string -> option Z) (io : send_result)
    (rs : list recv_result) (buffer : string) (s : StratumClient)
  : bool * listener * StratumClient :=
  let req_id := request_id s in
  let s1 := set_request_id (request_id s + 1) s in
  match _send_and_wait json_loads int_of_str req_id
          (subscribe_request req_id) io rs buffer s1 with
  | (Threw _, l, s2) => (false, l, s2)
  | (Returned false, l, s2) => (false, l, s2)
  | (Returned true, l, s2) =>
      let (r, s3) := read_subscribe int_of_str req_id s2 in (r, l, s3)
  end.

(** What [authorize] returns once the wait succeeded. *)
Definition read_authorize (req_id : Z) (s : StratumClient) : bool :=
  match _wait_responses s !! req_id with
  | Some (JDict resp) =>
      if negb (truthy (JDict resp)) || truthy (get resp "error") then false
      else truthy (get resp "result")
  | _ => false
  end.

(** [StratumClient.authorize] *)
Definition authorize (json_loads : string -> option json)
    (int_of_str : string -> option Z) (wallet algorithm : string)
    (io : send_result) (rs : list recv_result) (buffer : string)
    (s : StratumClient) : bool * listener * StratumClient :=
  let req_id := request_id s in
  let s1 := set_request_id (request_id s + 1) s in
  match _send_and_wait json_loads int_of_str req_id
          (authorize_request req_id wallet algorithm) io rs buffer s1 with
  | (Threw _, l, s2) => (false, l, s2)
  | (Returned false, l, s2) => (false, l, s2)
  | (Returned true, l, s2) => (read_authorize req_id s2, l, s2)
  end.

End Handshake.

(* ===================================================================== *)
(** ** Runs of a client                                                  *)
(* ===================================================================== *)

Module Runs.
Import Py Stratum.

(** What the threads of a session do to the client: a worker submits a
    share, the listener runs on some results of [recv], the control loop
    takes the latest job. *)
Inductive op : Type :=
| Submit (job_id : json) (nonce : Z) (result_hash : bytes) (io : send_result)
| Listen (rs : list recv_result) (buffer : string)
| Handle (message : json)
| GetJob.

Definition step (json_loads : string -> option json)
    (int_of_str : string -> option Z) (o : op) (s : StratumClient)
  : StratumClient :=
  match o with
  | Submit job_id nonce result_hash io =>
      snd (submit_share job_id nonce result_hash io s)
  | Listen rs buffer => snd (listen_from json_loads int_of_str rs buffer s)
  | Handle message => snd (_handle_message int_of_str message s)
  | GetJob => snd (get_job s)
  end.

Definition run (json_loads : string -> option json)
    (int_of_str : string -> option Z) (ops : list op) (s : StratumClient)
  : StratumClient :=
  fold_left (fun s o => step json_loads int_of_str o s) ops s.

(** Every share sent is accepted, rejected or still pending, and the
    pending ids are ids already taken. *)
Definition balanced (s : StratumClient) : Prop :=
  shares_sent s
  = shares_accepted s + shares_rejected s
    + Z.of_nat (size (_pending_submit_ids s))
  /\ (forall k, k ∈ _pending_submit_ids s -> k < request_id s).

(** The part of a client that only the sending side writes. *)
Definition same_link (s s' : StratumClient) : Prop :=
  worker_id s' = worker_id s
  /\ socket s' = socket s
  /\ outbox s' = outbox s
  /\ request_id s' = request_id s
  /\ shares_sent s' = shares_sent s.

(** Whether the response to a submit says the share was accepted: no
    error, and a result that is [True] or an object whose status is
    "OK". *)
Definition accepts (m : dict) : bool :=
  negb (truthy (get m "error"))
  && match get m "result" with
     | JDict r => eqb (get r "status") (JStr "OK")
     | JBool true => true
     | _ => false
     end.

(** The jobs a series of messages carries, oldest first. *)
Definition notified (messages : list json) : list dict :=
  omap notify_job messages.

(** Whether a piece of text has no line feed in it. *)
Fixpoint no_newline (text : string) : bool :=
  match text with
  | EmptyString => true
  | String c rest => negb (Ascii.eqb c "010") && no_newline rest
  end.

(** The listener on messages already cut into lines and decoded: it
    stops at the first one whose handling raises. *)
Fixpoint handle_all (int_of_str : string -> option Z) (messages : list json)
    (s : StratumClient) : outcome * StratumClient :=
  match messages with
  | [] => (Done, s)
  | m :: ms =>
      match _handle_message int_of_str m s with
      | (Done, s') => handle_all int_of_str ms s'
      | (Raised e, s') => (Raised e, s')
      end
  end.

End Runs.

(* ===================================================================== *)
(** ** Jobs as the session sees them                                     *)
(* ===================================================================== *)

Module Jobs.
Import Py Session.

(** The bytes of a job's blob, when the blob is a hexadecimal string. *)
Definition decoded_blob (job : dict) : option bytes :=
  match get job "blob" with
  | JStr h => bytes_fromhex h
  | _ => None
  end.

Fixpoint keys_distinct (keys : list string) : bool :=
  match keys with
  | [] => true
  | k :: rest => negb (existsb (String.eqb k) rest) && keys_distinct rest
  end.

(** A value as [json.loads] builds it: no object in it has a key
    twice. *)
Fixpoint well_formed (v : json) : bool :=
  match v with
  | JList l => forallb well_formed l
  | JDict d =>
      keys_distinct (map fst d)
      && (fix items (d : dict) : bool :=
            match d with
            | [] => true
            | (_, w) :: d' => well_formed w && items d'
            end) d
  | _ => true
  end.

End Jobs.

(* ===================================================================== *)
(** ** Workers, hashing threads and the algorithm switch                 *)
(* ===================================================================== *)

Module Workers.
Import Py Stratum Session.

(** What the GPU worker reads on one turn of its loop over a batch: the
    three events, and the version in [job_state]. *)
Record observed : Type := {
  stop_set : bool;
  pause_set : bool;
  gpu_on : bool;
  seen_version : Z
}.

(** [hashes_out[i * 32 : (i + 1) * 32].tobytes()] *)
Definition digest_at (hashes_out : bytes) (i : nat) : bytes :=
  take 32 (drop (i * 32) hashes_out).

(** The loop [for i in range(batch_size)] of [_gpu_worker], from turn
    [i] with [todo] turns left.  [env] gives what each turn observes and
    [ios] what the socket does with the share a turn submits.  The
    result is [processed] and the client. *)
Fixpoint gpu_scan (algo : Algorithm) (snap : JobState) (hashes_out : bytes)
    (nonce_start : Z) (env : nat -> observed) (ios : nat -> send_result)
    (i todo : nat) (processed : Z) (c : StratumClient)
  : Z * StratumClient :=
  match todo with
  | O => (processed, c)
  | S todo' =>
      if stop_set (env i) || pause_set (env i) || negb (gpu_on (env i))
      then (processed, c)
      else if negb (seen_version (env i) =? version snap)
      then (processed, c)
      else
        let nonce := nonce_start + Z.of_nat i in
        let result_hash := digest_at hashes_out i in
        let c' :=
          if gpu_meets algo snap result_hash
          then snd (submit_share (job_id snap) nonce result_hash (ios i) c)
          else c in
        gpu_scan algo snap hashes_out nonce_start env ios (S i) todo'
          (processed + 1) c'
  end.

(** Whether a turn of the loop ends the batch before hashing: an event
    asks for it, or the job version is no longer the snapshot's. *)
Definition interrupted (snap : JobState) (o : observed) : bool :=
  stop_set o || pause_set o || negb (gpu_on o)
  || negb (seen_version o =? version snap).

(** The turns of a batch whose digest meets the target, among the first
    [k]. *)
Definition hits (algo : Algorithm) (snap : JobState) (hashes_out : bytes)
    (k : nat) : list nat :=
  filter (fun i => gpu_meets algo snap (digest_at hashes_out i) = true)
         (seq 0 k).

(** The native hashers a [CPUMiningThread] calls: the digest written to
    the output array and, for Yescrypt, the status returned. *)
Record Libs : Type := {
  cosmic_hash : bytes -> Z -> bytes;
  zion_randomx_hash_bytes : bytes -> bytes;
  yescrypt_hash_bytes : bytes -> Z * bytes
}.

(** The loops of [CPUMiningThread.hash_range], one per algorithm, from
    turn [i] with [todo] turns left: the digests appended to [results]
    and the number added to [self.hashes]. *)
Fixpoint range_cosmic (lib : Libs) (data : bytes) (nonce_start : Z)
    (i todo : nat) : list bytes * Z :=
  match todo with
  | O => ([], 0)
  | S todo' =>
      let (rest, n) := range_cosmic lib data nonce_start (S i) todo' in
      (cosmic_hash lib data (nonce_start + Z.of_nat i) :: rest, n + 1)
  end.

Fixpoint range_randomx (lib : Libs) (data : bytes) (todo : nat)
  : list bytes * Z :=
  match todo with
  | O => ([], 0)
  | S todo' =>
      let (rest, n) := range_randomx lib data todo' in
      (zion_randomx_hash_bytes lib data :: rest, n + 1)
  end.

Fixpoint range_yescrypt (lib : Libs) (data : bytes) (todo : nat)
  : list bytes * Z :=
  match todo with
  | O => ([], 0)
  | S todo' =>
      let (rest, n) := range_yescrypt lib data todo' in
      let (rc, digest) := yescrypt_hash_bytes lib data in
      if negb (rc =? 0) then (rest, n) else (digest :: rest, n + 1)
  end.

(** [CPUMiningThread.hash_range]: the digests, and [self.hashes]
    afterwards. *)
Definition hash_range (lib : Libs) (algo : Algorithm) (data : bytes)
    (nonce_start nonce_count : Z) (hashes : Z) : list bytes * Z :=
  let (results, n) :=
    match algo with
    | COSMIC_HARMONY =>
        range_cosmic lib data nonce_start 0 (Z.to_nat nonce_count)
    | RANDOMX => range_randomx lib data (Z.to_nat nonce_count)
    | YESCRYPT => range_yescrypt lib data (Z.to_nat nonce_count)
    end in
  (results, hashes + n).

(** The Yescrypt loop of [hash_count_range]: [done]. *)
Fixpoint count_yescrypt (lib : Libs) (data : bytes) (todo : nat) : Z :=
  match todo with
  | O => 0
  | S todo' =>
      let n := count_yescrypt lib data todo' in
      if negb (fst (yescrypt_hash_bytes lib data) =? 0) then n else n + 1
  end.

(** [CPUMiningThread.hash_count_range]: the count returned, and
    [self.hashes] afterwards. *)
Definition hash_count_range (lib : Libs) (algo : Algorithm) (data : bytes)
    (nonce_start nonce_count : Z) (hashes : Z) : Z * Z :=
  if nonce_count <=? 0 then (0, hashes)
  else
    match algo with
    | COSMIC_HARMONY => (nonce_count, hashes + nonce_count)
    | RANDOMX => (nonce_count, hashes + nonce_count)
    | YESCRYPT =>
        let n := count_yescrypt lib data (Z.to_nat nonce_count) in
        (n, hashes + n)
    end.

(** The global size [GPUMiner.hash_batch] gives the kernel: the batch
    size rounded up to a multiple of the work group size.  [None] when
    the work group size is 0 and the division raises. *)
Definition global_size (batch_size work_size : Z) : option Z :=
  if work_size =? 0 then None
  else if negb (batch_size mod work_size =? 0)
       then Some ((batch_size / work_size + 1) * work_size)
       else Some batch_size.

(** [algo_cycle] in [mine_to_pool] *)
Definition algo_cycle : list Algorithm := [COSMIC_HARMONY; RANDOMX; YESCRYPT].

Definition algo_eqb (a b : Algorithm) : bool :=
  match a, b with
  | COSMIC_HARMONY, COSMIC_HARMONY => true
  | RANDOMX, RANDOMX => true
  | YESCRYPT, YESCRYPT => true
  | _, _ => false
  end.

(** [algo_cycle.index(a)], 0 when it raises [ValueError]. *)
Fixpoint cycle_index (a : Algorithm) (cycle : list Algorithm) (at_ : nat)
  : nat :=
  match cycle with
  | [] => 0
  | x :: rest => if algo_eqb x a then at_ else cycle_index a rest (S at_)
  end.

(** [_algo_supports_gpu] *)
Definition _algo_supports_gpu (a : Algorithm) : bool := algo_eqb a COSMIC_HARMONY.

(** What the session loop does on the action "algo": the next algorithm
    of the cycle becomes the configured one, and the wish for the GPU is
    dropped when that algorithm has no GPU path. *)
Definition switch_to_next (config_algorithm : Algorithm) (gpu_desired : bool)
  : Algorithm * bool :=
  let idx := cycle_index config_algorithm algo_cycle 0 in
  let next_algo :=
    nth ((idx + 1) mod length algo_cycle) algo_cycle COSMIC_HARMONY in
  (next_algo, if negb (_algo_supports_gpu next_algo) then false else gpu_desired).

End Workers.

(* ===================================================================== *)
(** ** The CPU worker's batch                                            *)
(* ===================================================================== *)

Module CpuWorker.
Import Py Stratum Session.

(** The four bytes of [struct.pack("<I", v)]. *)
Definition le_bytes4 (v : Z) : bytes :=
  [ byte_of_Z (v mod 256); byte_of_Z (v / 256 mod 256);
    byte_of_Z (v / 65536 mod 256); byte_of_Z (v / 16777216 mod 256) ].

(** [struct.pack_into("<I", buf, offset, v)]: the buffer with the four
    bytes written at [offset]; [None] when it raises [struct.error],
    for a value that is not an unsigned 32-bit integer or a buffer that
    is too short. *)
Definition pack_into (buf : bytes) (offset : nat) (v : Z) : option bytes :=
  if (0 <=? v) && (v <? 4294967296) && (offset + 4 <=? length buf)%nat
  then Some (take offset buf ++ le_bytes4 v ++ drop (offset + 4) buf)
  else None.

(** What a CPU worker reads on one turn of its loop: the two events and,
    on the turns where it looks, the version in [job_state]. *)
Record observed : Type := {
  stop_set : bool;
  pause_set : bool;
  seen_version : Z
}.

(** What a call of [hash_single_cpu] gives. *)
Inductive hash_result : Type :=
| Hash (d : bytes)
| HashRaises (e : exn).

(** The hashers a worker has: [hash_single_cpu], and the entries
    ['randomx'] and ['yescrypt'] of [loader.libs] where they are loaded.
    A native call is given by what it leaves in the output array and,
    for Yescrypt, the status it returns. *)
Record Hashers : Type := {
  hash_single_cpu : bytes -> Z -> hash_result;
  randomx : option (bytes -> bytes);
  yescrypt : option (bytes -> Z * bytes)
}.

(** [rx_lib] and [yc_lib] of [_cpu_worker]: a library is looked up only
    for its own algorithm. *)
Definition rx_lib (algo : Algorithm) (h : Hashers) : option (bytes -> bytes) :=
  match algo with
  | RANDOMX => randomx h
  | _ => None
  end.

Definition yc_lib (algo : Algorithm) (h : Hashers)
  : option (bytes -> Z * bytes) :=
  match algo with
  | YESCRYPT => yescrypt h
  | _ => None
  end.

(** How the hashing of one nonce ends. *)
Inductive hashed : Type :=
| Digest (work_buf : option bytes) (output_array : bytes)
         (result_hash : option bytes)
| Skipped (work_buf : option bytes) (output_array : bytes)
| Failed (e : exn).

(** The hashing part of a turn.  Cosmic Harmony hashes the blob and the
    nonce; the other algorithms write the nonce into the work buffer at
    offset 38 and hash the buffer, with the native library when there is
    one and with [hash_single_cpu] otherwise. *)
Definition hash_nonce (algo : Algorithm) (h : Hashers) (blob_bytes : bytes)
    (work_buf : option bytes) (output_array : bytes) (nonce : Z) : hashed :=
  if is_cosmic algo then
    match hash_single_cpu h blob_bytes nonce with
    | Hash d => Digest work_buf output_array (Some d)
    | HashRaises e => Failed e
    end
  else
    match work_buf with
    | None => Failed (Exception "AssertionError")
    | Some wb =>
        match pack_into wb 38 nonce with
        | None => Failed (Exception "struct.error")
        | Some wb' =>
            match rx_lib algo h with
            | Some zion_randomx_hash_bytes =>
                Digest (Some wb') (zion_randomx_hash_bytes wb') None
            | None =>
                match yc_lib algo h with
                | Some yescrypt_hash_bytes =>
                    let (rc, out) := yescrypt_hash_bytes wb' in
                    if negb (rc =? 0) then Skipped (Some wb') out
                    else Digest (Some wb') out None
                | None =>
                    match hash_single_cpu h wb' 0 with
                    | Hash d => Digest (Some wb') output_array (Some d)
                    | HashRaises e => Failed e
                    end
                end
            end
        end
    end.

(** The state a worker carries through a batch. *)
Record worker : Type := {
  work_buf : option bytes;
  output_array : bytes;
  processed_since_last_flush : Z;
  cpu_hashes : Z;
  client : StratumClient
}.

(** Whether a turn ends the batch before hashing: an event asks for it,
    or the turn is one of those that look at the job version (one in 32)
    and the version is no longer the snapshot's. *)
Definition breaks (snap : JobState) (i : nat) (o : observed) : bool :=
  stop_set o || pause_set o
  || ((Z.land (Z.of_nat i) 31 =? 0) && negb (seen_version o =? version snap)).

(** The flush that follows the loop. *)
Definition final_flush (w : worker) : worker :=
  if negb (processed_since_last_flush w =? 0)
  then {| work_buf := work_buf w; output_array := output_array w;
          processed_since_last_flush := processed_since_last_flush w;
          cpu_hashes := cpu_hashes w + processed_since_last_flush w;
          client := client w |}
  else w.

(** The loop [for i in range(batch)] of [_cpu_worker] and the flush
    after it, from turn [i] with [todo] turns left.  [env] gives what
    each turn observes, [due] whether a second has passed since the last
    flush, [ios] what the socket does with a share.  The algorithm is
    the one of the session, which changes only after the workers have
    been stopped.  An exception ends the thread where it is raised. *)
Fixpoint cpu_scan (algo : Algorithm) (snap : JobState) (h : Hashers)
    (blob_bytes : bytes) (start : Z) (env : nat -> observed)
    (due : nat -> bool) (ios : nat -> send_result) (i todo : nat)
    (w : worker) : outcome * worker :=
  match todo with
  | O => (Done, final_flush w)
  | S todo' =>
      if stop_set (env i) || pause_set (env i) then (Done, final_flush w)
      else if (Z.land (Z.of_nat i) 31 =? 0)
              && negb (seen_version (env i) =? version snap)
      then (Done, final_flush w)
      else
        let nonce := start + Z.of_nat i in
        match hash_nonce algo h blob_bytes (work_buf w) (output_array w)
                nonce with
        | Failed e => (Raised e, w)
        | Skipped wb out =>
            cpu_scan algo snap h blob_bytes start env due ios (S i) todo'
              {| work_buf := wb; output_array := out;
                 processed_since_last_flush := processed_since_last_flush w;
                 cpu_hashes := cpu_hashes w; client := client w |}
        | Digest wb out result_hash =>
            let c' :=
              if cpu_meets algo snap out result_hash
              then snd (submit_share (job_id snap) nonce
                          (match result_hash with
                           | None => out
                           | Some d => d
                           end) (ios i) (client w))
              else client w in
            let processed := processed_since_last_flush w + 1 in
            if (64 <=? processed) || ((0 <? processed) && due i)
            then
              cpu_scan algo snap h blob_bytes start env due ios (S i) todo'
                {| work_buf := wb; output_array := out;
                   processed_since_last_flush := 0;
                   cpu_hashes := cpu_hashes w + processed; client := c' |}
            else
              cpu_scan algo snap h blob_bytes start env due ios (S i) todo'
                {| work_buf := wb; output_array := out;
                   processed_since_last_flush := processed;
                   cpu_hashes := cpu_hashes w; client := c' |}
        end
  end.

(** The hashes of a worker, flushed or not yet. *)
Definition counted (w : worker) : Z :=
  cpu_hashes w + processed_since_last_flush w.

(** The first turn from [j] on that looks at the job version. *)
Definition next_look (j : nat) : nat := (32 * ((j + 31) / 32))%nat.

(** A batch of [_cpu_worker]: [batch = 1000] nonces from [start], with
    nothing waiting to be flushed when the loop begins. *)
Definition batch : nat := 1000.

Definition start_batch (w : worker) : worker :=
  {| work_buf := work_buf w; output_array := output_array w;
     processed_since_last_flush := 0;
     cpu_hashes := cpu_hashes w; client := client w |}.

Definition run_batch (algo : Algorithm) (snap : JobState) (h : Hashers)
    (blob_bytes : bytes) (start : Z) (env : nat -> observed)
    (due : nat -> bool) (ios : nat -> send_result) (w : worker)
  : outcome * worker :=
  cpu_scan algo snap h blob_bytes start env due ios 0 batch (start_batch w).

(** The buffer a worker hashes for a snapshot: a fresh copy of the blob
    when the job version is not the one of the last pass or there is no
    buffer yet (none at all for Cosmic Harmony), the old buffer
    otherwise. *)
Definition prepare (algo : Algorithm) (snap : JobState) (blob : bytes)
    (last_job_version : option Z) (wb : option bytes)
  : option bytes * option Z :=
  if negb (match last_job_version with
           | Some v => v =? version snap
           | None => false
           end)
     || (match wb with None => true | Some _ => false end)
  then (if is_cosmic algo then None else Some blob, Some (version snap))
  else (wb, last_job_version).

(** One pass of the [while] loop of [_cpu_worker] once the events let it
    through: the snapshot, the buffer, the nonces and the batch.  A pass
    without a job does nothing.  [_snapshot_job] gives only states that
    have a blob. *)
Definition cpu_pass (algo : Algorithm) (h : Hashers) (env : nat -> observed)
    (due : nat -> bool) (ios : nat -> send_result)
    (last_job_version : option Z) (w : worker) (s : session)
  : outcome * (option Z * worker) * session :=
  match _snapshot_job s with
  | None => (Done, (last_job_version, w), s)
  | Some snap =>
      let blob := match blob_bytes snap with Some b => b | None => [] end in
      let (wb, last') := prepare algo snap blob last_job_version (work_buf w) in
      let (start, s') := _alloc_nonces (Z.of_nat batch) s in
      let (o, w') :=
        run_batch algo snap h blob start env due ios
          {| work_buf := wb; output_array := output_array w;
             processed_since_last_flush := processed_since_last_flush w;
             cpu_hashes := cpu_hashes w; client := client w |} in
      (o, (last', w'), s')
  end.

End CpuWorker.

(** Values for the examples of the CPU worker. *)
Module CpuSamples.
Import Py Stratum Session CpuWorker.

(** A RandomX library whose digest meets every target for the input that
    carries nonce 3 and no target otherwise; no other hasher. *)
Definition native : Hashers := {|
  hash_single_cpu := fun _ _ => HashRaises (Exception "KeyError");
  randomx := Some (fun wb => match wb !! 38%nat with
                             | Some x03 => Samples.digest_00
                             | _ => Samples.digest_ff
                             end);
  yescrypt := None
|}.

(** Nobody asks the worker to stop, and the job changes at turn [n]. *)
Definition fresh_until (n : nat) (v : Z) (j : nat) : observed :=
  {| stop_set := false; pause_set := false;
     seen_version := if (j <? n)%nat then v else v + 1 |}.

(** A worker that has not hashed yet. *)
Definition idle : worker :=
  {| work_buf := None; output_array := repeat x00 32;
     processed_since_last_flush := 0; cpu_hashes := 0;
     client := Samples.online |}.

(** A worker that holds a copy of the blob below. *)
Definition ready : worker :=
  {| work_buf := Some (repeat x11 76); output_array := repeat x00 32;
     processed_since_last_flush := 0; cpu_hashes := 0;
     client := Samples.online |}.

(** A 76-byte blob, and a session that has installed a job with it. *)
Definition blob : bytes := repeat x11 76.

Definition mining (cursor : Z) : session :=
  {| job_state :=
       {| job_id := JStr "j1"; blob_hex := JStr (bytes_hex blob);
          blob_bytes := Some blob;
          difficulty := Some 2; height := JNum 7;
          target_64 := Some 9223372036854775807; target_256 := None;
          target_cosmic32 := None; version := 1 |};
     nonce_cursor := cursor |}.

End CpuSamples.

(* ===================================================================== *)
(** * Properties                                                         *)
(* ===================================================================== *)

(** ** Bytes as integers *)

Module BytesFacts.
Import Py.

Lemma byte_val_range (x : byte) : 0 <= byte_val x < 256.
Proof.
  unfold byte_val. pose proof (Byte.to_N_bounded x) as Hb. lia.
Qed.

Lemma little_range (b : bytes) :
  0 <= int_from_bytes_little b < 256 ^ Z.of_nat (length b).
Proof.
  induction b as [|x r IH].
  - simpl. lia.
  - cbn [int_from_bytes_little length]. rewrite Nat2Z.inj_succ, Z.pow_succ_r by lia.
    pose proof (byte_val_range x). lia.
Qed.

Lemma little_take_range (k : nat) (b : bytes) :
  0 <= int_from_bytes_little (take k b) < 256 ^ Z.of_nat k.
Proof.
  pose proof (little_range (take k b)) as H.
  assert (Hlen : (length (take k b) <= k)%nat) by (rewrite length_take; lia).
  split; [lia|].
  eapply Z.lt_le_trans; [apply H|].
  apply Z.pow_le_mono_r; lia.
Qed.

Lemma big_fold_range (b : bytes) (acc : Z) :
  0 <= acc ->
  0 <= fold_left (fun a x => a * 256 + byte_val x) b acc
    < (acc + 1) * 256 ^ Z.of_nat (length b).
Proof.
  revert acc. induction b as [|x r IH]; intros acc Hacc.
  - simpl. lia.
  - cbn [fold_left length]. rewrite Nat2Z.inj_succ, Z.pow_succ_r by lia.
    pose proof (byte_val_range x) as Hx.
    assert (H0 : 0 <= acc * 256 + byte_val x) by lia.
    specialize (IH _ H0).
    assert (Hp : 0 < 256 ^ Z.of_nat (length r)) by (apply Z.pow_pos_nonneg; lia).
    split; [lia|].
    eapply Z.lt_le_trans; [apply IH|]. nia.
Qed.

Lemma big_range (b : bytes) :
  0 <= int_from_bytes_big b < 256 ^ Z.of_nat (length b).
Proof.
  unfold int_from_bytes_big.
  pose proof (big_fold_range b 0) as H. lia.
Qed.

Lemma big_snoc (b : bytes) (x : byte) :
  int_from_bytes_big (b ++ [x]) = int_from_bytes_big b * 256 + byte_val x.
Proof.
  unfold int_from_bytes_big. rewrite fold_left_app. reflexivity.
Qed.

(** The two byte orders read the same number from mirrored strings. *)
Lemma big_rev_little (b : bytes) :
  int_from_bytes_big (rev b) = int_from_bytes_little b.
Proof.
  induction b as [|x r IH].
  - reflexivity.
  - cbn [rev int_from_bytes_little]. rewrite big_snoc, IH. lia.
Qed.

End BytesFacts.

(** ** Difficulty, targets and the share check *)

Module TargetFacts.
Import Py Session BytesFacts.

(** An update that changes the job state stores the targets of its
    algorithm and of the difficulty the pool sent. *)
Lemma update_job_targets int_of_str algo job s o s' :
  _update_job_from_stratum int_of_str algo job s = (o, s') ->
  s' <> s ->
  exists pool_difficulty,
    int int_of_str (or_else (get job "difficulty") (JNum 1)) = Some pool_difficulty
    /\ job_targets (job_state s') = targets_of algo pool_difficulty
    /\ difficulty (job_state s') = Some (Z.max 1 pool_difficulty).
Proof.
  unfold _update_job_from_stratum. intros H Hne.
  destruct (int int_of_str _) as [pd|]; [|congruence].
  exists pd. split; [reflexivity|].
  destruct (negb (truthy (get job "job_id")) || negb (truthy (get job "blob")));
    [congruence|].
  destruct (match get job "blob" with JStr h => bytes_fromhex h | _ => None end);
    [|congruence].
  destruct (targets_of algo pd) as [[t64 t256] tc32] eqn:Ht.
  destruct (negb (eqb _ _)); [|congruence].
  destruct (sliceable _); inversion H; subst; split; reflexivity.
Qed.

(** C1: on RandomX the target is [floor((2^64 - 1) / difficulty)] and a
    digest is accepted exactly when its first eight bytes, read in
    little-endian order, do not exceed it, by the CPU and by the GPU
    worker; at difficulty 2 the target is 0x7FFFFFFFFFFFFFFF, a digest
    reading 0x7FFFFFFFFFFFFFFF is accepted and one reading
    0x8000000000000000 is rejected. *)
Theorem randomx_share_rule (d : Z) (snap : JobState) (digest : bytes)
    (result_hash : option bytes) :
  1 <= d ->
  job_targets snap = targets_of RANDOMX d ->
  max_target_64 = 2 ^ 64 - 1
  /\ target_64 snap = Some (max_target_64 / d)
  /\ (cpu_meets RANDOMX snap digest result_hash = true
      <-> int_from_bytes_little (take 8 digest) <= max_target_64 / d)
  /\ (gpu_meets RANDOMX snap digest = true
      <-> int_from_bytes_little (take 8 digest) <= max_target_64 / d)
  /\ (d = 2 ->
      max_target_64 / d = 0x7FFFFFFFFFFFFFFF
      /\ (int_from_bytes_little (take 8 digest) = 0x7FFFFFFFFFFFFFFF ->
          cpu_meets RANDOMX snap digest result_hash = true
          /\ gpu_meets RANDOMX snap digest = true)
      /\ (int_from_bytes_little (take 8 digest) = 0x8000000000000000 ->
          cpu_meets RANDOMX snap digest result_hash = false
          /\ gpu_meets RANDOMX snap digest = false)).
Proof.
  intros Hd Ht. unfold job_targets, targets_of in Ht. cbn [is_randomx] in Ht.
  rewrite Z.max_r in Ht by lia.
  injection Ht as H64 H256 Hc.
  unfold cpu_meets, gpu_meets. rewrite H64.
  split; [reflexivity|]. split; [reflexivity|].
  split; [apply Z.leb_le|]. split; [apply Z.leb_le|].
  intros ->. split; [reflexivity|].
  split; intros ->; split; reflexivity.
Qed.

Lemma randomx_share_rule_witness :
  1 <= 2
  /\ job_targets (Samples.snap_of RANDOMX 2) = targets_of RANDOMX 2
  /\ target_64 (Samples.snap_of RANDOMX 2) = Some 0x7FFFFFFFFFFFFFFF
  /\ cpu_meets RANDOMX (Samples.snap_of RANDOMX 2) Samples.digest_7f None = true
  /\ gpu_meets RANDOMX (Samples.snap_of RANDOMX 2) Samples.digest_80 = false.
Proof.
  split; [lia|]. split; [reflexivity|].
  assert (H2 : 1 <= 2) by lia.
  assert (Ht : job_targets (Samples.snap_of RANDOMX 2) = targets_of RANDOMX 2)
    by reflexivity.
  destruct (randomx_share_rule 2 _ Samples.digest_7f None H2 Ht)
    as (_ & Htarget & _ & _ & Hvec).
  destruct (randomx_share_rule 2 _ Samples.digest_80 None H2 Ht)
    as (_ & _ & _ & _ & Hvec').
  destruct (Hvec eq_refl) as (Hval & Hacc & _).
  destruct (Hvec' eq_refl) as (_ & _ & Hrej).
  split; [rewrite Htarget, Hval; reflexivity|].
  split; [apply Hacc; reflexivity | apply Hrej; reflexivity].
Defined.

(** C2: on Cosmic Harmony the truncated target is
    [floor((2^256 - 1) / difficulty) >> 224] and a digest is accepted
    exactly when its first four bytes, read in little-endian order, do not
    exceed it, wherever the worker holds the digest; at difficulty 1 the
    truncated target is 0xFFFFFFFF and every digest is accepted. *)
Theorem cosmic_share_rule (d : Z) (snap : JobState)
    (digest output_array : bytes) :
  1 <= d ->
  job_targets snap = targets_of COSMIC_HARMONY d ->
  max_target_256 = 2 ^ 256 - 1
  /\ target_cosmic32 snap = Some (Z.shiftr (max_target_256 / d) 224)
  /\ (cpu_meets COSMIC_HARMONY snap output_array (Some digest) = true
      <-> int_from_bytes_little (take 4 digest)
          <= Z.shiftr (max_target_256 / d) 224)
  /\ (cpu_meets COSMIC_HARMONY snap digest None = true
      <-> int_from_bytes_little (take 4 digest)
          <= Z.shiftr (max_target_256 / d) 224)
  /\ (gpu_meets COSMIC_HARMONY snap digest = true
      <-> int_from_bytes_little (take 4 digest)
          <= Z.shiftr (max_target_256 / d) 224)
  /\ (d = 1 ->
      Z.shiftr (max_target_256 / d) 224 = 0xFFFFFFFF
      /\ cpu_meets COSMIC_HARMONY snap output_array (Some digest) = true
      /\ cpu_meets COSMIC_HARMONY snap digest None = true
      /\ gpu_meets COSMIC_HARMONY snap digest = true).
Proof.
  intros Hd Ht. unfold job_targets, targets_of in Ht.
  cbn [is_randomx is_cosmic] in Ht.
  rewrite Z.max_r in Ht by lia.
  injection Ht as H64 H256 Hc.
  unfold cpu_meets, gpu_meets. rewrite H64, H256, Hc. cbn [is_cosmic].
  split; [reflexivity|]. split; [reflexivity|].
  split; [apply Z.leb_le|]. split; [apply Z.leb_le|]. split; [apply Z.leb_le|].
  intros ->.
  assert (Hv : Z.shiftr (max_target_256 / 1) 224 = 0xFFFFFFFF) by reflexivity.
  rewrite Hv.
  pose proof (little_take_range 4 digest) as Hr.
  assert (Hle : (int_from_bytes_little (take 4 digest) <=? 0xFFFFFFFF) = true).
  { apply Z.leb_le. change (256 ^ Z.of_nat 4) with 4294967296 in Hr.
    change 0xFFFFFFFF with 4294967295. lia. }
  repeat split; exact Hle.
Qed.

Lemma cosmic_share_rule_witness :
  1 <= 1
  /\ job_targets (Samples.snap_of COSMIC_HARMONY 1) = targets_of COSMIC_HARMONY 1
  /\ target_cosmic32 (Samples.snap_of COSMIC_HARMONY 1) = Some 0xFFFFFFFF
  /\ gpu_meets COSMIC_HARMONY (Samples.snap_of COSMIC_HARMONY 1)
       Samples.digest_ff = true.
Proof.
  split; [lia|]. split; [reflexivity|].
  assert (H1 : 1 <= 1) by lia.
  destruct (cosmic_share_rule 1 (Samples.snap_of COSMIC_HARMONY 1)
              Samples.digest_ff [] H1 eq_refl)
    as (_ & Htarget & _ & _ & _ & Hvec).
  destruct (Hvec eq_refl) as (Hval & _ & _ & Hgpu).
  split; [rewrite Htarget, Hval; reflexivity | exact Hgpu].
Defined.

(** C3: on Yescrypt, the 256-bit algorithm that is not Cosmic Harmony,
    the target is [floor((2^256 - 1) / difficulty)], there is no truncated
    target, and a digest is accepted exactly when the whole digest, read
    as a big-endian integer, is strictly below the target. *)
Theorem yescrypt_share_rule (d : Z) (snap : JobState)
    (digest output_array : bytes) :
  1 <= d ->
  job_targets snap = targets_of YESCRYPT d ->
  max_target_256 = 2 ^ 256 - 1
  /\ target_256 snap = Some (max_target_256 / d)
  /\ target_64 snap = None
  /\ target_cosmic32 snap = None
  /\ (cpu_meets YESCRYPT snap digest None = true
      <-> int_from_bytes_big digest < max_target_256 / d)
  /\ (cpu_meets YESCRYPT snap output_array (Some digest) = true
      <-> int_from_bytes_big digest < max_target_256 / d)
  /\ (gpu_meets YESCRYPT snap digest = true
      <-> int_from_bytes_big digest < max_target_256 / d).
Proof.
  intros Hd Ht. unfold job_targets, targets_of in Ht.
  cbn [is_randomx is_cosmic] in Ht.
  rewrite Z.max_r in Ht by lia.
  injection Ht as H64 H256 Hc.
  unfold cpu_meets, gpu_meets. rewrite H64, H256, Hc. cbn [is_cosmic].
  repeat split; try reflexivity; apply Z.ltb_lt.
Qed.

Lemma yescrypt_share_rule_witness :
  1 <= 2
  /\ job_targets (Samples.snap_of YESCRYPT 2) = targets_of YESCRYPT 2
  /\ cpu_meets YESCRYPT (Samples.snap_of YESCRYPT 2) Samples.digest_00 None = true
  /\ gpu_meets YESCRYPT (Samples.snap_of YESCRYPT 2) Samples.digest_ff = false.
Proof.
  split; [lia|]. split; [reflexivity|].
  assert (H2 : 1 <= 2) by lia.
  destruct (yescrypt_share_rule 2 (Samples.snap_of YESCRYPT 2)
              Samples.digest_00 [] H2 eq_refl)
    as (_ & _ & _ & _ & Hcpu & _ & _).
  destruct (yescrypt_share_rule 2 (Samples.snap_of YESCRYPT 2)
              Samples.digest_ff [] H2 eq_refl)
    as (_ & _ & _ & _ & _ & _ & Hgpu).
  split.
  - apply Hcpu. vm_compute. reflexivity.
  - apply not_true_is_false. intros E.
    apply Hgpu in E. vm_compute in E. discriminate E.
Defined.

End TargetFacts.

(** ** The nonce cursor *)

Module NonceFacts.
Import Py Session.

Lemma alloc_all_length counts s :
  length (fst (alloc_all counts s)) = length counts.
Proof.
  revert s. induction counts as [|c cs IH]; intros s; [reflexivity|].
  cbn [alloc_all]. unfold _alloc_nonces.
  specialize (IH {| job_state := job_state s; nonce_cursor := nonce_cursor s + c |}).
  destruct (alloc_all cs _) as [rs s2]. cbn in *. congruence.
Qed.

Lemma alloc_all_cursor counts s :
  nonce_cursor (snd (alloc_all counts s)) = nonce_cursor s + total counts.
Proof.
  revert s. induction counts as [|c cs IH]; intros s.
  - cbn. lia.
  - cbn [alloc_all total fold_right]. unfold _alloc_nonces.
    specialize (IH {| job_state := job_state s; nonce_cursor := nonce_cursor s + c |}).
    destruct (alloc_all cs _) as [rs s2]. cbn in *. fold (total cs). lia.
Qed.

Lemma alloc_all_job_state counts s :
  job_state (snd (alloc_all counts s)) = job_state s.
Proof.
  revert s. induction counts as [|c cs IH]; intros s; [reflexivity|].
  cbn [alloc_all]. unfold _alloc_nonces.
  specialize (IH {| job_state := job_state s; nonce_cursor := nonce_cursor s + c |}).
  destruct (alloc_all cs _) as [rs s2]. cbn in *. exact IH.
Qed.

(** The i-th range starts where the cursor stood after the first i
    calls and has the size that was asked for. *)
Lemma alloc_all_lookup counts s (i : nat) r :
  fst (alloc_all counts s) !! i = Some r ->
  counts !! i = Some (count r)
  /\ start r = nonce_cursor (snd (alloc_all (take i counts) s))
  /\ start r = nonce_cursor s + total (take i counts).
Proof.
  revert s i. induction counts as [|c cs IH]; intros s i H.
  - cbn in H. discriminate.
  - cbn [alloc_all] in H. unfold _alloc_nonces in H.
    pose (s1 := {| job_state := job_state s; nonce_cursor := nonce_cursor s + c |}).
    fold s1 in H.
    destruct (alloc_all cs s1) as [rs s2] eqn:E. cbn [fst] in H.
    destruct i as [|i].
    + cbn in H. injection H as <-. cbn. repeat split; lia.
    + cbn [lookup list_lookup] in H.
      assert (H' : fst (alloc_all cs s1) !! i = Some r) by (rewrite E; exact H).
      destruct (IH s1 i H') as (Hc & Hs & Ht).
      cbn [take alloc_all total fold_right]. unfold _alloc_nonces. fold s1.
      destruct (alloc_all (take i cs) s1) as [rs' s3] eqn:E'.
      cbn [snd] in *. fold (total (take i cs)).
      split; [exact Hc|]. split; [exact Hs|]. rewrite Ht. subst s1. cbn. lia.
Qed.

Lemma total_nonneg counts :
  Forall (fun c => 0 <= c) counts -> 0 <= total counts.
Proof.
  induction 1 as [|c cs Hc _ IH]; cbn; [lia|]. fold (total cs). lia.
Qed.

Lemma total_take_le counts (i j : nat) :
  Forall (fun c => 0 <= c) counts -> (i <= j)%nat ->
  total (take i counts) <= total (take j counts).
Proof.
  intros Hall. revert i j. induction Hall as [|c cs Hc Hcs IH]; intros i j Hij.
  - rewrite !take_nil. lia.
  - destruct i as [|i]; destruct j as [|j]; try lia.
    + change (take 0 (c :: cs)) with (@nil Z).
      change (take (S j) (c :: cs)) with (c :: take j cs).
      cbn [total fold_right]. fold (total (take j cs)).
      assert (Hj : Forall (fun c => 0 <= c) (take j cs)) by (apply Forall_take; exact Hcs).
      pose proof (total_nonneg (take j cs) Hj) as Hn.
      lia.
    + change (take (S i) (c :: cs)) with (c :: take i cs).
      change (take (S j) (c :: cs)) with (c :: take j cs).
      cbn [total fold_right]. fold (total (take i cs)) (total (take j cs)).
      specialize (IH i j). lia.
Qed.

Lemma total_take_S counts (i : nat) c :
  counts !! i = Some c ->
  total (take (S i) counts) = total (take i counts) + c.
Proof.
  revert i. induction counts as [|c0 cs IH]; intros i H; [discriminate|].
  destruct i as [|i].
  - cbn in H. injection H as ->. rewrite firstn_O. simpl. lia.
  - cbn [lookup list_lookup] in H. specialize (IH i H).
    change (take (S (S i)) (c0 :: cs)) with (c0 :: take (S i) cs).
    change (take (S i) (c0 :: cs)) with (c0 :: take i cs).
    cbn [total fold_right]. fold (total (take (S i) cs)) (total (take i cs)). lia.
Qed.

(** The ranges cover the nonces from the first cursor up to the last. *)
Lemma alloc_all_cover counts s x :
  Forall (fun c => 0 <= c) counts ->
  (exists r, r ∈ fst (alloc_all counts s) /\ in_range r x)
  <-> nonce_cursor s <= x < nonce_cursor s + total counts.
Proof.
  intros Hall. revert s. induction Hall as [|c cs Hc Hcs IH]; intros s.
  - cbn. split.
    + intros (r & Hr & _). apply elem_of_nil in Hr. contradiction.
    + lia.
  - cbn [alloc_all total fold_right]. fold (total cs). unfold _alloc_nonces.
    pose (s1 := {| job_state := job_state s; nonce_cursor := nonce_cursor s + c |}).
    fold s1. specialize (IH s1).
    destruct (alloc_all cs s1) as [rs s2] eqn:E. cbn [fst] in *.
    pose proof (total_nonneg cs Hcs) as Hn.
    split.
    + intros (r & Hr & Hx). apply elem_of_cons in Hr. destruct Hr as [-> | Hr].
      * unfold in_range in Hx. cbn in Hx. lia.
      * assert (Hex : exists r, r ∈ rs /\ in_range r x) by eauto.
        apply IH in Hex. subst s1. cbn in Hex. lia.
    + intros Hx. destruct (Z_lt_dec x (nonce_cursor s + c)) as [Hlt | Hge].
      * exists {| start := nonce_cursor s; count := c |}. split.
        -- apply elem_of_cons. left. reflexivity.
        -- unfold in_range. cbn. lia.
      * destruct (proj2 IH) as (r & Hr & Hin).
        -- subst s1. cbn. lia.
        -- exists r. split; [apply elem_of_cons; right; exact Hr | exact Hin].
Qed.

(** C4: allocations made one after the other from a cursor that was just
    reset, each for a count that is not negative, return ranges of the
    sizes asked for; each range starts at the value the cursor had before
    its call, which is the sum of the earlier counts; two different ranges
    share no nonce; together the ranges are exactly the nonces from 0 up
    to the sum of the counts, where the cursor ends. *)
Theorem nonce_ranges_partition (counts : list Z) (s : session) :
  nonce_cursor s = 0 ->
  Forall (fun c => 0 <= c) counts ->
  length (fst (alloc_all counts s)) = length counts
  /\ (forall (i : nat) r,
        fst (alloc_all counts s) !! i = Some r ->
        counts !! i = Some (count r)
        /\ start r = nonce_cursor (snd (alloc_all (take i counts) s))
        /\ start r = total (take i counts))
  /\ (forall (i j : nat) ri rj x,
        (i < j)%nat ->
        fst (alloc_all counts s) !! i = Some ri ->
        fst (alloc_all counts s) !! j = Some rj ->
        ~ (in_range ri x /\ in_range rj x))
  /\ (forall x,
        (exists r, r ∈ fst (alloc_all counts s) /\ in_range r x)
        <-> 0 <= x < total counts)
  /\ nonce_cursor (snd (alloc_all counts s)) = total counts.
Proof.
  intros H0 Hall.
  split; [apply alloc_all_length|].
  split.
  { intros i r Hr. destruct (alloc_all_lookup _ _ _ _ Hr) as (Hc & Hs & Ht).
    repeat split; [exact Hc | exact Hs | lia]. }
  split.
  { intros i j ri rj x Hij Hi Hj [Hxi Hxj].
    destruct (alloc_all_lookup _ _ _ _ Hi) as (Hci & _ & Hsi).
    destruct (alloc_all_lookup _ _ _ _ Hj) as (_ & _ & Hsj).
    pose proof (total_take_S _ _ _ Hci) as HS.
    pose proof (total_take_le counts (S i) j Hall ltac:(lia)) as Hle.
    unfold in_range in Hxi, Hxj. lia. }
  split.
  { intros x. rewrite (alloc_all_cover counts s x Hall). rewrite H0. lia. }
  rewrite alloc_all_cursor. lia.
Qed.

Lemma nonce_ranges_partition_witness :
  nonce_cursor initial = 0
  /\ Forall (fun c => 0 <= c) [1000; 50000; 1000]
  /\ fst (alloc_all [1000; 50000; 1000] initial)
     = [ {| start := 0; count := 1000 |};
         {| start := 1000; count := 50000 |};
         {| start := 51000; count := 1000 |} ]
  /\ nonce_cursor (snd (alloc_all [1000; 50000; 1000] initial))
     = total [1000; 50000; 1000].
Proof.
  assert (Hall : Forall (fun c => 0 <= c) [1000; 50000; 1000]).
  { repeat constructor; discriminate. }
  split; [reflexivity|]. split; [exact Hall|]. split; [reflexivity|].
  exact (proj2 (proj2 (proj2 (proj2
           (nonce_ranges_partition [1000; 50000; 1000] initial eq_refl Hall))))).
Defined.

End NonceFacts.

(** ** The job state *)

Module JobFacts.
Import Py Session.

(** One update: either it installs the job, which raises the version by
    one and resets the cursor, or it leaves the session as it was. *)
Lemma update_step int_of_str algo job s :
  let s' := snd (_update_job_from_stratum int_of_str algo job s) in
  if installs int_of_str job s
  then version (job_state s') = version (job_state s) + 1
       /\ nonce_cursor s' = 0
       /\ job_id (job_state s') = get job "job_id"
       /\ blob_hex (job_state s') = get job "blob"
       /\ job_targets (job_state s')
          = targets_of algo
              (default 1 (int int_of_str (or_else (get job "difficulty") (JNum 1))))
  else s' = s.
Proof.
  unfold installs, _update_job_from_stratum.
  destruct (int int_of_str _) as [pd|]; [|reflexivity].
  destruct (truthy (get job "job_id")); [|reflexivity].
  destruct (truthy (get job "blob")); [|reflexivity].
  cbn [negb orb andb].
  destruct (get job "blob") as [| | |h| |]; try reflexivity.
  destruct (bytes_fromhex h) as [bs|]; [|reflexivity].
  destruct (targets_of algo pd) as [[t64 t256] tc32] eqn:Ht.
  cbn [andb].
  destruct (negb (eqb _ _)); [|reflexivity].
  destruct (sliceable _); cbn; rewrite Ht; repeat split; reflexivity.
Qed.

Lemma update_version_le int_of_str algo job s :
  version (job_state s)
  <= version (job_state (snd (_update_job_from_stratum int_of_str algo job s))).
Proof.
  pose proof (update_step int_of_str algo job s) as H. cbn zeta in H.
  destruct (installs int_of_str job s).
  - destruct H as (Hv & _). lia.
  - rewrite H. lia.
Qed.

(** The states of a series of updates are linked by single updates. *)
Lemma run_updates_step int_of_str algo jobs s0 (i : nat) a b :
  (s0 :: run_updates int_of_str algo jobs s0) !! i = Some a ->
  (s0 :: run_updates int_of_str algo jobs s0) !! S i = Some b ->
  exists job, jobs !! i = Some job
    /\ b = snd (_update_job_from_stratum int_of_str algo job a).
Proof.
  revert s0 i. induction jobs as [|job jobs IH]; intros s0 i Ha Hb.
  - cbn in Hb. discriminate.
  - cbn [run_updates] in Ha, Hb.
    destruct (_update_job_from_stratum int_of_str algo job s0) as [o s1] eqn:E.
    destruct i as [|i].
    + cbn in Ha. injection Ha as <-. exists job. split; [reflexivity|].
      rewrite E. destruct o; cbn in Hb; injection Hb as <-; reflexivity.
    + destruct o.
      * cbn [lookup list_lookup] in Ha, Hb.
        destruct (IH s1 i Ha Hb) as (job' & Hj & Hs).
        exists job'. split; [exact Hj | exact Hs].
      * destruct i; cbn in Hb; discriminate.
Qed.

(** C5, as the code has it: along a series of job updates the version
    never decreases; an update that installs a new job raises it by
    exactly one and resets the nonce cursor to 0; every other update (the
    job already current, an empty id or blob, a blob that is not
    hexadecimal) leaves the job state and the cursor as they were. *)
Theorem version_monotone int_of_str algo (jobs : list dict) (s0 : session)
    (i : nat) (a b : session) :
  (s0 :: run_updates int_of_str algo jobs s0) !! i = Some a ->
  (s0 :: run_updates int_of_str algo jobs s0) !! S i = Some b ->
  exists job,
    jobs !! i = Some job
    /\ b = snd (_update_job_from_stratum int_of_str algo job a)
    /\ version (job_state a) <= version (job_state b)
    /\ (if installs int_of_str job a
        then version (job_state b) = version (job_state a) + 1
             /\ nonce_cursor b = 0
             /\ job_id (job_state b) = get job "job_id"
        else b = a).
Proof.
  intros Ha Hb.
  destruct (run_updates_step _ _ _ _ _ _ _ Ha Hb) as (job & Hj & ->).
  exists job. split; [exact Hj|]. split; [reflexivity|].
  split; [apply update_version_le|].
  pose proof (update_step int_of_str algo job a) as H. cbn zeta in H.
  destruct (installs int_of_str job a).
  - destruct H as (Hv & Hc & Hid & _). repeat split; assumption.
  - exact H.
Qed.

Lemma version_monotone_witness :
  exists a b,
    (initial :: run_updates Samples.no_int_of_str RANDOMX
       [Samples.job "j1" 2 true; Samples.job "j1" 2 true;
        Samples.job "j2" 3 true] initial) !! 2%nat = Some a
    /\ (initial :: run_updates Samples.no_int_of_str RANDOMX
         [Samples.job "j1" 2 true; Samples.job "j1" 2 true;
          Samples.job "j2" 3 true] initial) !! 3%nat = Some b
    /\ version (job_state a) = 1
    /\ version (job_state a) <= version (job_state b)
    /\ nonce_cursor b = 0.
Proof.
  eexists _, _. split; [reflexivity|]. split; [reflexivity|].
  split; [reflexivity|].
  destruct (version_monotone Samples.no_int_of_str RANDOMX
              [Samples.job "j1" 2 true; Samples.job "j1" 2 true;
               Samples.job "j2" 3 true] initial 2 _ _ eq_refl eq_refl)
    as (job & Hjob & _ & Hle & _).
  split; [exact Hle | reflexivity].
Defined.

(** The claim as the specification words it fails: the control loop
    passes the current job to the update on every turn, and an update
    with the job that is already installed does not raise the version. *)
Lemma version_not_strictly_increasing :
  version (job_state
             (snd (_update_job_from_stratum Samples.no_int_of_str RANDOMX
                     (Samples.job "j1" 2 true) initial))) = 1
  /\ version (job_state
       (snd (_update_job_from_stratum Samples.no_int_of_str RANDOMX
               (Samples.job "j1" 2 true)
               (snd (_update_job_from_stratum Samples.no_int_of_str RANDOMX
                       (Samples.job "j1" 2 true) initial))))) = 1
  /\ ~ (forall int_of_str algo (jobs : list dict) (s0 : session) (i : nat)
            (a b : session),
          (s0 :: run_updates int_of_str algo jobs s0) !! i = Some a ->
          (s0 :: run_updates int_of_str algo jobs s0) !! S i = Some b ->
          version (job_state a) < version (job_state b)).
Proof.
  split; [reflexivity|]. split; [reflexivity|].
  intros H.
  specialize (H Samples.no_int_of_str RANDOMX
                [Samples.job "j1" 2 true; Samples.job "j1" 2 true]
                initial 1%nat _ _ eq_refl eq_refl).
  vm_compute in H. discriminate H.
Qed.

End JobFacts.

(** ** The Stratum client *)

Module StratumFacts.
Import Py Stratum.

Lemma eqb_JStr v t : eqb v (JStr t) = true -> v = JStr t.
Proof.
  destruct v; cbn; try discriminate.
  intros H. apply String.eqb_eq in H. congruence.
Qed.

(** A notify that carries a job ends in [enqueue_job]. *)
Lemma handle_notify int_of_str message job s :
  notify_job message = Some job ->
  _handle_message int_of_str message s = (Done, enqueue_job job s).
Proof.
  unfold notify_job, _handle_message.
  destruct message as [| | | | |m]; try discriminate.
  destruct (eqb (get m "method") (JStr "mining.notify")) eqn:Em; [|discriminate].
  apply eqb_JStr in Em. rewrite Em. cbn [eqb String.eqb Ascii.eqb Bool.eqb].
  cbn.
  destruct (get_default m "params" (JList [])) as [| | | |l|]; try discriminate.
  destruct l as [|p0 rest]; [discriminate|].
  cbn [truthy].
  destruct p0; destruct rest as [|p1 rest']; cbn [length];
    intros H; try discriminate H; injection H as <-; reflexivity.
Qed.

Lemma drain_last q latest :
  drain q latest = match last q with Some j => Some j | None => latest end.
Proof.
  revert latest. induction q as [|j q IH]; intros latest; [reflexivity|].
  cbn [drain]. rewrite IH, last_cons. destruct (last q); reflexivity.
Qed.

(** [get_job] empties the queue and keeps its most recent job, or the
    current job when the queue was empty. *)
Lemma get_job_latest s :
  fst (get_job s)
  = match last (job_queue s) with Some j => Some j | None => current_job s end
  /\ job_queue (snd (get_job s)) = []
  /\ current_job (snd (get_job s)) = fst (get_job s).
Proof.
  unfold get_job. rewrite drain_last.
  destruct (last (job_queue s)); cbn; repeat split; reflexivity.
Qed.



End StratumFacts.

(** ** Jobs from the pool to the workers *)

Module QueueFacts.
Import Py Stratum Session StratumFacts.






End QueueFacts.

(** ** The positional form of mining.notify *)

Module NotifyFacts.
Import Py Stratum StratumFacts.

Lemma array_job_keys (params : list json) :
  get (array_job params) "job_id" = nth 0 params JNull
  /\ get (array_job params) "blob" = nth 1 params JNull
  /\ get (array_job params) "seed_hash" = item_or params 2 (JStr "")
  /\ get (array_job params) "next_seed_hash" = item_or params 3 (JStr "")
  /\ get (array_job params) "height" = item_or params 4 (JNum 0)
  /\ get (array_job params) "difficulty" = item_or params 5 (JNum 1)
  /\ get (array_job params) "clean_jobs" = item_or params 6 (JBool true).
Proof. repeat split; reflexivity. Qed.

Lemma item_or_short (params : list json) (i : nat) dflt :
  (length params <= i)%nat -> item_or params i dflt = dflt.
Proof.
  intros H. unfold item_or.
  destruct (Nat.ltb_spec i (length params)); [lia | reflexivity].
Qed.

(** C9: a [mining.notify] whose params are a positional array of two to
    six items (the first is not an object, which would be the legacy
    form) installs the job built from the items with the defaults for
    those that are missing: empty seed hashes, height 0, difficulty 1 and
    [clean_jobs] true; so the queue is emptied and holds that job
    alone. *)
Theorem short_array_notify_defaults int_of_str (m : dict)
    (params : list json) (s : StratumClient) :
  get m "method" = JStr "mining.notify" ->
  get_default m "params" (JList []) = JList params ->
  (2 <= length params < 7)%nat ->
  (forall d, nth 0 params JNull <> JDict d) ->
  _handle_message int_of_str (JDict m) s
    = (Done, set_jobs [array_job params] (Some (array_job params)) s)
  /\ get (array_job params) "job_id" = nth 0 params JNull
  /\ get (array_job params) "blob" = nth 1 params JNull
  /\ get (array_job params) "clean_jobs" = JBool true
  /\ truthy (get (array_job params) "clean_jobs") = true
  /\ get (array_job params) "seed_hash"
     = (if (2 <? length params)%nat then nth 2 params JNull else JStr "")
  /\ get (array_job params) "next_seed_hash"
     = (if (3 <? length params)%nat then nth 3 params JNull else JStr "")
  /\ get (array_job params) "height"
     = (if (4 <? length params)%nat then nth 4 params JNull else JNum 0)
  /\ get (array_job params) "difficulty"
     = (if (5 <? length params)%nat then nth 5 params JNull else JNum 1)
  /\ ((length params = 2)%nat ->
      array_job params
      = [ ("job_id"%string, nth 0 params JNull);
          ("blob"%string, nth 1 params JNull);
          ("seed_hash"%string, JStr ""); ("next_seed_hash"%string, JStr "");
          ("height"%string, JNum 0); ("difficulty"%string, JNum 1);
          ("clean_jobs"%string, JBool true) ])
  /\ job_queue (snd (_handle_message int_of_str (JDict m) s)) = [array_job params]
  /\ current_job (snd (_handle_message int_of_str (JDict m) s))
     = Some (array_job params).
Proof.
  intros Hm Hp Hlen Hpos.
  destruct (array_job_keys params) as (Kid & Kblob & Kseed & Knext & Kh & Kd & Kc).
  assert (Hclean : get (array_job params) "clean_jobs" = JBool true).
  { rewrite Kc. apply item_or_short. lia. }
  assert (Hjob : notify_job (JDict m) = Some (array_job params)).
  { unfold notify_job. rewrite Hm, Hp. cbn [eqb].
    destruct params as [|p0 rest]; [cbn in Hlen; lia|].
    destruct (Nat.leb_spec 2 (length (p0 :: rest))); [|lia].
    destruct p0; try reflexivity.
    exfalso. eapply Hpos. reflexivity. }
  assert (Hrun : _handle_message int_of_str (JDict m) s
                 = (Done, set_jobs [array_job params] (Some (array_job params)) s)).
  { rewrite (handle_notify _ _ _ s Hjob). unfold enqueue_job.
    rewrite Hclean. reflexivity. }
  split; [exact Hrun|]. split; [exact Kid|]. split; [exact Kblob|].
  split; [exact Hclean|]. split; [rewrite Hclean; reflexivity|].
  split; [exact Kseed|]. split; [exact Knext|]. split; [exact Kh|].
  split; [exact Kd|].
  split.
  { intros H2. unfold array_job, item_or. rewrite H2. reflexivity. }
  rewrite Hrun. split; reflexivity.
Qed.

Lemma short_array_notify_defaults_witness :
  (2 <= length [JStr "j9"; JStr "00ff"; JStr "seed"] < 7)%nat
  /\ _handle_message Samples.no_int_of_str
       (Samples.notify_array [JStr "j9"; JStr "00ff"; JStr "seed"])
       (enqueue_job (Samples.job "j1" 2 false) Samples.online)
     = (Done,
        set_jobs
          [ [ ("job_id"%string, JStr "j9"); ("blob"%string, JStr "00ff");
              ("seed_hash"%string, JStr "seed");
              ("next_seed_hash"%string, JStr "");
              ("height"%string, JNum 0); ("difficulty"%string, JNum 1);
              ("clean_jobs"%string, JBool true) ] ]
          (Some (array_job [JStr "j9"; JStr "00ff"; JStr "seed"]))
          (enqueue_job (Samples.job "j1" 2 false) Samples.online)).
Proof.
  assert (Hlen : (2 <= length [JStr "j9"; JStr "00ff"; JStr "seed"] < 7)%nat)
    by (cbn; lia).
  split; [exact Hlen|].
  refine (proj1 (short_array_notify_defaults Samples.no_int_of_str
            [ ("method"%string, JStr "mining.notify");
              ("params"%string, JList [JStr "j9"; JStr "00ff"; JStr "seed"]) ]
            [JStr "j9"; JStr "00ff"; JStr "seed"]
            (enqueue_job (Samples.job "j1" 2 false) Samples.online)
            eq_refl eq_refl Hlen _)).
  intros d H. discriminate H.
Defined.

End NotifyFacts.

(** ** Submitting a share *)

Module SubmitFacts.
Import Py Stratum.

(** C10: [submit_share] counts the share and registers the new request id
    before it sends; whatever the send does, the counter is one higher,
    the id is pending and the next id is one higher.  The call returns
    true exactly when the socket is set and the send succeeds; when the
    send raises, or there is no socket, it returns false, nothing is
    written, and the counter and the pending id stay as registered. *)
Theorem submit_share_not_rolled_back (job_id : json) (nonce : Z)
    (result_hash : bytes) (io : send_result) (s : StratumClient) :
  shares_sent (snd (submit_share job_id nonce result_hash io s))
    = shares_sent s + 1
  /\ request_id s
     ∈ _pending_submit_ids (snd (submit_share job_id nonce result_hash io s))
  /\ _pending_submit_ids (snd (submit_share job_id nonce result_hash io s))
     = {[ request_id s ]} ∪ _pending_submit_ids s
  /\ request_id (snd (submit_share job_id nonce result_hash io s))
     = request_id s + 1
  /\ (fst (submit_share job_id nonce result_hash io s) = true
      <-> socket s = true /\ io = Sent)
  /\ (forall e, io = SendRaises e ->
        fst (submit_share job_id nonce result_hash io s) = false
        /\ outbox (snd (submit_share job_id nonce result_hash io s)) = outbox s)
  /\ (fst (submit_share job_id nonce result_hash io s) = true ->
        outbox (snd (submit_share job_id nonce result_hash io s))
        = outbox s ++ [submit_request (worker_id s) (request_id s) job_id
                         nonce result_hash]).
Proof.
  unfold submit_share, _send_request.
  cbn [register_submit socket].
  destruct (socket s) eqn:Hs; cbn [negb].
  - destruct io as [|e]; [|destruct (is_OSError e)]; cbn;
      (split; [reflexivity|]); (split; [set_solver|]);
      (split; [reflexivity|]); (split; [reflexivity|]);
      (split; [split; [intros H; try discriminate H; split; reflexivity
                      | intros [_ H]; try discriminate H; reflexivity]|]);
      (split; [intros e' He'; try discriminate He'; split; reflexivity|]);
      intros H; try discriminate H; reflexivity.
  - cbn. split; [reflexivity|]. split; [set_solver|].
    split; [reflexivity|]. split; [reflexivity|].
    split; [split; [intros H; discriminate H | intros [H _]; discriminate H]|].
    split; [intros e' _; split; reflexivity|].
    intros H; discriminate H.
Qed.

End SubmitFacts.

(** ** The listener *)

Module ListenerFacts.
Import Py Stratum.

(** A socket error met while the client is connected is recorded before
    the listener exits. *)
Lemma socket_error_disconnects json_loads int_of_str msg buffer s :
  socket s = true -> connected s = true ->
  listen_step json_loads int_of_str (RecvRaises (OSError msg)) buffer s
    = (Exited, set_disconnected (SocketError (OSError msg)) s)
  /\ connected (set_disconnected (SocketError (OSError msg)) s) = false
  /\ last_disconnect_reason (set_disconnected (SocketError (OSError msg)) s)
     = Some (SocketError (OSError msg)).
Proof.
  intros Hs Hc. unfold listen_step, on_exception. rewrite Hs, Hc.
  repeat split; reflexivity.
Qed.

(** Any other exception is recorded as a listener error. *)
Lemma listener_error_disconnects json_loads int_of_str msg buffer s :
  socket s = true ->
  listen_step json_loads int_of_str (RecvRaises (Exception msg)) buffer s
    = (Exited, set_disconnected (ListenerError (Exception msg)) s).
Proof.
  intros Hs. unfold listen_step, on_exception. rewrite Hs. reflexivity.
Qed.

(** A time-out of [recv] keeps the listener in its loop. *)
Lemma timeout_continues json_loads int_of_str buffer s :
  socket s = true ->
  listen_step json_loads int_of_str (RecvRaises SocketTimeout) buffer s
    = (Listening buffer, s).
Proof.
  intros Hs. unfold listen_step, on_exception. rewrite Hs. reflexivity.
Qed.

(** A zero-length read ends the loop and changes nothing in the client. *)
Lemma zero_length_read_exits json_loads int_of_str buffer s :
  listen_step json_loads int_of_str (RecvData EmptyString) buffer s = (Exited, s).
Proof.
  unfold listen_step. destruct (socket s); reflexivity.
Qed.

(** C7, where the code departs from it: on a connected client whose
    [recv] returns no data the listener exits, yet the client still says
    it is connected and no reason is recorded; the socket error next to
    it sets both. *)
Theorem zero_length_read_stays_connected :
  _listen_loop Samples.no_json Samples.no_int_of_str
    [RecvData EmptyString] Samples.online = (Exited, Samples.online)
  /\ connected Samples.online = true
  /\ last_disconnect_reason Samples.online = None
  /\ connected (snd (_listen_loop Samples.no_json Samples.no_int_of_str
                      [RecvData EmptyString] Samples.online)) = true
  /\ last_disconnect_reason
       (snd (_listen_loop Samples.no_json Samples.no_int_of_str
               [RecvData EmptyString] Samples.online)) = None
  /\ connected (snd (_listen_loop Samples.no_json Samples.no_int_of_str
                      [RecvRaises (OSError "reset")] Samples.online)) = false
  /\ last_disconnect_reason
       (snd (_listen_loop Samples.no_json Samples.no_int_of_str
               [RecvRaises (OSError "reset")] Samples.online))
     = Some (SocketError (OSError "reset")).
Proof. repeat split; reflexivity. Qed.

End ListenerFacts.

(** ** Hexadecimal fields of a share *)

Module HexFacts.
Import Py Stratum.

Lemma str_length_app (s t : string) :
  String.length (String.append s t) = (String.length s + String.length t)%nat.
Proof. induction s as [|c s IH]; simpl; [reflexivity | rewrite IH; reflexivity]. Qed.

Lemma all_lower_hex_app (s t : string) :
  all_lower_hex (String.append s t) = all_lower_hex s && all_lower_hex t.
Proof.
  induction s as [|c s IH]; simpl; [reflexivity|].
  rewrite IH. apply andb_assoc.
Qed.

Lemma base16_from_app (s t : string) (acc : Z) :
  base16_from acc (String.append s t)
  = match base16_from acc s with
    | Some v => base16_from v t
    | None => None
    end.
Proof.
  revert acc. induction s as [|c s IH]; intros acc; simpl; [reflexivity|].
  destruct (hex_val c); [apply IH | reflexivity].
Qed.

Lemma sixteen_cases (d : Z) :
  0 <= d < 16 ->
  d = 0 \/ d = 1 \/ d = 2 \/ d = 3 \/ d = 4 \/ d = 5 \/ d = 6 \/ d = 7 \/
  d = 8 \/ d = 9 \/ d = 10 \/ d = 11 \/ d = 12 \/ d = 13 \/ d = 14 \/ d = 15.
Proof. lia. Qed.

Ltac each_digit H :=
  apply sixteen_cases in H;
  repeat (destruct H as [-> | H]; [reflexivity|]); subst; reflexivity.

Lemma hex_val_digit (d : Z) : 0 <= d < 16 -> hex_val (hex_digit d) = Some d.
Proof. intros H. each_digit H. Qed.

Lemma hex_digit_lower (d : Z) : 0 <= d < 16 -> is_lower_hex (hex_digit d) = true.
Proof. intros H. each_digit H. Qed.

Lemma hex_digit_not_sign (d : Z) :
  0 <= d < 16 ->
  Ascii.eqb (hex_digit d) "+" || Ascii.eqb (hex_digit d) "-" = false.
Proof. intros H. each_digit H. Qed.

Lemma zeros_length (k : nat) : String.length (zeros k) = k.
Proof. induction k; simpl; congruence. Qed.

Lemma zeros_lower (k : nat) : all_lower_hex (zeros k) = true.
Proof. induction k; simpl; [reflexivity | assumption]. Qed.

Lemma zeros_base16 (k : nat) : base16_from 0 (zeros k) = Some 0.
Proof. induction k; simpl; [reflexivity | assumption]. Qed.

(** Dividing by 16 leaves enough fuel for the remaining digits. *)
Lemma fuel_step (fuel : nat) (n : Z) :
  16 <= n < 2 ^ Z.of_nat (S fuel) -> 0 <= n / 16 < 2 ^ Z.of_nat fuel.
Proof.
  intros [Hlo Hhi]. split; [apply Z.div_pos; lia|].
  apply Z.div_lt_upper_bound; [lia|].
  rewrite Nat2Z.inj_succ, Z.pow_succ_r in Hhi by lia.
  assert (0 < 2 ^ Z.of_nat fuel) by (apply Z.pow_pos_nonneg; lia). lia.
Qed.

Lemma hex_digits_fuel_lower (fuel : nat) (n : Z) :
  0 <= n -> all_lower_hex (hex_digits_fuel fuel n) = true.
Proof.
  revert n. induction fuel as [|fuel IH]; intros n Hn; [reflexivity|].
  cbn [hex_digits_fuel]. destruct (Z.ltb_spec n 16).
  - simpl. rewrite hex_digit_lower by lia. reflexivity.
  - rewrite all_lower_hex_app, IH by (apply Z.div_pos; lia). simpl.
    rewrite hex_digit_lower; [reflexivity|]. apply Z.mod_pos_bound. lia.
Qed.

(** With enough fuel the digits read back as the number. *)
Lemma hex_digits_fuel_value (fuel : nat) (n : Z) :
  0 <= n < 2 ^ Z.of_nat fuel ->
  base16_from 0 (hex_digits_fuel fuel n) = Some n.
Proof.
  revert n. induction fuel as [|fuel IH]; intros n Hn.
  - cbn in Hn. assert (n = 0) by lia. subst. reflexivity.
  - cbn [hex_digits_fuel]. destruct (Z.ltb_spec n 16).
    + simpl. rewrite hex_val_digit by lia. f_equal; lia.
    + rewrite base16_from_app, IH by (apply fuel_step; lia). simpl.
      rewrite hex_val_digit by (apply Z.mod_pos_bound; lia).
      f_equal. pose proof (Z.div_mod n 16 ltac:(lia)). lia.
Qed.

Lemma hex_digits_fuel_first (fuel : nat) (n : Z) :
  0 <= n < 2 ^ Z.of_nat fuel -> (0 < fuel)%nat ->
  exists d r, 0 <= d < 16 /\ hex_digits_fuel fuel n = String (hex_digit d) r.
Proof.
  revert n. induction fuel as [|fuel IH]; intros n Hn Hf; [lia|].
  cbn [hex_digits_fuel]. destruct (Z.ltb_spec n 16).
  - exists n, EmptyString. split; [lia | reflexivity].
  - assert (Hq : 0 <= n / 16 < 2 ^ Z.of_nat fuel) by (apply fuel_step; lia).
    assert (Hf' : (0 < fuel)%nat).
    { destruct fuel; [|lia]. cbn in Hq.
      assert (1 <= n / 16) by (apply Z.div_le_lower_bound; lia). lia. }
    destruct (IH _ Hq Hf') as (d & r & Hd & E).
    exists d, (String.append r (String (hex_digit (n mod 16)) EmptyString)).
    split; [exact Hd|]. rewrite E. reflexivity.
Qed.

(** A number below [16^k] has at most [k] digits. *)
Lemma hex_digits_fuel_short (fuel : nat) (n : Z) (k : nat) :
  0 <= n < 16 ^ Z.of_nat k -> (1 <= k)%nat ->
  (String.length (hex_digits_fuel fuel n) <= k)%nat.
Proof.
  revert n k. induction fuel as [|fuel IH]; intros n k Hn Hk; [simpl; lia|].
  cbn [hex_digits_fuel]. destruct (Z.ltb_spec n 16).
  - simpl. lia.
  - rewrite str_length_app. cbn [String.length].
    destruct k as [|k]; [lia|].
    destruct k as [|k]; [cbn in Hn; lia|].
    assert (Hq : 0 <= n / 16 < 16 ^ Z.of_nat (S k)).
    { split; [apply Z.div_pos; lia|].
      apply Z.div_lt_upper_bound; [lia|].
      rewrite (Nat2Z.inj_succ (S k)), Z.pow_succ_r in Hn by lia. lia. }
    specialize (IH (n / 16) (S k) Hq ltac:(lia)). lia.
Qed.

(** With enough fuel a number from [16^k] on has more than [k] digits. *)
Lemma hex_digits_fuel_long (fuel : nat) (n : Z) (k : nat) :
  0 <= n < 2 ^ Z.of_nat fuel -> 16 ^ Z.of_nat k <= n ->
  (k < String.length (hex_digits_fuel fuel n))%nat.
Proof.
  revert n k. induction fuel as [|fuel IH]; intros n k Hn Hk.
  - cbn in Hn. assert (0 < 16 ^ Z.of_nat k) by (apply Z.pow_pos_nonneg; lia). lia.
  - cbn [hex_digits_fuel]. destruct (Z.ltb_spec n 16).
    + simpl. destruct k as [|k]; [lia|].
      rewrite Nat2Z.inj_succ, Z.pow_succ_r in Hk by lia.
      assert (0 < 16 ^ Z.of_nat k) by (apply Z.pow_pos_nonneg; lia). lia.
    + rewrite str_length_app. cbn [String.length].
      destruct k as [|k]; [lia|].
      assert (Hq : 0 <= n / 16 < 2 ^ Z.of_nat fuel) by (apply fuel_step; lia).
      assert (Hk' : 16 ^ Z.of_nat k <= n / 16).
      { apply Z.div_le_lower_bound; [lia|].
        rewrite Nat2Z.inj_succ, Z.pow_succ_r in Hk by lia. lia. }
      specialize (IH (n / 16) k Hq Hk'). lia.
Qed.

(** The fuel [hex_digits] takes is enough. *)
Lemma hex_digits_fuel_enough (n : Z) :
  0 <= n -> 0 <= n < 2 ^ Z.of_nat (S (Z.to_nat (Z.log2 n))).
Proof.
  intros Hn. split; [exact Hn|].
  rewrite Nat2Z.inj_succ, Z2Nat.id by apply Z.log2_nonneg.
  destruct (Z.eq_dec n 0) as [-> | Hne]; [reflexivity|].
  apply Z.log2_spec. lia.
Qed.

Lemma hex_digits_first (n : Z) :
  0 <= n ->
  exists d r, 0 <= d < 16 /\ hex_digits n = String (hex_digit d) r.
Proof.
  intros Hn. unfold hex_digits.
  apply hex_digits_fuel_first; [apply hex_digits_fuel_enough; exact Hn | lia].
Qed.

(** For a nonce that is not negative the field is the digits of the
    nonce, with zeros in front when there are fewer than eight. *)
Lemma nonce_hex_digits (n : Z) :
  0 <= n ->
  nonce_hex n
  = String.append (zeros (8 - String.length (hex_digits n))) (hex_digits n).
Proof.
  intros Hn. unfold nonce_hex, hex.
  destruct (Z.ltb_spec n 0); [lia|].
  change (str_from 2 (String.append "0x" (hex_digits n))) with (hex_digits n).
  unfold zfill.
  destruct (Nat.leb_spec 8 (String.length (hex_digits n))) as [Hlen | Hlen].
  - replace (8 - String.length (hex_digits n))%nat with 0%nat by lia.
    reflexivity.
  - destruct (hex_digits_first n Hn) as (d & r & Hd & E).
    rewrite E. rewrite hex_digit_not_sign by exact Hd. reflexivity.
Qed.

Lemma bytes_hex_length (b : bytes) :
  String.length (bytes_hex b) = (2 * length b)%nat.
Proof.
  induction b as [|x r IH]; [reflexivity|].
  cbn [bytes_hex String.length length]. rewrite IH. lia.
Qed.

Lemma bytes_hex_lower (b : bytes) : all_lower_hex (bytes_hex b) = true.
Proof.
  induction b as [|x r IH]; [reflexivity|].
  cbn [bytes_hex all_lower_hex].
  pose proof (BytesFacts.byte_val_range x) as Hx.
  rewrite !hex_digit_lower, IH; [reflexivity | |].
  - apply Z.mod_pos_bound. lia.
  - split; [apply Z.div_pos; lia | apply Z.div_lt_upper_bound; lia].
Qed.

(** X25: the fields of a share.  A nonce from 0 to 2^32 - 1 is written
    as exactly eight lower-case hexadecimal characters; a larger nonce is
    written with all its digits, so never with fewer than eight; read back
    in base 16 the field is the nonce; a digest is written as two
    lower-case hexadecimal characters per byte, 64 for 32 bytes; 255 is
    written 000000ff and a digest of 32 zero bytes as 64 zeros; these are
    the fields of the request [submit_share] sends. *)
Theorem nonce_hex_format (nonce : Z) (digest : bytes) :
  0 <= nonce ->
  (nonce < 2 ^ 32 -> String.length (nonce_hex nonce) = 8%nat)
  /\ (2 ^ 32 <= nonce -> (8 < String.length (nonce_hex nonce))%nat)
  /\ (8 <= String.length (nonce_hex nonce))%nat
  /\ all_lower_hex (nonce_hex nonce) = true
  /\ int_base16 (nonce_hex nonce) = Some nonce
  /\ String.length (bytes_hex digest) = (2 * length digest)%nat
  /\ (length digest = 32%nat -> String.length (bytes_hex digest) = 64%nat)
  /\ all_lower_hex (bytes_hex digest) = true
  /\ nonce_hex 255 = "000000ff"%string
  /\ bytes_hex (repeat x00 32) = zeros 64
  /\ (forall job_id s,
        socket s = true ->
        outbox (snd (submit_share job_id nonce digest Sent s))
        = outbox s
          ++ [JDict [ ("id"%string, JNum (request_id s));
                      ("jsonrpc"%string, JStr "2.0");
                      ("method"%string, JStr "submit");
                      ("params"%string,
                        JDict [ ("id"%string, JStr (worker_id s));
                                ("job_id"%string, job_id);
                                ("nonce"%string, JStr (nonce_hex nonce));
                                ("result"%string, JStr (bytes_hex digest)) ]) ]]).
Proof.
  intros Hn.
  pose proof (nonce_hex_digits nonce Hn) as E.
  pose proof (hex_digits_fuel_enough nonce Hn) as Hfuel.
  assert (Hlen : String.length (nonce_hex nonce)
                 = (8 - String.length (hex_digits nonce)
                    + String.length (hex_digits nonce))%nat).
  { rewrite E, str_length_app, zeros_length. reflexivity. }
  split.
  { intros Hlt.
    assert (Hs : (String.length (hex_digits nonce) <= 8)%nat).
    { unfold hex_digits. apply hex_digits_fuel_short; [|lia].
      change (16 ^ Z.of_nat 8) with (2 ^ 32). lia. }
    lia. }
  split.
  { intros Hge.
    assert (Hl : (8 < String.length (hex_digits nonce))%nat).
    { unfold hex_digits. apply hex_digits_fuel_long; [exact Hfuel|].
      change (16 ^ Z.of_nat 8) with (2 ^ 32). exact Hge. }
    lia. }
  split; [lia|].
  split.
  { rewrite E, all_lower_hex_app, zeros_lower. simpl.
    unfold hex_digits. apply hex_digits_fuel_lower. exact Hn. }
  split.
  { assert (Hv : base16_from 0 (nonce_hex nonce) = Some nonce).
    { rewrite E, base16_from_app, zeros_base16.
      unfold hex_digits. apply hex_digits_fuel_value. exact Hfuel. }
    unfold int_base16. destruct (nonce_hex nonce) eqn:En; [|exact Hv].
    simpl in Hlen. lia. }
  split; [apply bytes_hex_length|].
  split; [intros H32; rewrite bytes_hex_length, H32; reflexivity|].
  split; [apply bytes_hex_lower|].
  split; [reflexivity|]. split; [reflexivity|].
  intros job_id s Hs. unfold submit_share, _send_request.
  cbn [register_submit socket]. rewrite Hs. reflexivity.
Qed.

Lemma nonce_hex_format_witness :
  0 <= 255
  /\ String.length (nonce_hex 255) = 8%nat
  /\ int_base16 (nonce_hex 255) = Some 255.
Proof.
  assert (H : 0 <= 255) by lia.
  destruct (nonce_hex_format 255 (repeat x00 32) H)
    as (Hlen & _ & _ & _ & Hback & _).
  split; [exact H|]. split; [apply Hlen; reflexivity | exact Hback].
Defined.

(** C8: [submit_share] does not keep the nonce field to eight
    characters.  The nonce 2^32, which a worker reaches because the
    cursor of [_alloc_nonces] is never wrapped, is written with the nine
    characters 100000000 in the request that goes to the pool, although
    the nonce is a 32-bit field everywhere else: [zfill(8)] pads to the
    eight characters of 32 bits, and [struct.pack_into("<I", ...)]
    refuses this very nonce. *)
Lemma nonce_hex_nine_characters :
  nonce_hex (2 ^ 32) = "100000000"%string
  /\ String.length (nonce_hex (2 ^ 32)) = 9%nat
  /\ ~ (forall nonce : Z, 0 <= nonce -> String.length (nonce_hex nonce) = 8%nat)
  /\ outbox (snd (submit_share (JStr "j1") (2 ^ 32) Samples.digest_00 Sent
                    Samples.online))
     = [JDict [ ("id"%string, JNum (request_id Samples.online));
                ("jsonrpc"%string, JStr "2.0");
                ("method"%string, JStr "submit");
                ("params"%string,
                  JDict [ ("id"%string, JStr (worker_id Samples.online));
                          ("job_id"%string, JStr "j1");
                          ("nonce"%string, JStr "100000000");
                          ("result"%string,
                            JStr (bytes_hex Samples.digest_00)) ]) ]]
  /\ CpuWorker.pack_into (repeat x00 76) 38 (2 ^ 32) = None.
Proof.
  split; [reflexivity|]. split; [reflexivity|].
  split.
  { intros H. specialize (H (2 ^ 32) ltac:(lia)).
    vm_compute in H. discriminate H. }
  split; [vm_compute; reflexivity | reflexivity].
Qed.

End HexFacts.

(** ** What handling a message changes in the client *)

Module ClientFacts.
Import Py Stratum Runs.

Ltac break_match :=
  match goal with
  | |- context [match ?x with _ => _ end] => destruct x eqn:?
  end.

Lemma legacy_subscribe_link int_of_str m s :
  same_link s (snd (legacy_subscribe int_of_str m s))
  /\ connected (snd (legacy_subscribe int_of_str m s)) = connected s
  /\ last_disconnect_reason (snd (legacy_subscribe int_of_str m s))
     = last_disconnect_reason s
  /\ shares_accepted (snd (legacy_subscribe int_of_str m s)) = shares_accepted s
  /\ shares_rejected (snd (legacy_subscribe int_of_str m s)) = shares_rejected s
  /\ _pending_submit_ids (snd (legacy_subscribe int_of_str m s))
     = _pending_submit_ids s
  /\ job_queue (snd (legacy_subscribe int_of_str m s)) = job_queue s
  /\ current_job (snd (legacy_subscribe int_of_str m s)) = current_job s
  /\ _wait_events (snd (legacy_subscribe int_of_str m s)) = _wait_events s
  /\ _wait_responses (snd (legacy_subscribe int_of_str m s)) = _wait_responses s.
Proof.
  unfold legacy_subscribe, same_link.
  repeat break_match; cbn; repeat split; reflexivity.
Qed.

(** The state in which [handle_response] looks at the pending submits:
    the response is stored and the event set when a caller waits for the
    id. *)
Lemma handle_response_frame int_of_str m s :
  same_link s (snd (handle_response int_of_str m s))
  /\ connected (snd (handle_response int_of_str m s)) = connected s
  /\ last_disconnect_reason (snd (handle_response int_of_str m s))
     = last_disconnect_reason s
  /\ job_queue (snd (handle_response int_of_str m s)) = job_queue s
  /\ current_job (snd (handle_response int_of_str m s)) = current_job s.
Proof.
  unfold handle_response, legacy_subscribe, same_link.
  repeat break_match; cbn; repeat split; reflexivity.
Qed.

(** Whatever [_handle_message] is given: whatever the message, nothing
    is sent, no request id is taken, no share is counted as sent and the
    connection state is left alone. *)
Lemma handle_message_frame int_of_str message s :
  same_link s (snd (_handle_message int_of_str message s))
  /\ connected (snd (_handle_message int_of_str message s)) = connected s
  /\ last_disconnect_reason (snd (_handle_message int_of_str message s))
     = last_disconnect_reason s.
Proof.
  unfold _handle_message.
  assert (Hs : same_link s s /\ connected s = connected s
               /\ last_disconnect_reason s = last_disconnect_reason s).
  { unfold same_link. repeat split; reflexivity. }
  assert (He : forall job,
             same_link s (enqueue_job job s)
             /\ connected (enqueue_job job s) = connected s
             /\ last_disconnect_reason (enqueue_job job s)
                = last_disconnect_reason s).
  { intros job. unfold same_link, enqueue_job. repeat split; reflexivity. }
  pose proof (handle_response_frame int_of_str) as Hr.
  repeat break_match; cbn [snd]; try exact Hs; try apply He.
  match goal with
  | |- context [handle_response int_of_str ?m s] =>
      destruct (Hr m s) as (H1 & H2 & H3 & _)
  end.
  split; [exact H1 | split; [exact H2 | exact H3]].
Qed.

(** How [handle_response] counts: only a response whose id is pending
    counts, once, and its id stops being pending. *)
Lemma handle_response_counts int_of_str m s :
  match int_key (get m "id") with
  | Some k =>
      if bool_decide (k ∈ _pending_submit_ids s) then
        _pending_submit_ids (snd (handle_response int_of_str m s))
          = _pending_submit_ids s ∖ {[ k ]}
        /\ shares_accepted (snd (handle_response int_of_str m s))
           = shares_accepted s + (if accepts m then 1 else 0)
        /\ shares_rejected (snd (handle_response int_of_str m s))
           = shares_rejected s + (if accepts m then 0 else 1)
      else
        _pending_submit_ids (snd (handle_response int_of_str m s))
          = _pending_submit_ids s
        /\ shares_accepted (snd (handle_response int_of_str m s))
           = shares_accepted s
        /\ shares_rejected (snd (handle_response int_of_str m s))
           = shares_rejected s
  | None =>
      _pending_submit_ids (snd (handle_response int_of_str m s))
        = _pending_submit_ids s
      /\ shares_accepted (snd (handle_response int_of_str m s))
         = shares_accepted s
      /\ shares_rejected (snd (handle_response int_of_str m s))
         = shares_rejected s
  end.
Proof.
  unfold handle_response, accepts.
  set (s1 := match int_key (get m "id") with
             | Some k =>
                 match _wait_events s !! k with
                 | Some _ =>
                     set_waits (<[k:=true]> (_wait_events s))
                       (<[k:=JDict m]> (_wait_responses s)) s
                 | None => s
                 end
             | None => s
             end).
  assert (Hp : _pending_submit_ids s1 = _pending_submit_ids s
               /\ shares_accepted s1 = shares_accepted s
               /\ shares_rejected s1 = shares_rejected s).
  { subst s1. repeat break_match; cbn; repeat split; reflexivity. }
  destruct Hp as (Hp & Ha & Hr). clearbody s1.
  pose proof (legacy_subscribe_link int_of_str m s1)
    as (_ & _ & _ & La & Lr & Lp & _).
  destruct (get m "id") as [| b | n | i | l | d] eqn:Eid; cbn [int_key].
  - rewrite Lp, La, Lr. repeat split; assumption.
  - rewrite Hp. destruct (bool_decide (Z.b2z b ∈ _pending_submit_ids s)).
    + destruct (truthy (get m "error")); cbn [negb andb].
      * cbn. rewrite ?Hp, ?Ha, ?Hr. repeat split; try reflexivity; lia.
      * repeat break_match; cbn; rewrite ?Hp, ?Ha, ?Hr; repeat split;
          try reflexivity; lia.
    + rewrite Lp, La, Lr. repeat split; assumption.
  - rewrite Hp. destruct (bool_decide (n ∈ _pending_submit_ids s)).
    + destruct (truthy (get m "error")); cbn [negb andb].
      * cbn. rewrite ?Hp, ?Ha, ?Hr. repeat split; try reflexivity; lia.
      * repeat break_match; cbn; rewrite ?Hp, ?Ha, ?Hr; repeat split;
          try reflexivity; lia.
    + rewrite Lp, La, Lr. repeat split; assumption.
  - rewrite Lp, La, Lr. repeat split; assumption.
  - cbn. repeat split; assumption.
  - cbn. repeat split; assumption.
Qed.

Lemma size_remove_pending (k : Z) (X : gset Z) :
  k ∈ X -> Z.of_nat (size X) = Z.of_nat (size (X ∖ {[ k ]})) + 1.
Proof.
  intros Hk.
  assert (Hsub : ({[ k ]} : gset Z) ⊆ X) by set_solver.
  rewrite (union_difference_L {[ k ]} X Hsub) at 1.
  rewrite size_union by (apply disjoint_difference_r1; reflexivity).
  rewrite size_singleton. lia.
Qed.

Lemma size_add_pending (k : Z) (X : gset Z) :
  k ∉ X -> Z.of_nat (size ({[ k ]} ∪ X)) = Z.of_nat (size X) + 1.
Proof.
  intros Hk. rewrite size_union by set_solver. rewrite size_singleton. lia.
Qed.

Lemma handle_response_balanced int_of_str m s :
  balanced s -> balanced (snd (handle_response int_of_str m s)).
Proof.
  intros [Hb Hid]. unfold balanced.
  destruct (handle_response_frame int_of_str m s)
    as ((_ & _ & _ & Hreq & Hsent) & _).
  pose proof (handle_response_counts int_of_str m s) as Hc.
  rewrite Hreq, Hsent.
  destruct (int_key (get m "id")) as [k|];
    [destruct (bool_decide (k ∈ _pending_submit_ids s)) eqn:Ek|];
    destruct Hc as (Hp & Ha & Hr); rewrite Hp, Ha, Hr.
  - apply bool_decide_eq_true in Ek.
    pose proof (size_remove_pending k _ Ek) as Hs.
    split.
    + destruct (accepts m); lia.
    + intros j Hj. apply Hid. apply elem_of_difference in Hj. apply Hj.
  - split; assumption.
  - split; assumption.
Qed.

Lemma handle_message_balanced int_of_str message s :
  balanced s -> balanced (snd (_handle_message int_of_str message s)).
Proof.
  intros Hb. unfold _handle_message.
  assert (He : forall job, balanced (enqueue_job job s)).
  { intros job. exact Hb. }
  repeat break_match; cbn [snd]; try exact Hb; try apply He.
  apply handle_response_balanced. exact Hb.
Qed.

Lemma submit_share_balanced job_id nonce result_hash io s :
  balanced s -> balanced (snd (submit_share job_id nonce result_hash io s)).
Proof.
  intros [Hb Hid].
  assert (Hfresh : request_id s ∉ _pending_submit_ids s).
  { intros Hin. specialize (Hid _ Hin). lia. }
  pose proof (size_add_pending _ _ Hfresh) as Hs.
  unfold submit_share, _send_request. cbn [register_submit socket].
  assert (Hreg : balanced (register_submit s)).
  { unfold balanced. cbn. split; [lia|].
    intros k Hk. apply elem_of_union in Hk. destruct Hk as [Hk | Hk].
    - apply elem_of_singleton in Hk. lia.
    - specialize (Hid _ Hk). lia. }
  destruct (socket s); cbn [negb]; [|exact Hreg].
  destruct io as [|e]; [exact Hreg|].
  destruct (is_OSError e); exact Hreg.
Qed.

Lemma get_job_balanced s : balanced s -> balanced (snd (get_job s)).
Proof. intros Hb. exact Hb. Qed.

(** What holds of the client before the listener runs and is kept by
    every message handled and by the recording of a disconnection holds
    when the listener stops or waits. *)
Lemma feed_lines_preserves (P : StratumClient -> Prop) json_loads int_of_str :
  (forall m s, P s -> P (snd (_handle_message int_of_str m s))) ->
  forall text line s,
    P s -> P (snd (feed_lines json_loads int_of_str line text s)).
Proof.
  intros Hh text. induction text as [|c rest IH]; intros line s Hs.
  - exact Hs.
  - cbn [feed_lines]. destruct (Ascii.eqb c "010").
    + destruct (json_loads line) as [message|]; [|apply IH; exact Hs].
      specialize (Hh message s Hs).
      destruct (_handle_message int_of_str message s) as [[|e] s'];
        cbn [snd] in *; [apply IH; exact Hh | exact Hh].
    + apply IH. exact Hs.
Qed.

Lemma listen_from_preserves (P : StratumClient -> Prop) json_loads int_of_str :
  (forall m s, P s -> P (snd (_handle_message int_of_str m s))) ->
  (forall r s, P s -> P (set_disconnected r s)) ->
  forall rs buffer s,
    P s -> P (snd (listen_from json_loads int_of_str rs buffer s)).
Proof.
  intros Hh Hd rs. induction rs as [|r rs IH]; intros buffer s Hs.
  - cbn. destruct (connected s); exact Hs.
  - cbn [listen_from]. destruct (negb (connected s)); [exact Hs|].
    assert (Hexc : forall e b s0, P s0 -> P (snd (on_exception e b s0))).
    { intros e b s0 H0. unfold on_exception.
      destruct e; [exact H0 | destruct (negb (connected s0)); [exact H0|] |];
        cbn [snd]; apply Hd; exact H0. }
    assert (Hstep : P (snd (listen_step json_loads int_of_str r buffer s))).
    { unfold listen_step. destruct (negb (socket s)); [exact Hs|].
      destruct r as [data| |e|]; try exact Hs.
      - destruct data as [|c data]; [exact Hs|].
        pose proof (feed_lines_preserves P json_loads int_of_str Hh
                      (String.append buffer (String c data)) EmptyString s Hs)
          as Hf.
        destruct (feed_lines json_loads int_of_str EmptyString
                    (String.append buffer (String c data)) s)
          as [[[|e] b'] s']; cbn [snd] in *; [exact Hf | apply Hexc; exact Hf].
      - apply Hexc. exact Hs.
      - apply Hexc. exact Hs. }
    destruct (listen_step json_loads int_of_str r buffer s) as [[b'|] s'];
      cbn [snd] in *; [apply IH; exact Hstep | exact Hstep].
Qed.

(** X1: in any run of a client (shares submitted by workers, messages
    handled by the listener, jobs taken by the control loop) every share
    sent stays accounted for: the shares sent are the accepted, the
    rejected and the pending ones, and a pending id is an id already
    taken. *)
Theorem shares_stay_balanced json_loads int_of_str (ops : list op)
    (s : StratumClient) :
  balanced s -> balanced (run json_loads int_of_str ops s).
Proof.
  unfold run. revert s. induction ops as [|o ops IH]; intros s Hb; [exact Hb|].
  cbn [fold_left]. apply IH. destruct o; cbn [step].
  - apply submit_share_balanced. exact Hb.
  - apply (listen_from_preserves balanced); [| |exact Hb].
    + intros m s0. apply handle_message_balanced.
    + intros r s0 H0. exact H0.
  - apply handle_message_balanced. exact Hb.
  - exact Hb.
Qed.

Lemma online_balanced : balanced Samples.online.
Proof.
  split; [reflexivity|]. intros k Hk. apply elem_of_empty in Hk. contradiction.
Qed.

Lemma shares_stay_balanced_witness :
  balanced Samples.online
  /\ balanced
       (run Samples.no_json Samples.no_int_of_str
          [ Submit (JStr "j1") 255 Samples.digest_00 Sent;
            Handle (JDict [ ("id"%string, JNum 1);
                            ("result"%string, JBool true) ]);
            GetJob ]
          Samples.online).
Proof.
  split; [exact online_balanced|].
  apply shares_stay_balanced. exact online_balanced.
Defined.

Lemma handle_response_message int_of_str (m : dict) s :
  get m "method" = JNull ->
  _handle_message int_of_str (JDict m) s = handle_response int_of_str m s.
Proof. intros H. unfold _handle_message. rewrite H. reflexivity. Qed.

(** X2: the response to a pending submit is counted once.  It takes the
    id off the pending set and adds one to the accepted shares when it
    carries no error and a result [True] or [{"status": "OK"}], one to
    the rejected shares otherwise; the same response handled again
    changes no counter. *)
Theorem response_counted_once int_of_str (m : dict) (k : Z)
    (s : StratumClient) :
  get m "method" = JNull ->
  get m "id" = JNum k ->
  k ∈ _pending_submit_ids s ->
  _pending_submit_ids (snd (_handle_message int_of_str (JDict m) s))
    = _pending_submit_ids s ∖ {[ k ]}
  /\ shares_accepted (snd (_handle_message int_of_str (JDict m) s))
     = shares_accepted s + (if accepts m then 1 else 0)
  /\ shares_rejected (snd (_handle_message int_of_str (JDict m) s))
     = shares_rejected s + (if accepts m then 0 else 1)
  /\ shares_accepted
       (snd (_handle_message int_of_str (JDict m)
               (snd (_handle_message int_of_str (JDict m) s))))
     = shares_accepted (snd (_handle_message int_of_str (JDict m) s))
  /\ shares_rejected
       (snd (_handle_message int_of_str (JDict m)
               (snd (_handle_message int_of_str (JDict m) s))))
     = shares_rejected (snd (_handle_message int_of_str (JDict m) s))
  /\ _pending_submit_ids
       (snd (_handle_message int_of_str (JDict m)
               (snd (_handle_message int_of_str (JDict m) s))))
     = _pending_submit_ids (snd (_handle_message int_of_str (JDict m) s)).
Proof.
  intros Hm Hid Hk.
  rewrite !(handle_response_message int_of_str m _ Hm).
  pose proof (handle_response_counts int_of_str m s) as H1.
  rewrite Hid in H1. cbn [int_key] in H1.
  rewrite bool_decide_eq_true_2 in H1 by exact Hk.
  destruct H1 as (Hp & Ha & Hr).
  pose proof (handle_response_counts int_of_str m
                (snd (handle_response int_of_str m s))) as H2.
  rewrite Hid in H2. cbn [int_key] in H2.
  rewrite bool_decide_eq_false_2 in H2.
  2:{ rewrite Hp. intros Hin. apply elem_of_difference in Hin.
      destruct Hin as [_ Hn]. apply Hn. apply elem_of_singleton. reflexivity. }
  destruct H2 as (Hp2 & Ha2 & Hr2).
  repeat split; assumption.
Qed.

Lemma response_counted_once_witness :
  1 ∈ _pending_submit_ids
        (snd (submit_share (JStr "j1") 255 Samples.digest_00 Sent Samples.online))
  /\ shares_accepted
       (snd (_handle_message Samples.no_int_of_str
               (JDict [ ("id"%string, JNum 1);
                        ("result"%string, JDict [("status"%string, JStr "OK")]) ])
               (snd (submit_share (JStr "j1") 255 Samples.digest_00 Sent
                       Samples.online))))
     = 1.
Proof.
  assert (Hk : 1 ∈ _pending_submit_ids
                 (snd (submit_share (JStr "j1") 255 Samples.digest_00 Sent
                         Samples.online))).
  { cbn. apply elem_of_union. left. apply elem_of_singleton. reflexivity. }
  split; [exact Hk|].
  exact (proj1 (proj2
    (response_counted_once Samples.no_int_of_str
       [ ("id"%string, JNum 1);
         ("result"%string, JDict [("status"%string, JStr "OK")]) ]
       1 _ eq_refl eq_refl Hk))).
Defined.

(** X3: whatever [recv] gives it, the listener sends nothing, takes no
    request id and counts no share as sent; either it leaves the
    connection flag and the reason as they were, or it has cleared the
    flag and a reason is recorded. *)
Theorem listener_only_disconnects json_loads int_of_str
    (rs : list recv_result) (buffer : string) (s : StratumClient) :
  same_link s (snd (listen_from json_loads int_of_str rs buffer s))
  /\ ((connected (snd (listen_from json_loads int_of_str rs buffer s))
       = connected s
       /\ last_disconnect_reason
            (snd (listen_from json_loads int_of_str rs buffer s))
          = last_disconnect_reason s)
      \/ (connected (snd (listen_from json_loads int_of_str rs buffer s))
          = false
          /\ is_Some (last_disconnect_reason
                        (snd (listen_from json_loads int_of_str rs buffer s))))).
Proof.
  apply (listen_from_preserves
           (fun s' => same_link s s'
                      /\ ((connected s' = connected s
                           /\ last_disconnect_reason s'
                              = last_disconnect_reason s)
                          \/ (connected s' = false
                              /\ is_Some (last_disconnect_reason s'))))).
  - intros m s0 (Hl & Hc).
    destruct (handle_message_frame int_of_str m s0) as (Hl' & Hc' & Hr').
    split.
    + unfold same_link in *. destruct Hl as (A & B & C & D & E).
      destruct Hl' as (A' & B' & C' & D' & E').
      repeat split; congruence.
    + rewrite Hc', Hr'. exact Hc.
  - intros r s0 (Hl & _). split; [exact Hl|].
    right. split; [reflexivity | eexists; reflexivity].
  - split; [unfold same_link; repeat split; reflexivity|].
    left. split; reflexivity.
Qed.

End ClientFacts.

(** ** The latest job, whatever the messages *)

Module LatestJobFacts.
Import Py Stratum Runs StratumFacts ClientFacts.

Lemma handle_no_job int_of_str message s :
  notify_job message = None ->
  job_queue (snd (_handle_message int_of_str message s)) = job_queue s
  /\ current_job (snd (_handle_message int_of_str message s)) = current_job s.
Proof.
  unfold notify_job, _handle_message.
  destruct message as [| | | | |m]; try (intros _; split; reflexivity).
  destruct (eqb (get m "method") (JStr "mining.notify")) eqn:En.
  - apply eqb_JStr in En. rewrite En. cbn [eqb String.eqb Ascii.eqb Bool.eqb].
    cbn.
    repeat break_match; intros H; try discriminate H; split; reflexivity.
  - intros _.
    destruct (eqb (get m "method") (JStr "block_found")); [split; reflexivity|].
    destruct (eqb (get m "method") (JStr "mining.set_difficulty")).
    + repeat break_match; split; reflexivity.
    + destruct (handle_response_frame int_of_str m s) as (_ & _ & _ & Hq & Hc).
      split; assumption.
Qed.

(** What [get_job] would return. *)
Lemma get_job_view s :
  fst (get_job s)
  = match last (job_queue s) with Some j => Some j | None => current_job s end.
Proof. apply get_job_latest. Qed.

Lemma handle_view int_of_str message s :
  fst (get_job (snd (_handle_message int_of_str message s)))
  = match notify_job message with
    | Some job => Some job
    | None => fst (get_job s)
    end.
Proof.
  destruct (notify_job message) as [job|] eqn:E.
  - rewrite (handle_notify int_of_str message job s E). cbn [snd].
    rewrite get_job_view. unfold enqueue_job. cbn [job_queue set_jobs].
    rewrite last_snoc. reflexivity.
  - destruct (handle_no_job int_of_str message s E) as [Hq Hc].
    rewrite !get_job_view, Hq, Hc. reflexivity.
Qed.

(** X4: after the listener has handled any series of messages, [get_job]
    returns the job of the last [mining.notify] that carried one,
    whatever the [clean_jobs] flags were and whatever other messages came
    in between; when none carried a job it returns what it would have
    returned before. *)
Theorem get_job_after_messages int_of_str (messages : list json)
    (s s' : StratumClient) (o : outcome) :
  handle_all int_of_str messages s = (o, s') ->
  o = Done ->
  fst (get_job s')
  = match last (notified messages) with
    | Some job => Some job
    | None => fst (get_job s)
    end.
Proof.
  revert s. induction messages as [|m ms IH]; intros s H Ho.
  - cbn in H. injection H as _ <-. reflexivity.
  - cbn [handle_all] in H.
    pose proof (handle_view int_of_str m s) as Hv.
    destruct (_handle_message int_of_str m s) as [[|e] s1] eqn:E.
    + cbn [snd] in Hv. rewrite (IH s1 H Ho). unfold notified.
      cbn [omap list_omap]. fold (omap notify_job ms).
      destruct (notify_job m) as [job|].
      * rewrite last_cons. destruct (last (omap notify_job ms)); [reflexivity|].
        exact Hv.
      * destruct (last (omap notify_job ms)); [reflexivity | exact Hv].
    + injection H as <- _. discriminate Ho.
Qed.

Lemma get_job_after_messages_witness :
  handle_all Samples.no_int_of_str Samples.traffic Samples.online
  = (Done, snd (handle_all Samples.no_int_of_str Samples.traffic Samples.online))
  /\ Done = Done
  /\ fst (get_job
           (snd (handle_all Samples.no_int_of_str Samples.traffic
                   Samples.online)))
     = Some (Samples.job "j2" 3 false).
Proof.
  assert (H : handle_all Samples.no_int_of_str Samples.traffic Samples.online
              = (Done, snd (handle_all Samples.no_int_of_str Samples.traffic
                              Samples.online))) by reflexivity.
  split; [exact H|]. split; [reflexivity|].
  exact (get_job_after_messages Samples.no_int_of_str Samples.traffic
           Samples.online _ Done H eq_refl).
Defined.

End LatestJobFacts.

(** ** Lines and reads *)

Module LineFacts.
Import Py Stratum Runs.

Lemma str_app_cons (x : ascii) (a b : string) :
  String.append (String x a) b = String x (String.append a b).
Proof. reflexivity. Qed.

Lemma str_app_assoc (a b c : string) :
  String.append (String.append a b) c = String.append a (String.append b c).
Proof.
  induction a as [|x a IH]; [reflexivity|].
  rewrite !str_app_cons, IH. reflexivity.
Qed.

Lemma str_app_nil_r (a : string) : String.append a EmptyString = a.
Proof.
  induction a as [|x a IH]; [reflexivity|].
  rewrite str_app_cons, IH. reflexivity.
Qed.

Lemma no_newline_app (a b : string) :
  no_newline (String.append a b) = no_newline a && no_newline b.
Proof.
  induction a as [|x a IH]; [reflexivity|].
  rewrite str_app_cons. cbn [no_newline]. rewrite IH. apply andb_assoc.
Qed.

(** Text without a line feed only grows the line being read. *)
Lemma feed_lines_partial json_loads int_of_str (piece : string) :
  no_newline piece = true ->
  forall line text s,
    feed_lines json_loads int_of_str line (String.append piece text) s
    = feed_lines json_loads int_of_str (String.append line piece) text s.
Proof.
  induction piece as [|c piece IH]; intros Hn line text s.
  - rewrite str_app_nil_r. reflexivity.
  - cbn [no_newline] in Hn. apply andb_true_iff in Hn. destruct Hn as [Hc Hp].
    apply negb_true_iff in Hc.
    rewrite str_app_cons. cbn [feed_lines]. rewrite Hc.
    rewrite (IH Hp). rewrite str_app_assoc. reflexivity.
Qed.

(** What is left in the buffer never holds a line feed. *)
Lemma feed_lines_buffer json_loads int_of_str text :
  forall line s,
    no_newline line = true ->
    fst (fst (feed_lines json_loads int_of_str line text s)) = Done ->
    no_newline (snd (fst (feed_lines json_loads int_of_str line text s))) = true.
Proof.
  induction text as [|c rest IH]; intros line s Hl Hd.
  - exact Hl.
  - cbn [feed_lines] in *. destruct (Ascii.eqb c "010") eqn:Ec.
    + destruct (json_loads line) as [message|].
      * destruct (_handle_message int_of_str message s) as [[|e] s'].
        -- apply IH; [reflexivity | exact Hd].
        -- cbn in Hd. discriminate Hd.
      * apply IH; [reflexivity | exact Hd].
    + apply IH; [|exact Hd].
      rewrite no_newline_app, Hl. cbn [no_newline andb]. rewrite Ec.
      reflexivity.
Qed.

(** Feeding a text in two pieces is feeding it whole, as long as no
    handler raises in the first piece. *)
Lemma feed_lines_split json_loads int_of_str (a b : string) :
  forall line s buffer s',
    feed_lines json_loads int_of_str line a s = (Done, buffer, s') ->
    feed_lines json_loads int_of_str line (String.append a b) s
    = feed_lines json_loads int_of_str buffer b s'.
Proof.
  induction a as [|c a IH]; intros line s buffer s' H.
  - cbn in H. injection H as <- <-. reflexivity.
  - rewrite str_app_cons. cbn [feed_lines] in *.
    destruct (Ascii.eqb c "010").
    + destruct (json_loads line) as [message|].
      * destruct (_handle_message int_of_str message s) as [[|e] s1].
        -- apply IH. exact H.
        -- discriminate H.
      * apply IH. exact H.
    + apply IH. exact H.
Qed.

(** One complete line: it is decoded and handled, and the buffer is
    empty again. *)
Lemma feed_one_line json_loads int_of_str (line : string) (message : json) s :
  no_newline line = true ->
  json_loads line = Some message ->
  feed_lines json_loads int_of_str EmptyString
    (String.append line (String "010" EmptyString)) s
  = (fst (_handle_message int_of_str message s), EmptyString,
     snd (_handle_message int_of_str message s)).
Proof.
  intros Hn Hj. rewrite (feed_lines_partial _ _ line Hn).
  change (String.append EmptyString line) with line.
  cbn [feed_lines]. change (Ascii.eqb "010" "010") with true. cbn match.
  rewrite Hj.
  destruct (_handle_message int_of_str message s) as [[|e] s']; reflexivity.
Qed.

Lemma feed_lines_split_raise json_loads int_of_str (a b : string) :
  forall line s e rest s',
    feed_lines json_loads int_of_str line a s = (Raised e, rest, s') ->
    feed_lines json_loads int_of_str line (String.append a b) s
    = (Raised e, String.append rest b, s').
Proof.
  induction a as [|c a IH]; intros line s e rest s' H.
  - cbn in H. discriminate H.
  - rewrite str_app_cons. cbn [feed_lines] in *.
    destruct (Ascii.eqb c "010").
    + destruct (json_loads line) as [message|].
      * destruct (_handle_message int_of_str message s) as [[|e1] s1].
        -- apply IH. exact H.
        -- injection H as <- <- <-. reflexivity.
      * apply IH. exact H.
    + apply IH. exact H.
Qed.

(** A handler never raises an [OSError]. *)
Lemma handle_raises_exception int_of_str message s e :
  fst (_handle_message int_of_str message s) = Raised e ->
  exists msg, e = Exception msg.
Proof.
  unfold _handle_message, handle_response, legacy_subscribe.
  repeat ClientFacts.break_match; cbn [fst]; intros H; try discriminate H;
    injection H as <-; eexists; reflexivity.
Qed.

Lemma feed_raises_exception json_loads int_of_str text :
  forall line s e,
    fst (fst (feed_lines json_loads int_of_str line text s)) = Raised e ->
    exists msg, e = Exception msg.
Proof.
  induction text as [|c rest IH]; intros line s e H.
  - cbn in H. discriminate H.
  - cbn [feed_lines] in H. destruct (Ascii.eqb c "010").
    + destruct (json_loads line) as [message|]; [|eapply IH; exact H].
      destruct (_handle_message int_of_str message s) as [[|e1] s1] eqn:E.
      * eapply IH. exact H.
      * cbn in H. injection H as <-.
        apply (handle_raises_exception int_of_str message s). rewrite E.
        reflexivity.
    + eapply IH. exact H.
Qed.

Lemma feed_keeps_flags json_loads int_of_str text line s :
  connected (snd (feed_lines json_loads int_of_str line text s)) = connected s
  /\ socket (snd (feed_lines json_loads int_of_str line text s)) = socket s.
Proof.
  apply (ClientFacts.feed_lines_preserves
           (fun s' => connected s' = connected s /\ socket s' = socket s)).
  - intros m s0 [Hc Hs].
    destruct (ClientFacts.handle_message_frame int_of_str m s0)
      as ((_ & Hs' & _) & Hc' & _).
    split; congruence.
  - split; reflexivity.
Qed.

(** X5: two reads that each decode as UTF-8 may be cut anywhere: they
    are handled as the single read of their concatenation would be, for
    the client and for the listener.  The cut matters when it leaves a
    read that does not decode by itself (it falls inside a character of
    several bytes): [decode] raises, and the listener records the error,
    clears the connection flag and exits, whatever the next reads
    hold. *)
Theorem reads_can_be_split json_loads int_of_str (a b : string)
    (rs : list recv_result) (buffer : string) (s : StratumClient) :
  a <> EmptyString -> b <> EmptyString ->
  listen_from json_loads int_of_str (RecvData a :: RecvData b :: rs) buffer s
  = listen_from json_loads int_of_str
      (RecvData (String.append a b) :: rs) buffer s
  /\ (socket s = true -> connected s = true ->
      listen_from json_loads int_of_str (RecvBadUtf8 :: RecvData b :: rs)
        buffer s
      = (Exited,
         set_disconnected (ListenerError (Exception "UnicodeDecodeError")) s)).
Proof.
  intros Ha Hb. split.
  2:{ intros Hs Hc. cbn [listen_from]. rewrite Hc. cbn [negb].
      unfold listen_step. rewrite Hs. cbn [negb on_exception]. reflexivity. }
  cbn [listen_from]. destruct (negb (connected s)) eqn:Hc; [reflexivity|].
  unfold listen_step at 1 3. destruct (negb (socket s)) eqn:Hs; [reflexivity|].
  destruct a as [|ca a]; [contradiction|].
  destruct b as [|cb b]; [contradiction|].
  rewrite str_app_cons.
  rewrite <- (str_app_cons ca a (String cb b)).
  rewrite <- str_app_assoc.
  set (first := String.append buffer (String ca a)).
  destruct (feed_lines json_loads int_of_str EmptyString first s)
    as [[o buffer1] s1] eqn:E.
  pose proof (feed_keeps_flags json_loads int_of_str first EmptyString s)
    as [Hc1 Hs1].
  rewrite E in Hc1, Hs1. cbn [snd] in Hc1, Hs1.
  destruct o as [|e].
  - rewrite (feed_lines_split _ _ first (String cb b) _ _ _ _ E).
    rewrite Hc1, Hc. unfold listen_step. rewrite Hs1, Hs.
    pose proof (feed_lines_buffer json_loads int_of_str first EmptyString s
                  eq_refl) as Hbuf.
    rewrite E in Hbuf. specialize (Hbuf eq_refl). cbn [fst snd] in Hbuf.
    rewrite (feed_lines_partial _ _ buffer1 Hbuf).
    reflexivity.
  - rewrite (feed_lines_split_raise _ _ first (String cb b) _ _ _ _ _ E).
    destruct (feed_raises_exception json_loads int_of_str first EmptyString s e)
      as [msg ->]; [rewrite E; reflexivity|].
    reflexivity.
Qed.

Lemma reads_can_be_split_witness :
  "J"%string <> EmptyString
  /\ String "1" (String "010" (String "J" (String "2" (String "010" EmptyString))))
     <> EmptyString
  /\ listen_from Samples.two_lines Samples.no_int_of_str
       [ RecvData "J";
         RecvData (String "1" (String "010" (String "J" (String "2"
                     (String "010" EmptyString))))) ]
       EmptyString Samples.online
     = listen_from Samples.two_lines Samples.no_int_of_str
         [ RecvData (String.append "J"
                       (String "1" (String "010" (String "J" (String "2"
                          (String "010" EmptyString)))))) ]
         EmptyString Samples.online
  /\ current_job
       (snd (listen_from Samples.two_lines Samples.no_int_of_str
               [ RecvData "J";
                 RecvData (String "1" (String "010" (String "J" (String "2"
                             (String "010" EmptyString))))) ]
               EmptyString Samples.online))
     = Some (Samples.job "j2" 3 true)
  /\ connected
       (snd (listen_from Samples.two_lines Samples.no_int_of_str
               [ RecvBadUtf8;
                 RecvData (String "1" (String "010" (String "J" (String "2"
                             (String "010" EmptyString))))) ]
               EmptyString Samples.online))
     = false.
Proof.
  split; [discriminate|]. split; [discriminate|].
  destruct (reads_can_be_split Samples.two_lines Samples.no_int_of_str
              "J" (String "1" (String "010" (String "J" (String "2"
                     (String "010" EmptyString)))))
              [] EmptyString Samples.online
              ltac:(discriminate) ltac:(discriminate)) as [Hsplit Hbad].
  split; [exact Hsplit|]. split; [reflexivity|].
  rewrite (Hbad eq_refl eq_refl). reflexivity.
Defined.

End LineFacts.

(** ** The handshake *)

Module HandshakeFacts.
Import Py Stratum Runs Handshake ClientFacts LineFacts.

Lemma get_assoc (m : dict) (k : string) (v : json) :
  get m k = v -> v <> JNull -> assoc k m = Some v.
Proof.
  unfold get. destruct (assoc k m); intros H Hn; [congruence|].
  symmetry in H. contradiction.
Qed.

(** A response for which a caller waits and which is no pending submit:
    the event is set, the response stored, and a result of three items
    is read as a subscribe result. *)
Lemma handle_response_delivers int_of_str (m : dict) (k : Z) s flag
    (subs e1 : json) (size : Z) :
  get m "id" = JNum k ->
  _wait_events s !! k = Some flag ->
  k ∉ _pending_submit_ids s ->
  get m "result" = JList [subs; e1; JNum size] ->
  handle_response int_of_str m s
  = (Done,
     set_extranonce e1 size
       (set_waits (<[k := true]> (_wait_events s))
                  (<[k := JDict m]> (_wait_responses s)) s)).
Proof.
  intros Hid Hev Hp Hres. unfold handle_response.
  rewrite Hid. cbn [int_key]. rewrite Hev. cbn [_pending_submit_ids set_waits].
  rewrite bool_decide_eq_false_2 by exact Hp.
  unfold legacy_subscribe.
  rewrite (get_assoc m "result" _ Hres) by discriminate.
  reflexivity.
Qed.

(** A response carrying a plain truth value as its result. *)
Lemma handle_response_delivers_bool int_of_str (m : dict) (k : Z) s flag
    (b : bool) :
  get m "id" = JNum k ->
  _wait_events s !! k = Some flag ->
  k ∉ _pending_submit_ids s ->
  get m "result" = JBool b ->
  handle_response int_of_str m s
  = (Done,
     set_waits (<[k := true]> (_wait_events s))
               (<[k := JDict m]> (_wait_responses s)) s).
Proof.
  intros Hid Hev Hp Hres. unfold handle_response.
  rewrite Hid. cbn [int_key]. rewrite Hev. cbn [_pending_submit_ids set_waits].
  rewrite bool_decide_eq_false_2 by exact Hp.
  unfold legacy_subscribe.
  rewrite (get_assoc m "result" _ Hres) by discriminate.
  reflexivity.
Qed.

(** The listener on one read holding one complete line. *)
Lemma listen_one_line json_loads int_of_str (line : string) (message : json)
    s s' :
  socket s = true -> connected s = true ->
  no_newline line = true ->
  json_loads line = Some message ->
  _handle_message int_of_str message s = (Done, s') ->
  listen_from json_loads int_of_str
    [RecvData (String.append line (String "010" EmptyString))] EmptyString s
  = (Listening EmptyString, s').
Proof.
  intros Hs Hc Hn Hj Hh.
  cbn [listen_from]. rewrite Hc. cbn [negb].
  unfold listen_step. rewrite Hs. cbn [negb].
  destruct (String.append line (String "010" EmptyString)) as [|c d] eqn:Ed.
  { destruct line; discriminate Ed. }
  rewrite <- Ed. change (String.append EmptyString ?x) with x.
  rewrite (feed_one_line json_loads int_of_str line message s Hn Hj).
  rewrite Hh. cbn [fst snd].
  destruct (handle_message_frame int_of_str message s) as (_ & Hc' & _).
  rewrite Hh in Hc'. cbn [snd] in Hc'. rewrite Hc', Hc. reflexivity.
Qed.

(** X6: when the pool's answer to [mining.subscribe] (the id of the
    request, no error, a result of three items) arrives while the caller
    waits, [subscribe] returns true, [extranonce1] and [extranonce2_size]
    are the second and third items, the request was written to the
    socket, one request id was taken and the wait entry is gone. *)
Theorem subscribe_reads_extranonce json_loads int_of_str (line : string)
    (m : dict) (subs e1 : json) (size : Z) (s : StratumClient) :
  socket s = true -> connected s = true ->
  request_id s ∉ _pending_submit_ids s ->
  no_newline line = true ->
  json_loads line = Some (JDict m) ->
  get m "method" = JNull ->
  get m "id" = JNum (request_id s) ->
  truthy (get m "error") = false ->
  get m "result" = JList [subs; e1; JNum size] ->
  fst (fst (subscribe json_loads int_of_str Sent
              [RecvData (String.append line (String "010" EmptyString))]
              EmptyString s)) = true
  /\ extranonce1
       (snd (subscribe json_loads int_of_str Sent
               [RecvData (String.append line (String "010" EmptyString))]
               EmptyString s)) = e1
  /\ extranonce2_size
       (snd (subscribe json_loads int_of_str Sent
               [RecvData (String.append line (String "010" EmptyString))]
               EmptyString s)) = size
  /\ outbox
       (snd (subscribe json_loads int_of_str Sent
               [RecvData (String.append line (String "010" EmptyString))]
               EmptyString s))
     = outbox s ++ [subscribe_request (request_id s)]
  /\ request_id
       (snd (subscribe json_loads int_of_str Sent
               [RecvData (String.append line (String "010" EmptyString))]
               EmptyString s))
     = request_id s + 1
  /\ _wait_events
       (snd (subscribe json_loads int_of_str Sent
               [RecvData (String.append line (String "010" EmptyString))]
               EmptyString s)) !! request_id s = None.
Proof.
  intros Hs Hc Hp Hn Hj Hm Hid He Hres.
  unfold subscribe, _send_and_wait, _send_request.
  cbn [socket set_waits set_request_id]. rewrite Hs. cbn [negb].
  set (k := request_id s).
  set (s2 := set_outbox _ _).
  assert (Hh : _handle_message int_of_str (JDict m) s2
               = (Done,
                  set_extranonce e1 size
                    (set_waits (<[k := true]> (_wait_events s2))
                               (<[k := JDict m]> (_wait_responses s2)) s2))).
  { rewrite (handle_response_message int_of_str m s2 Hm).
    apply (handle_response_delivers int_of_str m k s2 false subs e1 size).
    - exact Hid.
    - subst s2. cbn. apply lookup_insert_eq.
    - subst s2. cbn. exact Hp.
    - exact Hres. }
  rewrite (listen_one_line json_loads int_of_str line (JDict m) s2 _
             Hs Hc Hn Hj Hh).
  cbn [_wait_events set_extranonce set_waits].
  rewrite lookup_insert_eq.
  unfold read_subscribe.
  cbn [_wait_responses set_extranonce set_waits].
  rewrite lookup_insert_eq.
  assert (Ht : truthy (JDict m) = true).
  { destruct m; [cbn in Hid; discriminate Hid | reflexivity]. }
  rewrite Ht, He, Hres. cbn [negb orb length Nat.leb nth int].
  cbn [fst snd extranonce1 extranonce2_size set_extranonce outbox request_id
       set_waits _wait_events].
  repeat split; try reflexivity.
  apply lookup_delete_eq.
Qed.

Lemma subscribe_reads_extranonce_witness :
  socket Samples.online = true
  /\ connected Samples.online = true
  /\ (request_id Samples.online ∉ _pending_submit_ids Samples.online)
  /\ Samples.handshake_lines "S" = Some (JDict Samples.subscribed)
  /\ extranonce1
       (snd (subscribe Samples.handshake_lines Samples.no_int_of_str Sent
               [RecvData (String.append "S" (String "010" EmptyString))]
               EmptyString Samples.online)) = JStr "ab12"
  /\ extranonce2_size
       (snd (subscribe Samples.handshake_lines Samples.no_int_of_str Sent
               [RecvData (String.append "S" (String "010" EmptyString))]
               EmptyString Samples.online)) = 8.
Proof.
  assert (Hp : request_id Samples.online ∉ _pending_submit_ids Samples.online).
  { intros H. apply elem_of_empty in H. exact H. }
  split; [reflexivity|]. split; [reflexivity|]. split; [exact Hp|].
  split; [reflexivity|].
  destruct (subscribe_reads_extranonce Samples.handshake_lines
              Samples.no_int_of_str "S" Samples.subscribed (JList [])
              (JStr "ab12") 8 Samples.online
              eq_refl eq_refl Hp eq_refl eq_refl eq_refl eq_refl eq_refl eq_refl)
    as (_ & H1 & H2 & _).
  split; [exact H1 | exact H2].
Defined.

Lemma listen_from_link json_loads int_of_str rs buffer s :
  same_link s (snd (listen_from json_loads int_of_str rs buffer s))
  /\ _pending_submit_ids (snd (listen_from json_loads int_of_str rs buffer s))
     ⊆ _pending_submit_ids s.
Proof.
  apply (listen_from_preserves
           (fun s' => same_link s s'
                      /\ _pending_submit_ids s' ⊆ _pending_submit_ids s)).
  - intros m s0 (Hl & Hsub).
    destruct (handle_message_frame int_of_str m s0) as (Hl' & _).
    split.
    + unfold same_link in *. destruct Hl as (A & B & C & D & E).
      destruct Hl' as (A' & B' & C' & D' & E').
      repeat split; congruence.
    + etransitivity; [|exact Hsub].
      unfold _handle_message.
      assert (He : forall job,
                 _pending_submit_ids (enqueue_job job s0)
                 ⊆ _pending_submit_ids s0) by (intros job; reflexivity).
      repeat break_match; cbn [snd]; try reflexivity; try apply He.
      match goal with
      | |- context [handle_response int_of_str ?m s0] =>
          pose proof (handle_response_counts int_of_str m s0) as Hcnt;
          destruct (int_key (get m "id")) as [k|];
            [destruct (bool_decide (k ∈ _pending_submit_ids s0))|];
            destruct Hcnt as (Hcnt & _); rewrite Hcnt
      end; [apply subseteq_difference_l| |]; reflexivity.
  - intros r s0 H0. exact H0.
  - split; [unfold same_link; repeat split; reflexivity | reflexivity].
Qed.

(** Time-outs of [recv] leave the listener where it is. *)
Lemma listen_timeouts json_loads int_of_str (n : nat) buffer s :
  socket s = true -> connected s = true ->
  listen_from json_loads int_of_str (repeat (RecvRaises SocketTimeout) n)
    buffer s
  = (Listening buffer, s).
Proof.
  intros Hs Hc. induction n as [|n IH]; cbn [repeat listen_from]; rewrite Hc;
    cbn [negb]; [reflexivity|].
  unfold listen_step. rewrite Hs. cbn [negb on_exception]. exact IH.
Qed.

Lemma listen_timeouts_state json_loads int_of_str (n : nat) buffer s :
  snd (listen_from json_loads int_of_str (repeat (RecvRaises SocketTimeout) n)
         buffer s) = s.
Proof.
  induction n as [|n IH]; cbn [repeat listen_from];
    destruct (negb (connected s)); try reflexivity.
  unfold listen_step. destruct (negb (socket s)); [reflexivity|].
  cbn [on_exception]. exact IH.
Qed.

Lemma read_subscribe_true int_of_str k s :
  fst (read_subscribe int_of_str k s) = true ->
  exists resp,
    _wait_responses (snd (read_subscribe int_of_str k s)) !! k
      = Some (JDict resp)
    /\ truthy (get resp "error") = false.
Proof.
  unfold read_subscribe.
  destruct (_wait_responses s !! k) as [[| | | | |resp]|] eqn:E;
    try (cbn; discriminate).
  destruct (negb (truthy (JDict resp))); cbn [orb]; [cbn; discriminate|].
  destruct (truthy (get resp "error")) eqn:Ee; [cbn; discriminate|].
  intros _. exists resp. split; [|exact Ee].
  repeat break_match; cbn; exact E.
Qed.

Lemma read_subscribe_keeps int_of_str k s :
  request_id (snd (read_subscribe int_of_str k s)) = request_id s
  /\ _wait_events (snd (read_subscribe int_of_str k s)) = _wait_events s
  /\ outbox (snd (read_subscribe int_of_str k s)) = outbox s.
Proof.
  unfold read_subscribe. repeat break_match; cbn; repeat split; reflexivity.
Qed.

(** X7: however it ends, [subscribe] takes one request id and leaves no
    wait entry for it.  It returns true only when a response to its
    request is stored that carries no error, after a send that
    succeeded; without a socket, or when the send raises, it returns
    false and nothing was written; when [recv] only times out while it
    waits it returns false. *)
Theorem subscribe_fails_cleanly json_loads int_of_str (io : send_result)
    (rs : list recv_result) (buffer : string) (s : StratumClient) :
  request_id (snd (subscribe json_loads int_of_str io rs buffer s))
    = request_id s + 1
  /\ _wait_events (snd (subscribe json_loads int_of_str io rs buffer s))
       !! request_id s = None
  /\ (fst (fst (subscribe json_loads int_of_str io rs buffer s)) = true ->
      socket s = true /\ io = Sent
      /\ exists resp,
           _wait_responses (snd (subscribe json_loads int_of_str io rs buffer s))
             !! request_id s = Some (JDict resp)
           /\ truthy (get resp "error") = false)
  /\ (socket s = false \/ (exists e, io = SendRaises e) ->
      fst (fst (subscribe json_loads int_of_str io rs buffer s)) = false
      /\ outbox (snd (subscribe json_loads int_of_str io rs buffer s))
         = outbox s)
  /\ (forall n : nat,
        rs = repeat (RecvRaises SocketTimeout) n ->
        fst (fst (subscribe json_loads int_of_str io rs buffer s)) = false).
Proof.
  unfold subscribe, _send_and_wait, _send_request.
  cbn [socket set_waits set_request_id].
  destruct (socket s) eqn:Hs; cbn [negb].
  2:{ cbn. split; [reflexivity|]. split; [apply lookup_delete_eq|].
      split; [discriminate|]. split; [intros _; split; reflexivity|].
      intros n _. reflexivity. }
  destruct io as [|e].
  2:{ destruct (is_OSError e); cbn;
        (split; [reflexivity|]); (split; [apply lookup_delete_eq|]);
        (split; [discriminate|]); (split; [intros _; split; reflexivity|]);
        intros n _; reflexivity. }
  set (k := request_id s).
  set (s2 := set_outbox _ _).
  destruct (listen_from_link json_loads int_of_str rs buffer s2)
    as ((_ & _ & _ & Hreq & _) & _).
  pose proof (listen_timeouts_state json_loads int_of_str) as Hquiet.
  destruct (listen_from json_loads int_of_str rs buffer s2) as [l s3] eqn:El.
  cbn [snd] in Hreq.
  set (s4 := set_waits (delete k (_wait_events s3)) (_wait_responses s3) s3).
  assert (Hreq4 : request_id s4 = k + 1) by (subst s4 s2; cbn; exact Hreq).
  assert (Hev4 : _wait_events s4 !! k = None) by (subst s4; cbn; apply lookup_delete_eq).
  destruct (_wait_events s3 !! k) as [[|]|] eqn:Eflag.
  - destruct (read_subscribe_keeps int_of_str k s4) as (Kr & Ke & _).
    pose proof (read_subscribe_true int_of_str k s4) as Htrue.
    destruct (read_subscribe int_of_str k s4) as [r s5]. cbn [fst snd] in *.
    split; [congruence|]. split; [rewrite Ke; exact Hev4|].
    split; [intros Hr; split; [reflexivity|]; split; [reflexivity|];
            apply Htrue; exact Hr|].
    split; [intros [Hf | [e He]]; discriminate|].
    intros n Hn. subst rs. specialize (Hquiet n buffer s2).
    rewrite El in Hquiet. cbn [snd] in Hquiet. subst s3.
    subst s2. cbn in Eflag. rewrite lookup_insert_eq in Eflag. discriminate Eflag.
  - cbn [fst snd]. split; [exact Hreq4|]. split; [exact Hev4|].
    split; [discriminate|].
    split; [intros [Hf | [e He]]; discriminate|]. intros n _. reflexivity.
  - cbn [fst snd]. split; [exact Hreq4|]. split; [exact Hev4|].
    split; [discriminate|].
    split; [intros [Hf | [e He]]; discriminate|]. intros n _. reflexivity.
Qed.

(** X8: when the pool's answer to [mining.authorize] (the id of the
    request, no error, a truth value as result) arrives while the caller
    waits, [authorize] returns that truth value; the request written to
    the socket carries the wallet and the algorithm, one request id was
    taken and the wait entry is gone. *)
Theorem authorize_follows_result json_loads int_of_str
    (wallet algorithm line : string) (m : dict) (b : bool)
    (s : StratumClient) :
  socket s = true -> connected s = true ->
  request_id s ∉ _pending_submit_ids s ->
  no_newline line = true ->
  json_loads line = Some (JDict m) ->
  get m "method" = JNull ->
  get m "id" = JNum (request_id s) ->
  truthy (get m "error") = false ->
  get m "result" = JBool b ->
  fst (fst (authorize json_loads int_of_str wallet algorithm Sent
              [RecvData (String.append line (String "010" EmptyString))]
              EmptyString s)) = b
  /\ outbox
       (snd (authorize json_loads int_of_str wallet algorithm Sent
               [RecvData (String.append line (String "010" EmptyString))]
               EmptyString s))
     = outbox s
       ++ [JDict [ ("id"%string, JNum (request_id s));
                   ("method"%string, JStr "mining.authorize");
                   ("params"%string, JList [JStr wallet; JStr algorithm]) ]]
  /\ request_id
       (snd (authorize json_loads int_of_str wallet algorithm Sent
               [RecvData (String.append line (String "010" EmptyString))]
               EmptyString s))
     = request_id s + 1
  /\ _wait_events
       (snd (authorize json_loads int_of_str wallet algorithm Sent
               [RecvData (String.append line (String "010" EmptyString))]
               EmptyString s)) !! request_id s = None.
Proof.
  intros Hs Hc Hp Hn Hj Hm Hid He Hres.
  unfold authorize, _send_and_wait, _send_request.
  cbn [socket set_waits set_request_id]. rewrite Hs. cbn [negb].
  set (k := request_id s).
  set (s2 := set_outbox _ _).
  assert (Hh : _handle_message int_of_str (JDict m) s2
               = (Done,
                  set_waits (<[k := true]> (_wait_events s2))
                            (<[k := JDict m]> (_wait_responses s2)) s2)).
  { rewrite (handle_response_message int_of_str m s2 Hm).
    apply (handle_response_delivers_bool int_of_str m k s2 false b).
    - exact Hid.
    - subst s2. cbn. apply lookup_insert_eq.
    - subst s2. cbn. exact Hp.
    - exact Hres. }
  rewrite (listen_one_line json_loads int_of_str line (JDict m) s2 _
             Hs Hc Hn Hj Hh).
  cbn [_wait_events set_waits].
  rewrite lookup_insert_eq.
  unfold read_authorize.
  cbn [_wait_responses set_waits].
  rewrite lookup_insert_eq.
  assert (Ht : truthy (JDict m) = true).
  { destruct m; [cbn in Hid; discriminate Hid | reflexivity]. }
  rewrite Ht, He, Hres. cbn [negb orb truthy].
  cbn [fst snd outbox request_id set_waits _wait_events].
  repeat split; try reflexivity.
  apply lookup_delete_eq.
Qed.

Lemma authorize_follows_result_witness :
  socket Samples.online = true
  /\ connected Samples.online = true
  /\ (request_id Samples.online ∉ _pending_submit_ids Samples.online)
  /\ Samples.handshake_lines "A" = Some (JDict Samples.authorized)
  /\ fst (fst (authorize Samples.handshake_lines Samples.no_int_of_str
                 "wallet" "yescrypt" Sent
                 [RecvData (String.append "A" (String "010" EmptyString))]
                 EmptyString Samples.online)) = true.
Proof.
  assert (Hp : request_id Samples.online ∉ _pending_submit_ids Samples.online).
  { intros H. apply elem_of_empty in H. exact H. }
  split; [reflexivity|]. split; [reflexivity|]. split; [exact Hp|].
  split; [reflexivity|].
  exact (proj1 (authorize_follows_result Samples.handshake_lines
                  Samples.no_int_of_str "wallet" "yescrypt" "A"
                  Samples.authorized true Samples.online
                  eq_refl eq_refl Hp eq_refl eq_refl eq_refl eq_refl eq_refl
                  eq_refl)).
Defined.

(** X9: [disconnect] clears the flag, records "client disconnect" and
    forgets the socket, and doing it twice changes nothing more.  The
    listener then stops at once and leaves that reason in place; a worker
    that still submits gets false, yet its share is counted as sent and
    its id stays pending. *)
Theorem disconnect_stops_the_client json_loads int_of_str
    (rs : list recv_result) (buffer : string) (job_id : json) (nonce : Z)
    (result_hash : bytes) (io : send_result) (s : StratumClient) :
  connected (disconnect s) = false
  /\ socket (disconnect s) = false
  /\ last_disconnect_reason (disconnect s) = Some ClientDisconnect
  /\ disconnect (disconnect s) = disconnect s
  /\ listen_from json_loads int_of_str rs buffer (disconnect s)
     = (Exited, disconnect s)
  /\ fst (submit_share job_id nonce result_hash io (disconnect s)) = false
  /\ shares_sent (snd (submit_share job_id nonce result_hash io (disconnect s)))
     = shares_sent s + 1
  /\ _pending_submit_ids
       (snd (submit_share job_id nonce result_hash io (disconnect s)))
     = {[ request_id s ]} ∪ _pending_submit_ids s
  /\ outbox (snd (submit_share job_id nonce result_hash io (disconnect s)))
     = outbox s.
Proof.
  assert (Hc : connected (disconnect s) = false
               /\ socket (disconnect s) = false).
  { unfold disconnect. cbn [socket set_disconnected].
    destruct (socket s) eqn:Hs; cbn; [split; reflexivity | split; [reflexivity | exact Hs]]. }
  destruct Hc as [Hc Hs].
  split; [exact Hc|]. split; [exact Hs|].
  split.
  { unfold disconnect. cbn [socket set_disconnected].
    destruct (socket s); reflexivity. }
  split.
  { unfold disconnect at 1. cbn [socket set_disconnected]. rewrite Hs.
    unfold disconnect. cbn [socket set_disconnected].
    destruct (socket s); reflexivity. }
  split.
  { destruct rs; cbn [listen_from]; rewrite Hc; reflexivity. }
  unfold submit_share, _send_request. cbn [register_submit socket].
  rewrite Hs. cbn [negb fst snd shares_sent _pending_submit_ids outbox].
  unfold disconnect. cbn [socket set_disconnected].
  destruct (socket s); repeat split; reflexivity.
Qed.

End HandshakeFacts.

(** ** Reads that carry nothing *)

Module QuietFacts.
Import Py Stratum Runs LineFacts.

Lemma feed_bad_line json_loads int_of_str (buffer line : string) s :
  no_newline buffer = true ->
  no_newline line = true ->
  json_loads (String.append buffer line) = None ->
  feed_lines json_loads int_of_str EmptyString
    (String.append buffer (String.append line (String "010" EmptyString))) s
  = (Done, EmptyString, s).
Proof.
  intros Hb Hl Hj.
  rewrite (feed_lines_partial _ _ buffer Hb).
  change (String.append EmptyString buffer) with buffer.
  rewrite (feed_lines_partial _ _ line Hl).
  cbn [feed_lines]. change (Ascii.eqb "010" "010") with true. cbn match.
  rewrite Hj. reflexivity.
Qed.

(** X10: time-outs of [recv] and a line that does not decode as JSON
    have no effect: after them the listener goes on with an empty buffer
    and the client as it was, as if they had not been read. *)
Theorem noise_is_ignored json_loads int_of_str (n : nat) (line : string)
    (rs : list recv_result) (buffer : string) (s : StratumClient) :
  socket s = true ->
  no_newline buffer = true ->
  no_newline line = true ->
  json_loads (String.append buffer line) = None ->
  listen_from json_loads int_of_str
    (repeat (RecvRaises SocketTimeout) n
     ++ RecvData (String.append line (String "010" EmptyString)) :: rs)
    buffer s
  = listen_from json_loads int_of_str rs EmptyString s.
Proof.
  intros Hs Hb Hl Hj.
  destruct (connected s) eqn:Hc.
  2:{ destruct rs; destruct n; cbn [repeat app listen_from]; rewrite Hc;
        reflexivity. }
  induction n as [|n IH].
  - cbn [repeat app listen_from]. rewrite Hc. cbn [negb].
    unfold listen_step. rewrite Hs. cbn [negb].
    destruct (String.append line (String "010" EmptyString)) as [|c d] eqn:Ed.
    { destruct line; discriminate Ed. }
    rewrite <- Ed. rewrite (feed_bad_line _ _ buffer line s Hb Hl Hj).
    reflexivity.
  - cbn [repeat app listen_from]. rewrite Hc. cbn [negb].
    unfold listen_step at 1. rewrite Hs. cbn [negb on_exception].
    exact IH.
Qed.

Lemma noise_is_ignored_witness :
  socket Samples.online = true
  /\ Samples.two_lines (String.append "J" "unk") = None
  /\ listen_from Samples.two_lines Samples.no_int_of_str
       (repeat (RecvRaises SocketTimeout) 3
        ++ [ RecvData (String.append "unk" (String "010" EmptyString));
             RecvData (String "J" (String "2" (String "010" EmptyString))) ])
       "J" Samples.online
     = listen_from Samples.two_lines Samples.no_int_of_str
         [ RecvData (String "J" (String "2" (String "010" EmptyString))) ]
         EmptyString Samples.online.
Proof.
  split; [reflexivity|]. split; [reflexivity|].
  apply (noise_is_ignored Samples.two_lines Samples.no_int_of_str 3 "unk"
           [ RecvData (String "J" (String "2" (String "010" EmptyString))) ]
           "J" Samples.online); reflexivity.
Defined.

End QuietFacts.

(** ** Jobs, targets and snapshots *)

Module SessionFacts.
Import Py Session Jobs.

Lemma assoc_distinct (d : dict) (k : string) (v : json) :
  keys_distinct (map fst d) = true -> In (k, v) d -> assoc k d = Some v.
Proof.
  induction d as [|[k0 v0] r IH]; intros Hd Hin; [contradiction|].
  cbn [map fst keys_distinct] in Hd. apply andb_true_iff in Hd.
  destruct Hd as [Hfresh Hr]. apply negb_true_iff in Hfresh.
  cbn [assoc]. destruct Hin as [Heq | Hin].
  - injection Heq as -> ->. rewrite String.eqb_refl. reflexivity.
  - destruct (String.eqb k k0) eqn:Ek.
    + apply String.eqb_eq in Ek. subst k0. exfalso.
      assert (Hex : existsb (String.eqb k) (map fst r) = true).
      { apply existsb_exists. exists k. split; [|apply String.eqb_refl].
        apply in_map_iff. exists (k, v). split; [reflexivity | exact Hin]. }
      congruence.
    + apply IH; assumption.
Qed.

(** Python's [==] holds between a decoded value and itself. *)
Fixpoint eqb_refl (v : json) : well_formed v = true -> eqb v v = true.
Proof.
  destruct v as [| b | n | s | l | d]; intros Hwf.
  - reflexivity.
  - destruct b; reflexivity.
  - apply Z.eqb_refl.
  - apply String.eqb_refl.
  - cbn [eqb]. cbn [well_formed] in Hwf. revert Hwf. generalize l.
    fix go 1. intros [|x l'] Hwf; [reflexivity|].
    cbn [forallb] in Hwf. apply andb_true_iff in Hwf. destruct Hwf as [Hx Hl].
    rewrite (eqb_refl x Hx). cbn [andb]. apply go. exact Hl.
  - cbn [eqb]. rewrite Nat.eqb_refl. cbn [andb].
    cbn [well_formed] in Hwf. apply andb_true_iff in Hwf.
    destruct Hwf as [Hkeys Hitems].
    pose proof (assoc_distinct d) as Hassoc.
    assert (Hin : forall k v, In (k, v) d -> In (k, v) d) by auto.
    revert Hitems Hin. generalize d at 1 2 5.
    fix go 1. intros [|[k w] d'] Hitems Hin; [reflexivity|].
    apply andb_true_iff in Hitems. destruct Hitems as [Hw Hd'].
    rewrite (Hassoc k w Hkeys (Hin k w (or_introl eq_refl))).
    rewrite (eqb_refl w Hw). cbn [andb].
    apply go; [exact Hd'|]. intros k' v' H'. apply Hin. right. exact H'.
Qed.

(** X11: delivering a job again changes nothing: an update with a job
    whose id holds no object with a repeated key, applied a second time,
    leaves the job state, its version and the nonce cursor as the first
    update left them. *)
Theorem update_twice_is_once int_of_str algo (job : dict) (s : session) :
  well_formed (get job "job_id") = true ->
  snd (_update_job_from_stratum int_of_str algo job
         (snd (_update_job_from_stratum int_of_str algo job s)))
  = snd (_update_job_from_stratum int_of_str algo job s).
Proof.
  intros Hwf.
  pose proof (JobFacts.update_step int_of_str algo job s) as H1.
  cbn zeta in H1.
  set (s1 := snd (_update_job_from_stratum int_of_str algo job s)) in *.
  pose proof (JobFacts.update_step int_of_str algo job s1) as H2.
  cbn zeta in H2.
  assert (Hno : installs int_of_str job s1 = false).
  { destruct (installs int_of_str job s) eqn:Ei.
    - destruct H1 as (_ & _ & Hid & _).
      unfold installs. rewrite Hid, (eqb_refl _ Hwf).
      destruct (int int_of_str _); [|reflexivity].
      cbn [negb]. rewrite andb_false_r. reflexivity.
    - rewrite H1. exact Ei. }
  rewrite Hno in H2. exact H2.
Qed.

Lemma update_twice_is_once_witness :
  well_formed (get (Samples.job "j1" 2 true) "job_id") = true
  /\ version
       (job_state
          (snd (_update_job_from_stratum Samples.no_int_of_str YESCRYPT
                  (Samples.job "j1" 2 true)
                  (snd (_update_job_from_stratum Samples.no_int_of_str YESCRYPT
                          (Samples.job "j1" 2 true) initial))))) = 1.
Proof.
  split; [reflexivity|].
  rewrite (update_twice_is_once Samples.no_int_of_str YESCRYPT
             (Samples.job "j1" 2 true) initial eq_refl).
  reflexivity.
Defined.

Lemma div_antitone (p d1 d2 : Z) :
  0 <= p -> 1 <= d1 <= d2 -> p / d2 <= p / d1.
Proof. intros Hp Hd. apply Z.div_le_compat_l; lia. Qed.

Lemma shiftr_monotone (a b n : Z) :
  0 <= n -> a <= b -> Z.shiftr a n <= Z.shiftr b n.
Proof.
  intros Hn Hab. rewrite !Z.shiftr_div_pow2 by exact Hn.
  apply Z.div_le_mono; [apply Z.pow_pos_nonneg; lia | exact Hab].
Qed.

(** X12: a higher difficulty never accepts more.  With the targets of
    difficulties d1 <= d2 for the same algorithm, a digest that the CPU
    or the GPU worker accepts at d2 is accepted at d1; a difficulty of 0
    or less gives the targets of difficulty 1. *)
Theorem lower_difficulty_accepts_more algo (d1 d2 : Z) (snap1 snap2 : JobState)
    (output_array : bytes) (result_hash : option bytes) (digest : bytes) :
  d1 <= d2 ->
  job_targets snap1 = targets_of algo d1 ->
  job_targets snap2 = targets_of algo d2 ->
  (cpu_meets algo snap2 output_array result_hash = true ->
   cpu_meets algo snap1 output_array result_hash = true)
  /\ (gpu_meets algo snap2 digest = true -> gpu_meets algo snap1 digest = true)
  /\ (d1 <= 1 -> targets_of algo d1 = targets_of algo 1).
Proof.
  intros Hle H1 H2.
  assert (Hm : 1 <= Z.max 1 d1 <= Z.max 1 d2) by lia.
  assert (H64 : max_target_64 / Z.max 1 d2 <= max_target_64 / Z.max 1 d1).
  { apply div_antitone; [unfold max_target_64; lia | exact Hm]. }
  assert (H256 : max_target_256 / Z.max 1 d2 <= max_target_256 / Z.max 1 d1).
  { apply div_antitone; [unfold max_target_256; lia | exact Hm]. }
  assert (Hc : Z.shiftr (max_target_256 / Z.max 1 d2) 224
               <= Z.shiftr (max_target_256 / Z.max 1 d1) 224).
  { apply shiftr_monotone; [lia | exact H256]. }
  unfold job_targets, targets_of in H1, H2.
  split; [|split].
  - unfold cpu_meets. destruct algo; cbn [is_randomx is_cosmic] in *;
      injection H1 as A1 B1 C1; injection H2 as A2 B2 C2;
      rewrite A1, A2, ?B1, ?B2, ?C1, ?C2; cbn [is_cosmic];
      intros H; [apply Z.leb_le in H; apply Z.leb_le
                | apply Z.leb_le in H; apply Z.leb_le
                | apply Z.ltb_lt in H; apply Z.ltb_lt]; lia.
  - unfold gpu_meets. destruct algo; cbn [is_randomx is_cosmic] in *;
      injection H1 as A1 B1 C1; injection H2 as A2 B2 C2;
      rewrite A1, A2, ?B1, ?B2, ?C1, ?C2; cbn [is_cosmic];
      intros H; [apply Z.leb_le in H; apply Z.leb_le
                | apply Z.leb_le in H; apply Z.leb_le
                | apply Z.ltb_lt in H; apply Z.ltb_lt]; lia.
  - intros H. unfold targets_of. rewrite (Z.max_l 1 d1) by lia.
    reflexivity.
Qed.

Lemma lower_difficulty_accepts_more_witness :
  2 <= 5
  /\ job_targets (Samples.snap_of RANDOMX 2) = targets_of RANDOMX 2
  /\ job_targets (Samples.snap_of RANDOMX 5) = targets_of RANDOMX 5
  /\ (gpu_meets RANDOMX (Samples.snap_of RANDOMX 5) Samples.digest_00 = true ->
      gpu_meets RANDOMX (Samples.snap_of RANDOMX 2) Samples.digest_00 = true).
Proof.
  assert (H : 2 <= 5) by lia.
  split; [exact H|]. split; [reflexivity|]. split; [reflexivity|].
  exact (proj1 (proj2
    (lower_difficulty_accepts_more RANDOMX 2 5 (Samples.snap_of RANDOMX 2)
       (Samples.snap_of RANDOMX 5) [] None Samples.digest_00 H
       eq_refl eq_refl))).
Defined.

(** X13: the targets of a job fit their width, whatever difficulty the
    pool sends: RandomX has a 64-bit target only, below 2^64; the other
    algorithms have a 256-bit target, below 2^256; Cosmic Harmony alone
    has the truncated target, which is the 256-bit target shifted right
    by 224 bits and is below 2^32. *)
Theorem targets_fit_their_width algo (d : Z) :
  (is_Some (fst (fst (targets_of algo d))) <-> algo = RANDOMX)
  /\ (is_Some (snd (fst (targets_of algo d))) <-> algo <> RANDOMX)
  /\ (is_Some (snd (targets_of algo d)) <-> algo = COSMIC_HARMONY)
  /\ (forall t, fst (fst (targets_of algo d)) = Some t -> 0 <= t < 2 ^ 64)
  /\ (forall t, snd (fst (targets_of algo d)) = Some t -> 0 <= t < 2 ^ 256)
  /\ (forall t, snd (targets_of algo d) = Some t ->
        0 <= t < 2 ^ 32
        /\ exists full, snd (fst (targets_of algo d)) = Some full
                        /\ t = Z.shiftr full 224).
Proof.
  assert (Hd : 1 <= Z.max 1 d) by lia.
  assert (H64 : 0 <= max_target_64 / Z.max 1 d < 2 ^ 64).
  { split; [apply Z.div_pos; [unfold max_target_64|]; lia|].
    apply Z.div_lt_upper_bound; [lia|].
    change max_target_64 with (2 ^ 64 - 1). nia. }
  assert (H256 : 0 <= max_target_256 / Z.max 1 d < 2 ^ 256).
  { split; [apply Z.div_pos; [unfold max_target_256|]; lia|].
    apply Z.div_lt_upper_bound; [lia|].
    change max_target_256 with (2 ^ 256 - 1). nia. }
  assert (H32 : 0 <= Z.shiftr (max_target_256 / Z.max 1 d) 224 < 2 ^ 32).
  { rewrite Z.shiftr_div_pow2 by lia. split; [apply Z.div_pos; lia|].
    apply Z.div_lt_upper_bound; [lia|].
    change (2 ^ 224 * 2 ^ 32) with (2 ^ 256). lia. }
  unfold targets_of.
  destruct algo; cbn [is_randomx is_cosmic fst snd].
  - split; [split; [intros [x Hx]; discriminate Hx | discriminate]|].
    split; [split; [discriminate | intros _; eexists; reflexivity]|].
    split; [split; [reflexivity | intros _; eexists; reflexivity]|].
    split; [discriminate|].
    split; [intros t Ht; injection Ht as <-; exact H256|].
    intros t Ht. injection Ht as <-. split; [exact H32|].
    eexists. split; reflexivity.
  - split; [split; [reflexivity | intros _; eexists; reflexivity]|].
    split; [split; [intros [x Hx]; discriminate Hx | intros H; contradiction]|].
    split; [split; [intros [x Hx]; discriminate Hx | discriminate]|].
    split; [intros t Ht; injection Ht as <-; exact H64|].
    split; discriminate.
  - split; [split; [intros [x Hx]; discriminate Hx | discriminate]|].
    split; [split; [discriminate | intros _; eexists; reflexivity]|].
    split; [split; [intros [x Hx]; discriminate Hx | discriminate]|].
    split; [discriminate|].
    split; [intros t Ht; injection Ht as <-; exact H256|].
    discriminate.
Qed.

(** X14: what the workers see after an update.  When the update
    installs the job, the snapshot is the new job state, with the job's
    id, the bytes of its blob, the difficulty raised to 1 at least, the
    targets of that difficulty and the next version, unless the blob
    decodes to no byte at all: then the job is installed and the workers
    get no snapshot.  When the update installs nothing the snapshot is
    what it was. *)
Theorem snapshot_after_update int_of_str algo (job : dict) (s : session) :
  (installs int_of_str job s = true ->
   blob_bytes (job_state (snd (_update_job_from_stratum int_of_str algo job s)))
     = decoded_blob job
   /\ _snapshot_job (snd (_update_job_from_stratum int_of_str algo job s))
      = match decoded_blob job with
        | Some (_ :: _) =>
            Some (job_state
                    (snd (_update_job_from_stratum int_of_str algo job s)))
        | _ => None
        end
   /\ forall snap,
        _snapshot_job (snd (_update_job_from_stratum int_of_str algo job s))
          = Some snap ->
        job_id snap = get job "job_id"
        /\ blob_bytes snap = decoded_blob job
        /\ version snap = version (job_state s) + 1
        /\ exists pool_difficulty,
             int int_of_str (or_else (get job "difficulty") (JNum 1))
               = Some pool_difficulty
             /\ difficulty snap = Some (Z.max 1 pool_difficulty)
             /\ job_targets snap = targets_of algo pool_difficulty)
  /\ (installs int_of_str job s = false ->
      _snapshot_job (snd (_update_job_from_stratum int_of_str algo job s))
        = _snapshot_job s).
Proof.
  split.
  - unfold installs, _update_job_from_stratum, decoded_blob.
    destruct (int int_of_str _) as [pd|]; [|discriminate].
    destruct (truthy (get job "job_id")) eqn:Tid; [|discriminate].
    destruct (truthy (get job "blob")); [|discriminate].
    cbn [negb orb andb].
    destruct (get job "blob") as [| | |h| |]; try discriminate.
    destruct (bytes_fromhex h) as [bs|]; [|discriminate].
    destruct (targets_of algo pd) as [[t64 t256] tc32] eqn:Ht.
    cbn [andb]. intros Hne. rewrite Hne.
    assert (Hs : forall (o : outcome) (s0 : session),
               snd (if sliceable (get job "job_id") then (Done, s0)
                    else (o, s0)) = s0).
    { intros o s0. destruct (sliceable _); reflexivity. }
    rewrite Hs. cbn [job_state blob_bytes].
    split; [reflexivity|].
    assert (Hsnap : _snapshot_job
                      {| job_state :=
                           {| job_id := get job "job_id"; blob_hex := JStr h;
                              blob_bytes := Some bs;
                              difficulty := Some (Z.max 1 pd);
                              height := get job "height"; target_64 := t64;
                              target_256 := t256; target_cosmic32 := tc32;
                              version := version (job_state s) + 1 |};
                         nonce_cursor := 0 |}
                    = match bs with
                      | _ :: _ =>
                          Some {| job_id := get job "job_id"; blob_hex := JStr h;
                                  blob_bytes := Some bs;
                                  difficulty := Some (Z.max 1 pd);
                                  height := get job "height"; target_64 := t64;
                                  target_256 := t256; target_cosmic32 := tc32;
                                  version := version (job_state s) + 1 |}
                      | [] => None
                      end).
    { unfold _snapshot_job. cbn [job_state job_id blob_bytes]. rewrite Tid.
      destruct bs; reflexivity. }
    rewrite Hsnap. split; [destruct bs; reflexivity|].
    intros snap Hsome. destruct bs as [|b0 bs]; [discriminate Hsome|].
    injection Hsome as <-. cbn.
    repeat split; try reflexivity.
    exists pd. repeat split; try reflexivity.
    unfold job_targets. cbn. rewrite Ht. reflexivity.
  - intros Hno.
    pose proof (JobFacts.update_step int_of_str algo job s) as H.
    cbn zeta in H. rewrite Hno in H. rewrite H. reflexivity.
Qed.

End SessionFacts.

(** ** The GPU worker's batch *)

Module GpuFacts.
Import Py Stratum Session Workers.

Lemma submit_share_effect job_id nonce result_hash io c :
  shares_sent (snd (submit_share job_id nonce result_hash io c))
    = shares_sent c + 1
  /\ request_id (snd (submit_share job_id nonce result_hash io c))
     = request_id c + 1
  /\ worker_id (snd (submit_share job_id nonce result_hash io c)) = worker_id c
  /\ socket (snd (submit_share job_id nonce result_hash io c)) = socket c
  /\ (outbox (snd (submit_share job_id nonce result_hash io c)) = outbox c
      \/ outbox (snd (submit_share job_id nonce result_hash io c))
         = outbox c
           ++ [submit_request (worker_id c) (request_id c) job_id nonce
                 result_hash]).
Proof.
  unfold submit_share, _send_request. cbn [register_submit socket].
  destruct (socket c) eqn:Hs; cbn [negb];
    [destruct io as [|e]; [|destruct (is_OSError e)]|]; cbn [fst snd];
    (split; [reflexivity|]); (split; [reflexivity|]);
    (split; [reflexivity|]); (split; [cbn; exact Hs|]).
  - right. reflexivity.
  - left. reflexivity.
  - left. reflexivity.
  - left. reflexivity.
Qed.

Lemma gpu_scan_from algo snap hashes_out nonce_start env ios (todo : nat) :
  forall (i : nat) (p : Z) (c : StratumClient),
  exists k : nat,
    (k <= todo)%nat
    /\ fst (gpu_scan algo snap hashes_out nonce_start env ios i todo p c)
       = p + Z.of_nat k
    /\ (forall j : nat, (i <= j < i + k)%nat -> interrupted snap (env j) = false)
    /\ ((k < todo)%nat -> interrupted snap (env (i + k)%nat) = true)
    /\ shares_sent
         (snd (gpu_scan algo snap hashes_out nonce_start env ios i todo p c))
       = shares_sent c
         + Z.of_nat (length (filter
              (fun j => gpu_meets algo snap (digest_at hashes_out j) = true)
              (seq i k)))
    /\ request_id
         (snd (gpu_scan algo snap hashes_out nonce_start env ios i todo p c))
       = request_id c
         + Z.of_nat (length (filter
              (fun j => gpu_meets algo snap (digest_at hashes_out j) = true)
              (seq i k)))
    /\ worker_id
         (snd (gpu_scan algo snap hashes_out nonce_start env ios i todo p c))
       = worker_id c
    /\ exists sent,
         outbox
           (snd (gpu_scan algo snap hashes_out nonce_start env ios i todo p c))
         = outbox c ++ sent
         /\ Forall
              (fun req =>
                 exists (j : nat) (id : Z),
                   (i <= j < i + k)%nat
                   /\ gpu_meets algo snap (digest_at hashes_out j) = true
                   /\ req = submit_request (worker_id c) id (job_id snap)
                              (nonce_start + Z.of_nat j)
                              (digest_at hashes_out j))
              sent.
Proof.
  induction todo as [|todo IH]; intros i p c.
  - exists 0%nat. cbn [gpu_scan fst snd seq]. rewrite filter_nil. cbn [length].
    split; [lia|]. split; [lia|]. split; [intros j Hj; lia|].
    split; [lia|]. split; [lia|]. split; [lia|]. split; [reflexivity|].
    exists []. split; [rewrite app_nil_r; reflexivity | constructor].
  - cbn [gpu_scan].
    assert (Hstop : interrupted snap (env i) = true ->
              exists k : nat,
                (k <= S todo)%nat /\ fst (p, c) = p + Z.of_nat k
                /\ (forall j : nat, (i <= j < i + k)%nat ->
                      interrupted snap (env j) = false)
                /\ ((k < S todo)%nat ->
                      interrupted snap (env (i + k)%nat) = true)
                /\ shares_sent (snd (p, c))
                   = shares_sent c
                     + Z.of_nat (length (filter
                         (fun j => gpu_meets algo snap (digest_at hashes_out j)
                                   = true)
                         (seq i k)))
                /\ request_id (snd (p, c))
                   = request_id c
                     + Z.of_nat (length (filter
                         (fun j => gpu_meets algo snap (digest_at hashes_out j)
                                   = true)
                         (seq i k)))
                /\ worker_id (snd (p, c)) = worker_id c
                /\ exists sent,
                     outbox (snd (p, c)) = outbox c ++ sent
                     /\ Forall
                          (fun req =>
                             exists (j : nat) (id : Z),
                               (i <= j < i + k)%nat
                               /\ gpu_meets algo snap (digest_at hashes_out j)
                                  = true
                               /\ req = submit_request (worker_id c) id
                                          (job_id snap)
                                          (nonce_start + Z.of_nat j)
                                          (digest_at hashes_out j))
                          sent).
    { intros Hi. exists 0%nat. cbn [fst snd seq]. rewrite filter_nil.
      cbn [length].
      split; [lia|]. split; [lia|]. split; [intros j Hj; lia|].
      split; [intros _; rewrite Nat.add_0_r; exact Hi|].
      split; [lia|]. split; [lia|]. split; [reflexivity|].
      exists []. split; [rewrite app_nil_r; reflexivity | constructor]. }
    destruct (stop_set (env i) || pause_set (env i) || negb (gpu_on (env i)))
      eqn:Eflags.
    { apply Hstop. unfold interrupted. rewrite Eflags. reflexivity. }
    destruct (negb (seen_version (env i) =? version snap)) eqn:Ever.
    { apply Hstop. unfold interrupted. rewrite Eflags, Ever. reflexivity. }
    clear Hstop.
    assert (Hi : interrupted snap (env i) = false).
    { unfold interrupted. rewrite Eflags, Ever. reflexivity. }
    set (c' := if gpu_meets algo snap (digest_at hashes_out i)
               then snd (submit_share (job_id snap) (nonce_start + Z.of_nat i)
                           (digest_at hashes_out i) (ios i) c)
               else c).
    destruct (IH (S i) (p + 1) c')
      as (k & Hk & Hp & Hrun & Hend & Hsent & Hreq & Hw & sent & Hout & Hall).
    exists (S k).
    assert (Hc' : shares_sent c'
                  = shares_sent c
                    + (if gpu_meets algo snap (digest_at hashes_out i)
                       then 1 else 0)
                  /\ request_id c'
                     = request_id c
                       + (if gpu_meets algo snap (digest_at hashes_out i)
                          then 1 else 0)
                  /\ worker_id c' = worker_id c
                  /\ exists first,
                       outbox c' = outbox c ++ first
                       /\ Forall
                            (fun req =>
                               exists (j : nat) (id : Z),
                                 (i <= j < i + S k)%nat
                                 /\ gpu_meets algo snap (digest_at hashes_out j)
                                    = true
                                 /\ req = submit_request (worker_id c) id
                                            (job_id snap)
                                            (nonce_start + Z.of_nat j)
                                            (digest_at hashes_out j))
                            first).
    { subst c'. destruct (gpu_meets algo snap (digest_at hashes_out i)) eqn:Em.
      - destruct (submit_share_effect (job_id snap) (nonce_start + Z.of_nat i)
                    (digest_at hashes_out i) (ios i) c)
          as (A & B & C & _ & [D | D]).
        + split; [exact A|]. split; [exact B|]. split; [exact C|].
          exists []. split; [rewrite app_nil_r; exact D | constructor].
        + split; [exact A|]. split; [exact B|]. split; [exact C|].
          eexists. split; [exact D|]. constructor; [|constructor].
          exists i, (request_id c). split; [lia|]. split; [exact Em|].
          reflexivity.
      - split; [lia|]. split; [lia|]. split; [reflexivity|].
        exists []. split; [rewrite app_nil_r; reflexivity | constructor]. }
    destruct Hc' as (Hs' & Hr' & Hw' & first & Hfirst & Hfall).
    assert (Hlen : Z.of_nat (length (filter
                     (fun j => gpu_meets algo snap (digest_at hashes_out j) = true)
                     (seq i (S k))))
                   = (if gpu_meets algo snap (digest_at hashes_out i)
                      then 1 else 0)
                     + Z.of_nat (length (filter
                         (fun j => gpu_meets algo snap (digest_at hashes_out j)
                                   = true)
                         (seq (S i) k)))).
    { cbn [seq]. rewrite filter_cons.
      destruct (decide (gpu_meets algo snap (digest_at hashes_out i) = true))
        as [E | E].
      - rewrite E. cbn [length]. lia.
      - apply not_true_is_false in E. rewrite E. lia. }
    split; [lia|]. split; [rewrite Hp; lia|].
    split.
    { intros j Hj. destruct (Nat.eq_dec j i) as [-> | Hne]; [exact Hi|].
      apply Hrun. lia. }
    split.
    { intros Hlt. replace (i + S k)%nat with (S i + k)%nat by lia.
      apply Hend. lia. }
    split; [rewrite Hsent, Hs', Hlen; lia|].
    split; [rewrite Hreq, Hr', Hlen; lia|].
    split; [rewrite Hw; exact Hw'|].
    exists (first ++ sent). split.
    { rewrite Hout, Hfirst, app_assoc. reflexivity. }
    apply Forall_app. split; [exact Hfall|].
    eapply Forall_impl; [exact Hall|].
    intros req (j & id & Hj & Hm & Hreqeq).
    exists j, id. split; [lia|]. split; [exact Hm|].
    rewrite Hreqeq, Hw'. reflexivity.
Qed.

(** X15: a batch of the GPU worker.  The loop scans the first k turns of
    the batch, k being the first turn at which an event or a new job
    version interrupts it (the whole batch when none does), and
    [processed] is k.  For each scanned turn whose digest meets the
    target one share is counted and one request id taken, whatever the
    socket does; every request written to the socket carries the job id
    of the snapshot, the nonce [nonce_start + j] of a scanned turn j with
    such a digest, and that digest. *)
Theorem gpu_batch_submits_its_hits algo snap hashes_out nonce_start env ios
    (batch : nat) (c : StratumClient) :
  exists k : nat,
    (k <= batch)%nat
    /\ fst (gpu_scan algo snap hashes_out nonce_start env ios 0 batch 0 c)
       = Z.of_nat k
    /\ (forall j : nat, (j < k)%nat -> interrupted snap (env j) = false)
    /\ ((k < batch)%nat -> interrupted snap (env k) = true)
    /\ shares_sent
         (snd (gpu_scan algo snap hashes_out nonce_start env ios 0 batch 0 c))
       = shares_sent c + Z.of_nat (length (hits algo snap hashes_out k))
    /\ request_id
         (snd (gpu_scan algo snap hashes_out nonce_start env ios 0 batch 0 c))
       = request_id c + Z.of_nat (length (hits algo snap hashes_out k))
    /\ exists sent,
         outbox
           (snd (gpu_scan algo snap hashes_out nonce_start env ios 0 batch 0 c))
         = outbox c ++ sent
         /\ Forall
              (fun req =>
                 exists (j : nat) (id : Z),
                   (j < k)%nat
                   /\ gpu_meets algo snap (digest_at hashes_out j) = true
                   /\ req = submit_request (worker_id c) id (job_id snap)
                              (nonce_start + Z.of_nat j)
                              (digest_at hashes_out j))
              sent.
Proof.
  destruct (gpu_scan_from algo snap hashes_out nonce_start env ios batch 0 0 c)
    as (k & Hk & Hp & Hrun & Hend & Hsent & Hreq & _ & sent & Hout & Hall).
  exists k. split; [exact Hk|]. split; [rewrite Hp; lia|].
  split; [intros j Hj; apply Hrun; lia|].
  split; [exact Hend|].
  split; [exact Hsent|]. split; [exact Hreq|].
  exists sent. split; [exact Hout|].
  eapply Forall_impl; [exact Hall|].
  intros req (j & id & Hj & Hm & He). exists j, id.
  split; [lia|]. split; assumption.
Qed.

End GpuFacts.

(** ** Hashing threads, the kernel size and the algorithm switch *)

Module ThreadFacts.
Import Py Session Workers.

Lemma range_cosmic_spec lib data nonce_start (todo : nat) :
  forall i : nat,
    fst (range_cosmic lib data nonce_start i todo)
    = map (fun j => cosmic_hash lib data (nonce_start + Z.of_nat j)) (seq i todo)
    /\ snd (range_cosmic lib data nonce_start i todo) = Z.of_nat todo.
Proof.
  induction todo as [|todo IH]; intros i; [split; reflexivity|].
  cbn [range_cosmic]. destruct (IH (S i)) as [Hr Hn].
  destruct (range_cosmic lib data nonce_start (S i) todo) as [rest n].
  cbn [fst snd] in *. subst. split; [reflexivity | lia].
Qed.

Lemma range_randomx_spec lib data (todo : nat) :
  fst (range_randomx lib data todo)
  = repeat (zion_randomx_hash_bytes lib data) todo
  /\ snd (range_randomx lib data todo) = Z.of_nat todo.
Proof.
  induction todo as [|todo [Hr Hn]]; [split; reflexivity|].
  cbn [range_randomx]. destruct (range_randomx lib data todo) as [rest n].
  cbn [fst snd] in *. subst. split; [reflexivity | lia].
Qed.

Lemma range_yescrypt_spec lib data (todo : nat) :
  fst (range_yescrypt lib data todo)
  = (if fst (yescrypt_hash_bytes lib data) =? 0
     then repeat (snd (yescrypt_hash_bytes lib data)) todo
     else [])
  /\ snd (range_yescrypt lib data todo)
     = Z.of_nat (length (fst (range_yescrypt lib data todo)))
  /\ count_yescrypt lib data todo
     = Z.of_nat (length (fst (range_yescrypt lib data todo))).
Proof.
  induction todo as [|todo (Hr & Hn & Hc)].
  - cbn. destruct (fst (yescrypt_hash_bytes lib data) =? 0); repeat split.
  - cbn [range_yescrypt count_yescrypt].
    destruct (range_yescrypt lib data todo) as [rest n].
    destruct (yescrypt_hash_bytes lib data) as [rc digest].
    cbn [fst snd] in *. rewrite Hc.
    destruct (rc =? 0); cbn [negb fst snd length repeat].
    + subst rest. split; [reflexivity|]. split; lia.
    + subst rest. split; [reflexivity|]. split; [exact Hn | reflexivity].
Qed.

(** X16: the two ways a [CPUMiningThread] hashes a range agree:
    [hash_count_range] returns the number of digests [hash_range]
    returns, never more than the count asked for, and both leave the
    same [self.hashes], raised by that number; a count of 0 or less gives
    nothing.  For Cosmic Harmony the i-th digest is the hash for nonce
    [nonce_start + i]; for RandomX and Yescrypt the nonce is not used and
    all the digests are equal. *)
Theorem hash_range_counts lib algo (data : bytes) (nonce_start nonce_count : Z)
    (hashes : Z) :
  fst (hash_count_range lib algo data nonce_start nonce_count hashes)
    = Z.of_nat (length (fst (hash_range lib algo data nonce_start nonce_count
                               hashes)))
  /\ snd (hash_count_range lib algo data nonce_start nonce_count hashes)
     = snd (hash_range lib algo data nonce_start nonce_count hashes)
  /\ snd (hash_range lib algo data nonce_start nonce_count hashes)
     = hashes
       + Z.of_nat (length (fst (hash_range lib algo data nonce_start
                                  nonce_count hashes)))
  /\ Z.of_nat (length (fst (hash_range lib algo data nonce_start nonce_count
                              hashes))) <= Z.max 0 nonce_count
  /\ (algo = COSMIC_HARMONY ->
      fst (hash_range lib algo data nonce_start nonce_count hashes)
      = map (fun j => cosmic_hash lib data (nonce_start + Z.of_nat j))
            (seq 0 (Z.to_nat nonce_count)))
  /\ (algo <> COSMIC_HARMONY ->
      forall x y,
        In x (fst (hash_range lib algo data nonce_start nonce_count hashes)) ->
        In y (fst (hash_range lib algo data nonce_start nonce_count hashes)) ->
        x = y).
Proof.
  unfold hash_count_range, hash_range.
  destruct (range_cosmic_spec lib data nonce_start (Z.to_nat nonce_count) 0)
    as [Cr Cn].
  destruct (range_randomx_spec lib data (Z.to_nat nonce_count)) as [Rr Rn].
  destruct (range_yescrypt_spec lib data (Z.to_nat nonce_count))
    as (Yr & Yn & Yc).
  destruct algo.
  - destruct (range_cosmic lib data nonce_start 0 (Z.to_nat nonce_count))
      as [results n]. cbn [fst snd] in *. subst.
    rewrite length_map, length_seq.
    destruct (Z.leb_spec nonce_count 0); cbn [fst snd].
    + replace (Z.to_nat nonce_count) with 0%nat by lia. cbn.
      repeat split; try lia; try (intros; contradiction).
    + repeat split; try lia; try (intros; contradiction).
  - destruct (range_randomx lib data (Z.to_nat nonce_count)) as [results n].
    cbn [fst snd] in *. subst. rewrite repeat_length.
    assert (Heq : forall x y,
               In x (repeat (zion_randomx_hash_bytes lib data)
                       (Z.to_nat nonce_count)) ->
               In y (repeat (zion_randomx_hash_bytes lib data)
                       (Z.to_nat nonce_count)) -> x = y).
    { intros x y Hx Hy. apply repeat_spec in Hx. apply repeat_spec in Hy.
      congruence. }
    destruct (Z.leb_spec nonce_count 0); cbn [fst snd].
    + replace (Z.to_nat nonce_count) with 0%nat in * by lia. cbn.
      repeat split; try lia; try discriminate; try (intros; contradiction).
    + repeat split; try lia; try discriminate; try (intros _; exact Heq).
  - destruct (range_yescrypt lib data (Z.to_nat nonce_count)) as [results n].
    cbn [fst snd] in *.
    assert (Hlen : (length results <= Z.to_nat nonce_count)%nat).
    { rewrite Yr. destruct (_ =? 0); [rewrite repeat_length|cbn]; lia. }
    assert (Heq : forall x y, In x results -> In y results -> x = y).
    { rewrite Yr. destruct (_ =? 0); [|intros x y []].
      intros x y Hx Hy. apply repeat_spec in Hx. apply repeat_spec in Hy.
      congruence. }
    destruct (Z.leb_spec nonce_count 0); cbn [fst snd].
    + assert (Hz : Z.to_nat nonce_count = 0%nat) by lia.
      rewrite Hz in Hlen. destruct results; [|cbn in Hlen; lia].
      cbn [length] in *.
      repeat split; try lia; try discriminate; try (intros; contradiction).
    + repeat split; try lia; try discriminate; try (intros _; exact Heq).
Qed.

(** X17: the global size given to the kernel is the least multiple of
    the work group size that holds the batch. *)
Theorem global_size_rounds_up (batch_size work_size : Z) :
  0 < work_size ->
  exists g,
    global_size batch_size work_size = Some g
    /\ batch_size <= g < batch_size + work_size
    /\ g mod work_size = 0
    /\ (batch_size mod work_size = 0 -> g = batch_size).
Proof.
  intros Hw. unfold global_size.
  destruct (Z.eqb_spec work_size 0); [lia|].
  pose proof (Z.div_mod batch_size work_size ltac:(lia)) as Hdm.
  pose proof (Z.mod_pos_bound batch_size work_size Hw) as Hb.
  destruct (Z.eqb_spec (batch_size mod work_size) 0) as [E | E]; cbn [negb].
  - exists batch_size. repeat split; try lia; assumption.
  - exists ((batch_size / work_size + 1) * work_size).
    split; [reflexivity|]. split; [nia|].
    split; [apply Z.mod_mul; lia | intros H; contradiction].
Qed.

Lemma global_size_rounds_up_witness :
  0 < 256
  /\ global_size 50000 256 = Some 50176
  /\ global_size 512 256 = Some 512.
Proof.
  assert (H : 0 < 256) by lia.
  split; [exact H|].
  destruct (global_size_rounds_up 50000 256 H) as (g & Hg & _).
  split; [rewrite Hg; f_equal; vm_compute in Hg; congruence | reflexivity].
Defined.

(** X18: switching algorithm goes round the three algorithms: a switch
    always changes the algorithm and three switches come back to it.  The
    wish for the GPU survives a switch only if it was set and the new
    algorithm is Cosmic Harmony, so after three switches it is off. *)
Theorem algorithm_switch_cycles (a : Algorithm) (gpu_desired : bool) :
  fst (switch_to_next a gpu_desired) <> a
  /\ fst (switch_to_next
            (fst (switch_to_next (fst (switch_to_next a gpu_desired))
                    (snd (switch_to_next a gpu_desired))))
            (snd (switch_to_next (fst (switch_to_next a gpu_desired))
                    (snd (switch_to_next a gpu_desired))))) = a
  /\ (snd (switch_to_next a gpu_desired) = true <->
      gpu_desired = true
      /\ fst (switch_to_next a gpu_desired) = COSMIC_HARMONY)
  /\ snd (switch_to_next
            (fst (switch_to_next (fst (switch_to_next a gpu_desired))
                    (snd (switch_to_next a gpu_desired))))
            (snd (switch_to_next (fst (switch_to_next a gpu_desired))
                    (snd (switch_to_next a gpu_desired))))) = false.
Proof.
  destruct a, gpu_desired; cbn;
    (split; [discriminate|]); (split; [reflexivity|]);
    (split; [split; [intros H; try discriminate H; split; reflexivity
                    | intros [H1 H2]; try discriminate H1; try discriminate H2;
                      reflexivity]|]);
    reflexivity.
Qed.

End ThreadFacts.

(** ** The CPU worker's batch *)

Module CpuFacts.
Import Py Stratum Session CpuWorker.

Lemma byte_val_of_Z (x : Z) : 0 <= x < 256 -> byte_val (byte_of_Z x) = x.
Proof.
  intros Hx. unfold byte_val, byte_of_Z.
  destruct (Byte.of_N (Z.to_N x)) as [b|] eqn:E.
  - apply Byte.to_of_N in E. rewrite E. lia.
  - apply Byte.of_N_None_iff in E. lia.
Qed.

Lemma byte_of_Z_val (b : byte) : byte_of_Z (byte_val b) = b.
Proof.
  unfold byte_val, byte_of_Z. rewrite N2Z.id, Byte.of_to_N. reflexivity.
Qed.

Lemma le_bytes4_value (v : Z) :
  0 <= v < 4294967296 -> int_from_bytes_little (le_bytes4 v) = v.
Proof.
  intros Hv. unfold le_bytes4. cbn [int_from_bytes_little].
  rewrite !byte_val_of_Z by (apply Z.mod_pos_bound; lia).
  pose proof (Z.div_mod v 256 ltac:(lia)).
  pose proof (Z.div_mod (v / 256) 256 ltac:(lia)).
  pose proof (Z.div_mod (v / 256 / 256) 256 ltac:(lia)).
  assert (H3 : v / 256 / 256 / 256 < 256).
  { repeat (apply Z.div_lt_upper_bound; [lia|]). lia. }
  assert (H4 : 0 <= v / 256 / 256 / 256).
  { repeat (apply Z.div_pos; [|lia]). lia. }
  replace (v / 65536) with (v / 256 / 256)
    by (rewrite Z.div_div by lia; reflexivity).
  replace (v / 16777216) with (v / 256 / 256 / 256)
    by (rewrite !Z.div_div by lia; reflexivity).
  rewrite (Z.mod_small (v / 256 / 256 / 256) 256) by lia.
  lia.
Qed.

Lemma final_flush_counted (w : worker) :
  cpu_hashes (final_flush w) = counted w.
Proof.
  unfold final_flush, counted.
  destruct (processed_since_last_flush w =? 0) eqn:E; cbn [negb cpu_hashes].
  - apply Z.eqb_eq in E. lia.
  - reflexivity.
Qed.

Lemma final_flush_client (w : worker) : client (final_flush w) = client w.
Proof.
  unfold final_flush.
  destruct (negb (processed_since_last_flush w =? 0)); reflexivity.
Qed.

Lemma hash_nonce_skipped algo h blob wb out nonce wb1 out1 :
  hash_nonce algo h blob wb out nonce = Skipped wb1 out1 ->
  yc_lib algo h <> None.
Proof.
  unfold hash_nonce. intros H E. rewrite E in H.
  destruct (is_cosmic algo).
  - destruct (hash_single_cpu h blob nonce); discriminate.
  - destruct wb as [b|]; [|discriminate].
    destruct (pack_into b 38 nonce) as [b'|]; [|discriminate].
    destruct (rx_lib algo h); [discriminate|].
    destruct (hash_single_cpu h b' 0); discriminate.
Qed.

Lemma breaks_false snap i o :
  stop_set o || pause_set o = false ->
  (Z.land (Z.of_nat i) 31 =? 0) && negb (seen_version o =? version snap)
    = false ->
  breaks snap i o = false.
Proof. intros A B. unfold breaks. rewrite A, B. reflexivity. Qed.

(** The hashes a scan adds to the counter. *)
Lemma cpu_scan_counts algo snap h blob start env due ios (todo : nat) :
  forall (i : nat) (w : worker),
  fst (cpu_scan algo snap h blob start env due ios i todo w) = Done ->
  exists k : nat,
    (k <= todo)%nat
    /\ (forall j : nat, (i <= j < i + k)%nat -> breaks snap j (env j) = false)
    /\ counted w
       <= cpu_hashes (snd (cpu_scan algo snap h blob start env due ios i todo w))
       <= counted w + Z.of_nat k
    /\ (yc_lib algo h = None ->
        cpu_hashes (snd (cpu_scan algo snap h blob start env due ios i todo w))
          = counted w + Z.of_nat k
        /\ ((k < todo)%nat -> breaks snap (i + k) (env (i + k)%nat) = true)).
Proof.
  induction todo as [|todo IH]; intros i w.
  - cbn [cpu_scan fst snd]. intros _. exists 0%nat.
    rewrite final_flush_counted.
    split; [lia|]. split; [intros j Hj; lia|]. split; [lia|].
    intros _. split; [lia | intros Hk; lia].
  - cbn [cpu_scan].
    assert (Hstop : breaks snap i (env i) = true ->
      exists k : nat,
        (k <= S todo)%nat
        /\ (forall j : nat, (i <= j < i + k)%nat ->
              breaks snap j (env j) = false)
        /\ counted w <= cpu_hashes (snd (Done, final_flush w))
           <= counted w + Z.of_nat k
        /\ (yc_lib algo h = None ->
            cpu_hashes (snd (Done, final_flush w)) = counted w + Z.of_nat k
            /\ ((k < S todo)%nat ->
                breaks snap (i + k) (env (i + k)%nat) = true))).
    { intros Hb. exists 0%nat. cbn [snd]. rewrite final_flush_counted.
      split; [lia|]. split; [intros j Hj; lia|]. split; [lia|].
      intros _. split; [lia|]. intros _. rewrite Nat.add_0_r. exact Hb. }
    destruct (stop_set (env i) || pause_set (env i)) eqn:Eflags.
    { intros _. apply Hstop. unfold breaks. rewrite Eflags. reflexivity. }
    destruct ((Z.land (Z.of_nat i) 31 =? 0)
              && negb (seen_version (env i) =? version snap)) eqn:Ever.
    { intros _. apply Hstop. unfold breaks. rewrite Eflags, Ever. reflexivity. }
    clear Hstop.
    pose proof (breaks_false snap i (env i) Eflags Ever) as Hi.
    destruct (hash_nonce algo h blob (work_buf w) (output_array w)
                (start + Z.of_nat i)) as [wb out rh | wb out | e] eqn:Eh.
    + set (c' := if cpu_meets algo snap out rh
                 then snd (submit_share (job_id snap) (start + Z.of_nat i)
                             (match rh with None => out | Some d => d end)
                             (ios i) (client w))
                 else client w).
      cbv zeta.
      match goal with
      | |- context [if ?b then cpu_scan _ _ _ _ _ _ _ _ _ _ ?w1
                    else cpu_scan _ _ _ _ _ _ _ _ _ _ ?w2] =>
          assert (Hw : exists w', counted w' = counted w + 1
                    /\ (if b
                        then cpu_scan algo snap h blob start env due ios
                               (S i) todo w1
                        else cpu_scan algo snap h blob start env due ios
                               (S i) todo w2)
                       = cpu_scan algo snap h blob start env due ios
                           (S i) todo w')
      end.
      { destruct ((64 <=? processed_since_last_flush w + 1)
                  || (0 <? processed_since_last_flush w + 1) && due i);
          eexists; (split; [|reflexivity]); unfold counted;
          cbn [cpu_hashes processed_since_last_flush]; lia. }
      destruct Hw as (w' & Hc & ->). intros Hd.
      destruct (IH (S i) w' Hd) as (k & Hk & Hrun & Hcnt & Hex).
      exists (S k). split; [lia|]. split.
      { intros j Hj. destruct (Nat.eq_dec j i) as [->|Hne]; [exact Hi|].
        apply Hrun. lia. }
      split; [lia|]. intros Hy. destruct (Hex Hy) as [A B].
      split; [lia|]. intros Hlt.
      replace (i + S k)%nat with (S i + k)%nat by lia. apply B. lia.
    + intros Hd.
      match type of Hd with
      | fst (cpu_scan _ _ _ _ _ _ _ _ _ _ ?w1) = _ => set (w' := w1) in *
      end.
      assert (Hc : counted w' = counted w) by reflexivity.
      destruct (IH (S i) w' Hd) as (k & Hk & Hrun & Hcnt & Hex).
      exists (S k). split; [lia|]. split.
      { intros j Hj. destruct (Nat.eq_dec j i) as [->|Hne]; [exact Hi|].
        apply Hrun. lia. }
      split; [lia|]. intros Hy.
      exfalso. exact (hash_nonce_skipped _ _ _ _ _ _ _ _ Eh Hy).
    + cbn [fst]. discriminate.
Qed.

(** The shares a scan sends. *)
Lemma cpu_scan_shares algo snap h blob start env due ios (todo : nat) :
  forall (i : nat) (w : worker),
  exists k : nat,
    (k <= todo)%nat
    /\ (forall j : nat, (i <= j < i + k)%nat -> breaks snap j (env j) = false)
    /\ shares_sent (client w)
       <= shares_sent
            (client (snd (cpu_scan algo snap h blob start env due ios i todo w)))
       <= shares_sent (client w) + Z.of_nat k
    /\ worker_id
         (client (snd (cpu_scan algo snap h blob start env due ios i todo w)))
       = worker_id (client w)
    /\ exists sent,
         outbox
           (client (snd (cpu_scan algo snap h blob start env due ios i todo w)))
         = outbox (client w) ++ sent
         /\ Forall
              (fun req =>
                 exists (j : nat) (id : Z) (d : bytes),
                   (i <= j < i + k)%nat
                   /\ req = submit_request (worker_id (client w)) id
                              (job_id snap) (start + Z.of_nat j) d)
              sent.
Proof.
  induction todo as [|todo IH]; intros i w.
  - cbn [cpu_scan fst snd]. exists 0%nat. rewrite final_flush_client.
    split; [lia|]. split; [intros j Hj; lia|]. split; [lia|].
    split; [reflexivity|].
    exists []. split; [rewrite app_nil_r; reflexivity | constructor].
  - cbn [cpu_scan].
    assert (Hstop : forall (o : outcome) (w1 : worker),
      client w1 = client w ->
      exists k : nat,
        (k <= S todo)%nat
        /\ (forall j : nat, (i <= j < i + k)%nat ->
              breaks snap j (env j) = false)
        /\ shares_sent (client w) <= shares_sent (client (snd (o, w1)))
           <= shares_sent (client w) + Z.of_nat k
        /\ worker_id (client (snd (o, w1))) = worker_id (client w)
        /\ exists sent,
             outbox (client (snd (o, w1))) = outbox (client w) ++ sent
             /\ Forall
                  (fun req =>
                     exists (j : nat) (id : Z) (d : bytes),
                       (i <= j < i + k)%nat
                       /\ req = submit_request (worker_id (client w)) id
                                  (job_id snap) (start + Z.of_nat j) d)
                  sent).
    { intros o w1 E. exists 0%nat. cbn [snd]. rewrite E.
      split; [lia|]. split; [intros j Hj; lia|]. split; [lia|].
      split; [reflexivity|].
      exists []. split; [rewrite app_nil_r; reflexivity | constructor]. }
    destruct (stop_set (env i) || pause_set (env i)) eqn:Eflags.
    { apply Hstop, final_flush_client. }
    destruct ((Z.land (Z.of_nat i) 31 =? 0)
              && negb (seen_version (env i) =? version snap)) eqn:Ever.
    { apply Hstop, final_flush_client. }
    pose proof (breaks_false snap i (env i) Eflags Ever) as Hi.
    destruct (hash_nonce algo h blob (work_buf w) (output_array w)
                (start + Z.of_nat i)) as [wb out rh | wb out | e] eqn:Eh.
    + clear Hstop.
      set (c' := if cpu_meets algo snap out rh
                 then snd (submit_share (job_id snap) (start + Z.of_nat i)
                             (match rh with None => out | Some d => d end)
                             (ios i) (client w))
                 else client w).
      cbv zeta.
      assert (Hc' : shares_sent (client w) <= shares_sent c'
                    <= shares_sent (client w) + 1
                    /\ worker_id c' = worker_id (client w)
                    /\ exists first,
                         outbox c' = outbox (client w) ++ first
                         /\ Forall
                              (fun req =>
                                 exists (id : Z) (d : bytes),
                                   req = submit_request (worker_id (client w))
                                           id (job_id snap)
                                           (start + Z.of_nat i) d)
                              first).
      { subst c'. destruct (cpu_meets algo snap out rh).
        - destruct (GpuFacts.submit_share_effect (job_id snap)
                      (start + Z.of_nat i)
                      (match rh with None => out | Some d => d end)
                      (ios i) (client w))
            as (A & _ & C & _ & [D | D]).
          + split; [lia|]. split; [exact C|]. exists [].
            split; [rewrite app_nil_r; exact D | constructor].
          + split; [lia|]. split; [exact C|]. eexists.
            split; [exact D|]. constructor; [|constructor].
            eexists _, _. reflexivity.
        - split; [lia|]. split; [reflexivity|]. exists [].
          split; [rewrite app_nil_r; reflexivity | constructor]. }
      destruct Hc' as (Hs & Hwid & first & Hfirst & Hall1).
      match goal with
      | |- context [if ?b then cpu_scan _ _ _ _ _ _ _ _ _ _ ?w1
                    else cpu_scan _ _ _ _ _ _ _ _ _ _ ?w2] =>
          assert (Hw : exists w', client w' = c'
                    /\ (if b
                        then cpu_scan algo snap h blob start env due ios
                               (S i) todo w1
                        else cpu_scan algo snap h blob start env due ios
                               (S i) todo w2)
                       = cpu_scan algo snap h blob start env due ios
                           (S i) todo w')
      end.
      { destruct ((64 <=? processed_since_last_flush w + 1)
                  || (0 <? processed_since_last_flush w + 1) && due i);
          eexists; (split; [|reflexivity]); reflexivity. }
      destruct Hw as (w' & Hcl & ->).
      destruct (IH (S i) w') as (k & Hk & Hrun & Hsent & Hw & sent & Hout & Hall).
      rewrite Hcl in Hsent, Hw, Hout, Hall.
      exists (S k). split; [lia|]. split.
      { intros j Hj. destruct (Nat.eq_dec j i) as [->|Hne]; [exact Hi|].
        apply Hrun. lia. }
      split; [lia|]. split; [congruence|].
      exists (first ++ sent). split.
      { rewrite Hout, Hfirst, app_assoc. reflexivity. }
      apply Forall_app. split.
      * eapply Forall_impl; [exact Hall1|].
        intros req (id & d & ->). exists i, id, d. split; [lia | reflexivity].
      * eapply Forall_impl; [exact Hall|].
        intros req (j & id & d & Hj & ->). exists j, id, d.
        split; [lia|]. rewrite Hwid. reflexivity.
    + clear Hstop.
      match goal with
      | |- context [cpu_scan _ _ _ _ _ _ _ _ _ _ ?w1] => set (w' := w1)
      end.
      assert (Hcl : client w' = client w) by reflexivity.
      destruct (IH (S i) w') as (k & Hk & Hrun & Hsent & Hw & sent & Hout & Hall).
      rewrite Hcl in Hsent, Hw, Hout, Hall.
      exists (S k). split; [lia|]. split.
      { intros j Hj. destruct (Nat.eq_dec j i) as [->|Hne]; [exact Hi|].
        apply Hrun. lia. }
      split; [lia|]. split; [exact Hw|].
      exists sent. split; [exact Hout|].
      eapply Forall_impl; [exact Hall|].
      intros req (j & id & d & Hj & ->). exists j, id, d.
      split; [lia | reflexivity].
    + apply Hstop. reflexivity.
Qed.

Lemma next_look_spec (j : nat) :
  (j <= next_look j < j + 32)%nat /\ Z.land (Z.of_nat (next_look j)) 31 = 0.
Proof.
  unfold next_look.
  pose proof (Nat.div_mod (j + 31) 32 ltac:(lia)) as H.
  pose proof (Nat.mod_upper_bound (j + 31) 32 ltac:(lia)) as Hm.
  split; [lia|].
  change 31 with (Z.ones 5). rewrite Z.land_ones by lia.
  rewrite Nat2Z.inj_mul. change (Z.of_nat 32) with (2 ^ 5).
  rewrite Z.mul_comm. apply Z.mod_mul. lia.
Qed.

(** A scan does not go past the first look at a job that has changed. *)
Lemma stale_bound snap env (j0 k : nat) :
  (forall j : nat, (j0 <= j)%nat -> seen_version (env j) <> version snap) ->
  (forall j : nat, (0 <= j < 0 + k)%nat -> breaks snap j (env j) = false) ->
  (k <= next_look j0)%nat.
Proof.
  intros Hv Hrun. destruct (next_look_spec j0) as [Hb Hl].
  destruct (Nat.le_gt_cases k (next_look j0)) as [|Hgt]; [assumption|].
  exfalso. specialize (Hrun (next_look j0) ltac:(lia)).
  unfold breaks in Hrun. rewrite Hl in Hrun.
  specialize (Hv (next_look j0) ltac:(lia)).
  apply Z.eqb_neq in Hv. rewrite Hv in Hrun.
  cbn in Hrun. rewrite orb_true_r in Hrun. discriminate.
Qed.

(** X19: A batch of the CPU worker does not outlive its job by more
    than 31 nonces: when the job version is no longer the snapshot's
    from turn [j0] on, the batch stops at the next turn that looks at
    it, the first multiple of 32 from [j0].  Such a batch adds at most
    that many hashes to the counter and submits shares only for nonces
    below it, all for the job of the snapshot. *)
Theorem stale_job_ends_the_batch algo snap h blob start env due ios w
    (j0 : nat) :
  (forall j : nat, (j0 <= j)%nat -> seen_version (env j) <> version snap) ->
  (next_look j0 < j0 + 32)%nat
  /\ (fst (run_batch algo snap h blob start env due ios w) = Done ->
      cpu_hashes (snd (run_batch algo snap h blob start env due ios w))
        <= cpu_hashes w + Z.of_nat (next_look j0))
  /\ shares_sent (client (snd (run_batch algo snap h blob start env due ios w)))
     <= shares_sent (client w) + Z.of_nat (next_look j0)
  /\ exists sent,
       outbox (client (snd (run_batch algo snap h blob start env due ios w)))
       = outbox (client w) ++ sent
       /\ Forall
            (fun req =>
               exists (j : nat) (id : Z) (d : bytes),
                 (j < next_look j0)%nat
                 /\ req = submit_request (worker_id (client w)) id
                            (job_id snap) (start + Z.of_nat j) d)
            sent.
Proof.
  intros Hv. unfold run_batch.
  split; [apply next_look_spec|]. split.
  - intros Hd.
    destruct (cpu_scan_counts algo snap h blob start env due ios batch 0
                (start_batch w) Hd) as (k & _ & Hrun & Hcnt & _).
    pose proof (stale_bound snap env j0 k Hv Hrun) as Hk.
    unfold counted in Hcnt. cbn [start_batch cpu_hashes
      processed_since_last_flush] in Hcnt. lia.
  - destruct (cpu_scan_shares algo snap h blob start env due ios batch 0
                (start_batch w))
      as (k & _ & Hrun & Hsent & _ & sent & Hout & Hall).
    pose proof (stale_bound snap env j0 k Hv Hrun) as Hk.
    cbn [start_batch client] in Hsent, Hout, Hall.
    split; [lia|]. exists sent. split; [exact Hout|].
    eapply Forall_impl; [exact Hall|].
    intros req (j & id & d & Hj & ->). exists j, id, d.
    split; [lia | reflexivity].
Qed.

Lemma stale_job_ends_the_batch_witness :
  (forall j : nat, (40 <= j)%nat ->
     seen_version (CpuSamples.fresh_until 40 1 j)
       <> version (job_state (CpuSamples.mining 0)))
  /\ next_look 40 = 64%nat
  /\ fst (run_batch RANDOMX (job_state (CpuSamples.mining 0))
            CpuSamples.native CpuSamples.blob 0
            (CpuSamples.fresh_until 40 1) (fun _ => false) (fun _ => Sent)
            CpuSamples.ready) = Done
  /\ cpu_hashes
       (snd (run_batch RANDOMX (job_state (CpuSamples.mining 0))
               CpuSamples.native CpuSamples.blob 0
               (CpuSamples.fresh_until 40 1) (fun _ => false) (fun _ => Sent)
               CpuSamples.ready)) <= 0 + Z.of_nat (next_look 40).
Proof.
  assert (Hv : forall j : nat, (40 <= j)%nat ->
            seen_version (CpuSamples.fresh_until 40 1 j)
              <> version (job_state (CpuSamples.mining 0))).
  { intros j Hj. unfold CpuSamples.fresh_until. cbn [seen_version].
    destruct (j <? 40)%nat eqn:E; [apply Nat.ltb_lt in E; lia|].
    cbn. lia. }
  split; [exact Hv|]. split; [reflexivity|].
  assert (Hd : fst (run_batch RANDOMX (job_state (CpuSamples.mining 0))
            CpuSamples.native CpuSamples.blob 0
            (CpuSamples.fresh_until 40 1) (fun _ => false) (fun _ => Sent)
            CpuSamples.ready) = Done) by (vm_compute; reflexivity).
  split; [exact Hd|].
  destruct (stale_job_ends_the_batch RANDOMX (job_state (CpuSamples.mining 0))
              CpuSamples.native CpuSamples.blob 0
              (CpuSamples.fresh_until 40 1) (fun _ => false) (fun _ => Sent)
              CpuSamples.ready 40%nat Hv) as (_ & H & _).
  exact (H Hd).
Defined.

(** X20: With the RandomX library or [hash_single_cpu] (no Yescrypt
    call that can fail), a batch that ends normally adds to [cpu_hashes]
    exactly the number of nonces it hashed, whenever the flushes took
    place: it hashed the turns before the first one that asked it to
    stop, or all 1000. *)
Theorem every_hash_is_counted algo snap h blob start env due ios w :
  yc_lib algo h = None ->
  fst (run_batch algo snap h blob start env due ios w) = Done ->
  exists k : nat,
    (k <= batch)%nat
    /\ (forall j : nat, (j < k)%nat -> breaks snap j (env j) = false)
    /\ ((k < batch)%nat -> breaks snap k (env k) = true)
    /\ cpu_hashes (snd (run_batch algo snap h blob start env due ios w))
       = cpu_hashes w + Z.of_nat k.
Proof.
  unfold run_batch. intros Hy Hd.
  destruct (cpu_scan_counts algo snap h blob start env due ios batch 0
              (start_batch w) Hd) as (k & Hk & Hrun & _ & Hex).
  destruct (Hex Hy) as [Hc Hend].
  exists k. split; [exact Hk|]. split; [intros j Hj; apply Hrun; lia|].
  split; [exact Hend|].
  rewrite Hc. unfold counted.
  cbn [start_batch cpu_hashes processed_since_last_flush]. lia.
Qed.

Lemma every_hash_is_counted_witness :
  yc_lib RANDOMX CpuSamples.native = None
  /\ fst (run_batch RANDOMX (job_state (CpuSamples.mining 0))
            CpuSamples.native CpuSamples.blob 0
            (CpuSamples.fresh_until 40 1) (fun _ => false) (fun _ => Sent)
            CpuSamples.ready) = Done
  /\ exists k : nat,
       (k <= batch)%nat
       /\ cpu_hashes
            (snd (run_batch RANDOMX (job_state (CpuSamples.mining 0))
                    CpuSamples.native CpuSamples.blob 0
                    (CpuSamples.fresh_until 40 1) (fun _ => false)
                    (fun _ => Sent) CpuSamples.ready))
          = 0 + Z.of_nat k.
Proof.
  assert (Hd : fst (run_batch RANDOMX (job_state (CpuSamples.mining 0))
            CpuSamples.native CpuSamples.blob 0
            (CpuSamples.fresh_until 40 1) (fun _ => false) (fun _ => Sent)
            CpuSamples.ready) = Done) by (vm_compute; reflexivity).
  split; [reflexivity|]. split; [exact Hd|].
  destruct (every_hash_is_counted RANDOMX (job_state (CpuSamples.mining 0))
              CpuSamples.native CpuSamples.blob 0
              (CpuSamples.fresh_until 40 1) (fun _ => false) (fun _ => Sent)
              CpuSamples.ready eq_refl Hd) as (k & Hk & _ & _ & Hc).
  exists k. split; [exact Hk | exact Hc].
Defined.

(** Two scans that differ only in when the clock asks for a flush. *)
Lemma cpu_scan_clock algo snap h blob start env due due' ios (todo : nat) :
  forall (i : nat) (w w' : worker),
  work_buf w = work_buf w' -> output_array w = output_array w' ->
  client w = client w' -> counted w = counted w' ->
  fst (cpu_scan algo snap h blob start env due ios i todo w)
    = fst (cpu_scan algo snap h blob start env due' ios i todo w')
  /\ client (snd (cpu_scan algo snap h blob start env due ios i todo w))
     = client (snd (cpu_scan algo snap h blob start env due' ios i todo w'))
  /\ work_buf (snd (cpu_scan algo snap h blob start env due ios i todo w))
     = work_buf (snd (cpu_scan algo snap h blob start env due' ios i todo w'))
  /\ output_array (snd (cpu_scan algo snap h blob start env due ios i todo w))
     = output_array
         (snd (cpu_scan algo snap h blob start env due' ios i todo w'))
  /\ (fst (cpu_scan algo snap h blob start env due ios i todo w) = Done ->
      cpu_hashes (snd (cpu_scan algo snap h blob start env due ios i todo w))
      = cpu_hashes
          (snd (cpu_scan algo snap h blob start env due' ios i todo w'))).
Proof.
  assert (Hflush : forall w w' : worker,
    work_buf w = work_buf w' -> output_array w = output_array w' ->
    client w = client w' -> counted w = counted w' ->
    fst (Done, final_flush w) = fst (Done, final_flush w')
    /\ client (snd (Done, final_flush w)) = client (snd (Done, final_flush w'))
    /\ work_buf (snd (Done, final_flush w))
       = work_buf (snd (Done, final_flush w'))
    /\ output_array (snd (Done, final_flush w))
       = output_array (snd (Done, final_flush w'))
    /\ (fst (Done, final_flush w) = Done ->
        cpu_hashes (snd (Done, final_flush w))
        = cpu_hashes (snd (Done, final_flush w')))).
  { intros w w' Hb Ho Hc Hn. cbn [fst snd].
    rewrite !final_flush_counted, !final_flush_client.
    split; [reflexivity|]. split; [exact Hc|].
    split; [|split; [|intros _; exact Hn]].
    - unfold final_flush.
      destruct (negb (processed_since_last_flush w =? 0)),
               (negb (processed_since_last_flush w' =? 0)); exact Hb.
    - unfold final_flush.
      destruct (negb (processed_since_last_flush w =? 0)),
               (negb (processed_since_last_flush w' =? 0)); exact Ho. }
  induction todo as [|todo IH]; intros i w w' Hb Ho Hc Hn.
  - cbn [cpu_scan]. apply Hflush; assumption.
  - cbn [cpu_scan].
    destruct (stop_set (env i) || pause_set (env i)).
    { apply Hflush; assumption. }
    destruct ((Z.land (Z.of_nat i) 31 =? 0)
              && negb (seen_version (env i) =? version snap)).
    { apply Hflush; assumption. }
    rewrite <- Hb, <- Ho, <- Hc.
    destruct (hash_nonce algo h blob (work_buf w) (output_array w)
                (start + Z.of_nat i)) as [wb out rh | wb out | e].
    + cbv zeta.
      destruct ((64 <=? processed_since_last_flush w + 1)
                || (0 <? processed_since_last_flush w + 1) && due i),
               ((64 <=? processed_since_last_flush w' + 1)
                || (0 <? processed_since_last_flush w' + 1) && due' i);
        apply IH; try reflexivity; unfold counted in *;
        cbn [cpu_hashes processed_since_last_flush]; lia.
    + apply IH; try reflexivity; exact Hn.
    + cbn [fst snd]. split; [reflexivity|]. split; [exact Hc|].
      split; [exact Hb|]. split; [exact Ho|]. discriminate.
Qed.

(** X21: The clock of the one-second flush does not change what a
    batch does: whatever the turns on which a second has passed, the
    batch ends the same way, leaves the same client (the same shares
    sent) and the same buffers, and, when it ends normally, the same
    [cpu_hashes]. *)
Theorem flush_clock_is_immaterial algo snap h blob start env due due' ios w :
  fst (run_batch algo snap h blob start env due ios w)
    = fst (run_batch algo snap h blob start env due' ios w)
  /\ client (snd (run_batch algo snap h blob start env due ios w))
     = client (snd (run_batch algo snap h blob start env due' ios w))
  /\ work_buf (snd (run_batch algo snap h blob start env due ios w))
     = work_buf (snd (run_batch algo snap h blob start env due' ios w))
  /\ output_array (snd (run_batch algo snap h blob start env due ios w))
     = output_array (snd (run_batch algo snap h blob start env due' ios w))
  /\ (fst (run_batch algo snap h blob start env due ios w) = Done ->
      cpu_hashes (snd (run_batch algo snap h blob start env due ios w))
      = cpu_hashes (snd (run_batch algo snap h blob start env due' ios w))).
Proof.
  unfold run_batch. apply cpu_scan_clock; reflexivity.
Qed.

Lemma pack_into_some (wb wb' : bytes) (nonce : Z) :
  pack_into wb 38 nonce = Some wb' ->
  0 <= nonce < 4294967296 /\ (42 <= length wb)%nat
  /\ wb' = take 38 wb ++ le_bytes4 nonce ++ drop 42 wb.
Proof.
  unfold pack_into. intros H.
  destruct ((0 <=? nonce) && (nonce <? 4294967296)
            && (38 + 4 <=? length wb)%nat) eqn:E; [|discriminate].
  apply andb_true_iff in E. destruct E as [E E3].
  apply andb_true_iff in E. destruct E as [E1 E2].
  apply Z.leb_le in E1. apply Z.ltb_lt in E2. apply Nat.leb_le in E3.
  injection H as <-. split; [lia|]. split; [lia|]. reflexivity.
Qed.

Lemma pack_into_overflow (wb : bytes) (nonce : Z) :
  4294967296 <= nonce -> pack_into wb 38 nonce = None.
Proof.
  intros H. unfold pack_into.
  assert (E : (nonce <? 4294967296) = false) by (apply Z.ltb_ge; exact H).
  rewrite E, andb_false_r. reflexivity.
Qed.

(** X22: The nonce field of a RandomX or Yescrypt input: a turn of the
    CPU worker that hashes a nonce has written it as four little-endian
    bytes at offsets 38 to 41 of its buffer, which keeps its length and
    all its other bytes; with the RandomX library the output array is
    the digest of that buffer.  Such a turn exists only for a nonce
    below 2^32 and a buffer of at least 42 bytes. *)
Theorem nonce_field_is_little_endian algo h blob (wb : bytes) out nonce
    wb1 out1 rh :
  is_cosmic algo = false ->
  hash_nonce algo h blob (Some wb) out nonce = Digest wb1 out1 rh ->
  0 <= nonce < 4294967296 /\ (42 <= length wb)%nat
  /\ exists wb' : bytes,
       wb1 = Some wb'
       /\ length wb' = length wb
       /\ take 38 wb' = take 38 wb
       /\ drop 42 wb' = drop 42 wb
       /\ int_from_bytes_little (take 4 (drop 38 wb')) = nonce
       /\ (forall f, rx_lib algo h = Some f -> out1 = f wb').
Proof.
  intros Hc H. unfold hash_nonce in H. rewrite Hc in H.
  destruct (pack_into wb 38 nonce) as [wb'|] eqn:Ep; [|discriminate].
  destruct (pack_into_some wb wb' nonce Ep) as (Hn & Hl & Hwb).
  split; [exact Hn|]. split; [exact Hl|].
  assert (Hw1 : wb1 = Some wb'
                /\ forall f, rx_lib algo h = Some f -> out1 = f wb').
  { destruct (rx_lib algo h) as [f|].
    - injection H as <- <- _. split; [reflexivity|].
      intros f0 E. injection E as <-. reflexivity.
    - split; [|intros f E; discriminate].
      destruct (yc_lib algo h) as [g|].
      + destruct (g wb') as [rc o]. destruct (negb (rc =? 0)); [discriminate|].
        injection H as <- _ _. reflexivity.
      + destruct (hash_single_cpu h wb' 0); [|discriminate].
        injection H as <- _ _. reflexivity. }
  destruct Hw1 as [Hw1 Hout]. exists wb'. split; [exact Hw1|].
  assert (Ht : length (take 38 wb) = 38%nat).
  { rewrite length_take. lia. }
  assert (Hl4 : length (le_bytes4 nonce) = 4%nat) by reflexivity.
  split.
  { rewrite Hwb, !length_app, Ht, Hl4, length_drop. lia. }
  split.
  { rewrite Hwb. apply take_app_length'. symmetry. exact Ht. }
  split.
  { rewrite Hwb, app_assoc. apply drop_app_length'.
    rewrite length_app, Ht, Hl4. reflexivity. }
  split; [|exact Hout].
  rewrite Hwb, (drop_app_length' _ _ 38) by (symmetry; exact Ht).
  rewrite (take_app_length' _ _ 4) by reflexivity.
  apply le_bytes4_value. exact Hn.
Qed.

Lemma nonce_field_is_little_endian_witness :
  is_cosmic RANDOMX = false
  /\ hash_nonce RANDOMX CpuSamples.native CpuSamples.blob
       (Some CpuSamples.blob) (repeat x00 32) 3
     = Digest (Some (repeat x11 38 ++ [x03; x00; x00; x00] ++ repeat x11 34))
         Samples.digest_00 None
  /\ 0 <= 3 < 4294967296.
Proof.
  assert (H : hash_nonce RANDOMX CpuSamples.native CpuSamples.blob
                (Some CpuSamples.blob) (repeat x00 32) 3
              = Digest
                  (Some (repeat x11 38 ++ [x03; x00; x00; x00]
                         ++ repeat x11 34))
                  Samples.digest_00 None) by (vm_compute; reflexivity).
  split; [reflexivity|]. split; [exact H|].
  destruct (nonce_field_is_little_endian RANDOMX CpuSamples.native
              CpuSamples.blob CpuSamples.blob (repeat x00 32) 3 _ _ _
              eq_refl H) as (Hn & _).
  exact Hn.
Defined.

(** A turn that is not stopped and whose nonce does not fit 32 bits
    ends the scan. *)
Lemma cpu_scan_overflow algo snap h blob start env due ios (todo i : nat)
    (w : worker) (b : bytes) :
  is_cosmic algo = false ->
  work_buf w = Some b ->
  breaks snap i (env i) = false ->
  4294967296 <= start + Z.of_nat i ->
  cpu_scan algo snap h blob start env due ios i (S todo) w
  = (Raised (Exception "struct.error"), w).
Proof.
  intros Hc Hw Hb Hn. cbn [cpu_scan].
  unfold breaks in Hb. apply orb_false_elim in Hb. destruct Hb as [Hb1 Hb2].
  rewrite Hb1, Hb2.
  unfold hash_nonce. rewrite Hc, Hw.
  rewrite (pack_into_overflow b _ Hn). reflexivity.
Qed.

(** X23: Nonces are not wrapped: once the session's nonce cursor has
    reached 2^32, a pass of a RandomX or Yescrypt CPU worker that finds
    a job takes its 1000 nonces and ends the thread with [struct.error]
    on the first of them, without a hash counted or a share sent. *)
Theorem nonce_overflow_ends_the_worker algo h env due ios last w s snap :
  is_cosmic algo = false ->
  _snapshot_job s = Some snap ->
  4294967296 <= nonce_cursor s ->
  breaks snap 0 (env 0%nat) = false ->
  fst (fst (cpu_pass algo h env due ios last w s))
    = Raised (Exception "struct.error")
  /\ nonce_cursor (snd (cpu_pass algo h env due ios last w s))
     = nonce_cursor s + 1000
  /\ cpu_hashes (snd (snd (fst (cpu_pass algo h env due ios last w s))))
     = cpu_hashes w
  /\ client (snd (snd (fst (cpu_pass algo h env due ios last w s))))
     = client w.
Proof.
  intros Hc Hsnap Hn Hb. unfold cpu_pass. rewrite Hsnap.
  set (blob := match blob_bytes snap with Some b => b | None => [] end).
  assert (Hp : exists (b : bytes) (l : option Z),
            prepare algo snap blob last (work_buf w) = (Some b, l)).
  { unfold prepare. rewrite Hc.
    destruct (negb (match last with
                    | Some v => v =? version snap
                    | None => false
                    end)); cbn [orb]; [eauto|].
    destruct (work_buf w) as [b|]; eauto. }
  destruct Hp as (b & l & ->).
  unfold _alloc_nonces, run_batch.
  change batch with (S 999).
  match goal with
  | |- context [cpu_scan _ _ _ _ _ _ _ _ _ _ ?w0] =>
      rewrite (cpu_scan_overflow algo snap h blob (nonce_cursor s) env due ios
                 999 0 w0 b Hc eq_refl Hb) by (cbn [Z.of_nat]; lia)
  end.
  cbn [fst snd nonce_cursor cpu_hashes client start_batch].
  split; [reflexivity|]. split; [reflexivity|]. split; reflexivity.
Qed.

Lemma nonce_overflow_ends_the_worker_witness :
  is_cosmic RANDOMX = false
  /\ _snapshot_job (CpuSamples.mining 4294967296)
     = Some (job_state (CpuSamples.mining 4294967296))
  /\ fst (fst (cpu_pass RANDOMX CpuSamples.native
                 (CpuSamples.fresh_until 40 1) (fun _ => false)
                 (fun _ => Sent) None CpuSamples.idle
                 (CpuSamples.mining 4294967296)))
     = Raised (Exception "struct.error").
Proof.
  split; [reflexivity|]. split; [reflexivity|].
  destruct (nonce_overflow_ends_the_worker RANDOMX CpuSamples.native
              (CpuSamples.fresh_until 40 1) (fun _ => false) (fun _ => Sent)
              None CpuSamples.idle (CpuSamples.mining 4294967296)
              (job_state (CpuSamples.mining 4294967296))
              eq_refl eq_refl ltac:(cbn; lia) eq_refl) as (H & _).
  exact H.
Defined.

End CpuFacts.


(** ** The blob of a job, from hexadecimal to the workers *)

Module CodecFacts.
Import Py Session Jobs.

Lemma hex_digit_not_space (d : Z) :
  0 <= d < 16 -> is_space (hex_digit d) = false.
Proof.
  intros H.
  assert (C : d = 0 \/ d = 1 \/ d = 2 \/ d = 3 \/ d = 4 \/ d = 5 \/ d = 6
              \/ d = 7 \/ d = 8 \/ d = 9 \/ d = 10 \/ d = 11 \/ d = 12
              \/ d = 13 \/ d = 14 \/ d = 15) by lia.
  repeat (destruct C as [-> | C]; [reflexivity|]). subst d. reflexivity.
Qed.

Lemma byte_val_bounds (x : byte) : 0 <= byte_val x < 256.
Proof.
  unfold byte_val. pose proof (Byte.to_N_bounded x) as H. lia.
Qed.

(** [bytes.fromhex] reads back what [hex] writes. *)
Lemma fromhex_hex (b : bytes) : bytes_fromhex (bytes_hex b) = Some b.
Proof.
  induction b as [|x r IH]; [reflexivity|].
  pose proof (byte_val_bounds x) as Hx.
  assert (Hhi : 0 <= byte_val x / 16 < 16).
  { split; [apply Z.div_pos; lia | apply Z.div_lt_upper_bound; lia]. }
  assert (Hlo : 0 <= byte_val x mod 16 < 16) by (apply Z.mod_pos_bound; lia).
  cbn [bytes_hex bytes_fromhex].
  rewrite (hex_digit_not_space _ Hhi).
  rewrite (HexFacts.hex_val_digit _ Hhi), (HexFacts.hex_val_digit _ Hlo), IH.
  rewrite <- (Z.div_mod (byte_val x) 16) by lia.
  rewrite CpuFacts.byte_of_Z_val. reflexivity.
Qed.

(** X24: The blob survives the trip to the workers: when an update
    installs a job whose blob is the hexadecimal writing of the bytes
    [b], at least one of them, the next snapshot carries exactly [b] as
    [blob_bytes], beside the job's id and the next version, and the
    nonces start again from 0. *)
Theorem blob_reaches_the_workers int_of_str algo (job : dict) (s : session)
    (b : bytes) :
  get job "blob" = JStr (bytes_hex b) ->
  b <> [] ->
  installs int_of_str job s = true ->
  exists snap : JobState,
    _snapshot_job (snd (_update_job_from_stratum int_of_str algo job s))
      = Some snap
    /\ blob_bytes snap = Some b
    /\ job_id snap = get job "job_id"
    /\ version snap = version (job_state s) + 1
    /\ nonce_cursor (snd (_update_job_from_stratum int_of_str algo job s)) = 0.
Proof.
  intros Hblob Hne. unfold installs, _update_job_from_stratum.
  destruct (int int_of_str _) as [pd|]; [|discriminate].
  destruct (truthy (get job "job_id")) eqn:Tid; [|discriminate].
  destruct (truthy (get job "blob")); [|discriminate].
  cbn [negb orb andb]. rewrite Hblob, fromhex_hex.
  destruct (targets_of algo pd) as [[t64 t256] tc32].
  cbn [andb]. intros Hnew. rewrite Hnew.
  assert (Hs : forall (o : outcome) (s0 : session),
             snd (if sliceable (get job "job_id") then (Done, s0)
                  else (o, s0)) = s0).
  { intros o s0. destruct (sliceable _); reflexivity. }
  rewrite Hs. unfold _snapshot_job. cbn [job_state job_id blob_bytes].
  rewrite Tid. destruct b as [|x r]; [contradiction|].
  cbn [negb orb]. eexists. split; [reflexivity|].
  cbn [blob_bytes job_id version nonce_cursor].
  repeat split; reflexivity.
Qed.

Lemma blob_reaches_the_workers_witness :
  get (Samples.job "j1" 2 true) "blob" = JStr (bytes_hex [x00; xff])
  /\ installs Samples.no_int_of_str (Samples.job "j1" 2 true) initial = true
  /\ exists snap : JobState,
       _snapshot_job
         (snd (_update_job_from_stratum Samples.no_int_of_str RANDOMX
                 (Samples.job "j1" 2 true) initial)) = Some snap
       /\ blob_bytes snap = Some [x00; xff].
Proof.
  split; [reflexivity|]. split; [reflexivity|].
  destruct (blob_reaches_the_workers Samples.no_int_of_str RANDOMX
              (Samples.job "j1" 2 true) initial [x00; xff]
              eq_refl ltac:(discriminate) eq_refl) as (snap & H1 & H2 & _).
  exists snap. split; [exact H1 | exact H2].
Defined.

End CodecFacts.
